(** * Monitoring scripts: the endpoint health checker and the host health monitor

    A shallow embedding of [monitoring-scripts/app_health_checker.py] and
    [monitoring-scripts/system_health_monitor.py], and the properties of the
    probe / classify / schedule / report pipeline proved about it.

    Conventions of the embedding.
    - A Python [str] is a [string] of ASCII characters (curl's status
      write-out, the threshold option and the target files are ASCII text);
      the marks the scripts print are carried as their UTF-8 bytes.
    - A Python [int] is a [Z], and [int(s)] converts a literal of at most
      4300 digits, the default limit of the interpreter; a Python [float] is
      a binary64 [float], with the IEEE operations of the kernel.
    - A Python computation that may raise is a value of [res]; [try ... except]
      is [try_except].
    - Everything the scripts obtain from outside (child processes, files, the
      clock, the interrupt) is read from an explicit environment. *)

From Stdlib Require Import ZArith QArith Qpower Ascii String Lia Bool.
From Stdlib Require Import DecimalString DecimalPos.
From Stdlib Require Import Floats.PrimFloat Floats.SpecFloat Floats.FloatOps.
From Stdlib Require Import Numbers.Cyclic.Int63.Uint63.
From stdpp Require Import base option list strings gmap.

Local Open Scope Z_scope.

(** ** Python primitives used by the scripts *)
Module Py.

(** Exceptions, by class, with the text [str(e)] gives. *)
Inductive exn_kind :=
  | ValueError | IndexError | KeyError | ZeroDivisionError
  | FileNotFoundError | OSError | TimeoutExpired | OverflowError.

Inductive exn := Exn (k : exn_kind) (text : string).

Definition exn_text (e : exn) : string := let 'Exn _ t := e in t.
Definition exn_class (e : exn) : exn_kind := let 'Exn k _ := e in k.

(** The outcome of evaluating a Python expression. *)
Inductive res (A : Type) :=
  | Ok (a : A)
  | Raise (e : exn).
Arguments Ok {A} a.
Arguments Raise {A} e.

Definition bind {A B} (m : res A) (k : A -> res B) : res B :=
  match m with
  | Ok a => k a
  | Raise e => Raise e
  end.

#[global] Instance res_bind : MBind res := fun A B k m => bind m k.
#[global] Instance res_ret : MRet res := fun A a => Ok a.

(** [try: body except: handler] with a bare [except], which catches every
    exception a [res] can carry. *)
Definition try_except {A} (body : res A) (handler : exn -> res A) : res A :=
  match body with
  | Ok a => Ok a
  | Raise e => handler e
  end.

Definition of_option {A} (e : exn) (o : option A) : res A :=
  match o with
  | Some a => Ok a
  | None => Raise e
  end.

(** *** Characters *)

Definition nl : ascii := "010"%char.
Definition esc : ascii := "027"%char.

(** [str.isspace] on ASCII: TAB, LF, VT, FF, CR, FS, GS, RS, US and space. *)
Definition is_space (c : ascii) : bool :=
  let n := N_of_ascii c in
  ((9 <=? n) && (n <=? 13) || (28 <=? n) && (n <=? 32))%N.

Definition digit_val (c : ascii) : option Z :=
  let n := N_of_ascii c in
  if ((48 <=? n) && (n <=? 57))%N then Some (Z.of_N n - 48) else None.

Definition is_digit (c : ascii) : bool :=
  match digit_val c with Some _ => true | None => false end.

(** *** Strings *)

Definition truthy (s : string) : bool :=
  match s with EmptyString => false | String _ _ => true end.

Fixpoint lstrip (s : string) : string :=
  match s with
  | EmptyString => EmptyString
  | String a s' => if is_space a then lstrip s' else s
  end.

Fixpoint rstrip (s : string) : string :=
  match s with
  | EmptyString => EmptyString
  | String a s' =>
      match rstrip s' with
      | EmptyString => if is_space a then EmptyString else String a EmptyString
      | r => String a r
      end
  end.

(** [s.strip()] *)
Definition strip (s : string) : string := rstrip (lstrip s).

Fixpoint all_digits (s : string) : bool :=
  match s with
  | EmptyString => true
  | String a s' => is_digit a && all_digits s'
  end.

(** [s.isdigit()]: non-empty and every character a digit. *)
Definition isdigit (s : string) : bool := truthy s && all_digits s.

(** [s.startswith(p)] *)
Fixpoint startswith (p s : string) : bool :=
  match p, s with
  | EmptyString, _ => true
  | String a p', String b s' => if Ascii.eqb a b then startswith p' s' else false
  | String _ _, EmptyString => false
  end.

(** [p in s] for strings. *)
Fixpoint contains (p s : string) : bool :=
  startswith p s ||
  match s with
  | EmptyString => false
  | String _ s' => contains p s'
  end.

(** [s.lower()] on ASCII. *)
Definition lower_char (c : ascii) : ascii :=
  let n := N_of_ascii c in
  if ((65 <=? n) && (n <=? 90))%N then ascii_of_N (n + 32) else c.

Fixpoint lower (s : string) : string :=
  match s with
  | EmptyString => EmptyString
  | String a s' => String (lower_char a) (lower s')
  end.

(** [s.split(c)] for a one-character separator: never the empty list. *)
Fixpoint split (c : ascii) (s : string) : list string :=
  match s with
  | EmptyString => [EmptyString]
  | String a s' =>
      if Ascii.eqb a c then EmptyString :: split c s'
      else match split c s' with
           | h :: t => String a h :: t
           | [] => [String a EmptyString]
           end
  end.

(** [s.split()]: the maximal runs of non-whitespace characters. *)
Fixpoint split_ws_go (cur : option string) (s : string) : list string :=
  match s with
  | EmptyString => option_list (String.rev <$> cur)
  | String a s' =>
      if is_space a then option_list (String.rev <$> cur) ++ split_ws_go None s'
      else split_ws_go (Some (String a (default EmptyString cur))) s'
  end.

Definition split_ws (s : string) : list string := split_ws_go None s.

(** [sep.join(l)] *)
Fixpoint join (sep : string) (l : list string) : string :=
  match l with
  | [] => EmptyString
  | [x] => x
  | x :: rest => x +:+ sep +:+ join sep rest
  end.

(** [s * n] *)
Fixpoint str_mul (s : string) (n : nat) : string :=
  match n with
  | O => EmptyString
  | S n' => s +:+ str_mul s n'
  end.

(** [s[:n]] *)
Fixpoint str_take (n : nat) (s : string) : string :=
  match n, s with
  | S n', String a s' => String a (str_take n' s')
  | _, _ => EmptyString
  end.

(** *** Integers *)

(** [str(n)] and [f"{n}"] for an int. *)
Definition str (n : Z) : string := NilZero.string_of_int (Z.to_int n).

(** The digits of an [int()] literal: decimal digits, single underscores
    allowed between digits only. [seen] records that the previous character
    was a digit. *)
Fixpoint int_digits (acc : Z) (seen : bool) (s : string) : option Z :=
  match s with
  | EmptyString => if seen then Some acc else None
  | String a s' =>
      match digit_val a with
      | Some d => int_digits (acc * 10 + d) true s'
      | None =>
          if Ascii.eqb a "_" && seen then int_digits acc false s' else None
      end
  end.

(** [int(s)] for a string: surrounding whitespace dropped, an optional sign,
    then the digits. [None] is [ValueError]. *)
Definition int_opt (s : string) : option Z :=
  match strip s with
  | String "-" s' => Z.opp <$> int_digits 0 false s'
  | String "+" s' => int_digits 0 false s'
  | s' => int_digits 0 false s'
  end.

(** [c in s] for a character. *)
Fixpoint occurs (c : ascii) (s : string) : bool :=
  match s with
  | EmptyString => false
  | String a s' => Ascii.eqb a c || occurs c s'
  end.

Definition hex_digit (n : N) : ascii :=
  ascii_of_N (if (n <? 10)%N then 48 + n else 87 + n).

(** One character inside [repr(s)]: the quote and the backslash escaped, TAB,
    LF and CR by letter, the other control characters in hexadecimal. *)
Definition repr_char (quote c : ascii) : string :=
  let n := N_of_ascii c in
  if Ascii.eqb c quote || Ascii.eqb c "\" then String "\" (String c "")
  else if Ascii.eqb c "009" then "\t"
  else if Ascii.eqb c "010" then "\n"
  else if Ascii.eqb c "013" then "\r"
  else if ((n <? 32) || (127 <=? n))%N then
    String "\" (String "x" (String (hex_digit (n / 16))
                              (String (hex_digit (n mod 16)) "")))
  else String c "".

Fixpoint repr_body (quote : ascii) (s : string) : string :=
  match s with
  | EmptyString => EmptyString
  | String a s' => repr_char quote a +:+ repr_body quote s'
  end.

(** [repr(s)]: in single quotes, or in double quotes when [s] has a single
    quote and no double quote. *)
Definition repr (s : string) : string :=
  let quote :=
    if occurs "'" s && negb (occurs "034" s) then "034"%char else "'"%char in
  String quote (repr_body quote s) +:+ String quote "".

(** The number of digits of a literal. *)
Fixpoint digit_count (s : string) : Z :=
  match s with
  | EmptyString => 0
  | String a s' => (if is_digit a then 1 else 0) + digit_count s'
  end.

(** [sys.get_int_max_str_digits()], at its default. *)
Definition max_str_digits : Z := 4300.

(** [int(s)]: [ValueError] for a string that is not a literal, and for a
    literal of more digits than the interpreter converts. *)
Definition int (s : string) : res Z :=
  match int_opt s with
  | None =>
      Raise (Exn ValueError
               ("invalid literal for int() with base 10: " +:+ repr s))
  | Some n =>
      if digit_count s <=? max_str_digits then Ok n
      else
        Raise (Exn ValueError
                 ("Exceeds the limit (" +:+ str max_str_digits
                    +:+ " digits) for integer string conversion: value has "
                    +:+ str (digit_count s)
                    +:+ " digits; use sys.set_int_max_str_digits() "
                    +:+ "to increase the limit"))
  end.

(** *** Time *)

(** The longest sleep the clock can count, in seconds: the nanoseconds must
    fit 64 bits. *)
Definition max_sleep : Z := 9223372036.

(** What [time.sleep(seconds)] raises for an int it does not accept:
    [OverflowError] beyond the clock's range, [ValueError] below zero. *)
Definition time_sleep (seconds : Z) : res unit :=
  if (seconds <? - max_sleep) || (max_sleep <? seconds) then
    Raise (Exn OverflowError "timestamp too large to convert to C _PyTime_t")
  else if seconds <? 0 then
    Raise (Exn ValueError "sleep length must be non-negative")
  else Ok tt.

(** *** Text files *)

(** Universal newlines, as [open(name, 'r')] applies them: CR LF and a lone
    CR both read as LF. *)
Fixpoint universal_newlines (s : string) : string :=
  match s with
  | EmptyString => EmptyString
  | String a s' =>
      if Ascii.eqb a "013" then
        match s' with
        | String b s'' =>
            if Ascii.eqb b nl then String nl (universal_newlines s'')
            else String nl (universal_newlines s')
        | EmptyString => String nl EmptyString
        end
      else String a (universal_newlines s')
  end.

(** The lines a file object yields: each keeps its newline, the last one may
    have none. *)
Fixpoint file_lines (s : string) : list string :=
  match s with
  | EmptyString => []
  | String a s' =>
      if Ascii.eqb a nl then String nl EmptyString :: file_lines s'
      else match file_lines s' with
           | h :: t => String a h :: t
           | [] => [String a EmptyString]
           end
  end.

(** [s.replace(old, "")], the occurrences of [old] found from the left and
    dropped, the search going on after each. [skip] counts the characters of
    the occurrence just found that are still to drop. *)
Fixpoint remove_go (old : string) (skip : nat) (s : string) : string :=
  match s with
  | EmptyString => EmptyString
  | String a s' =>
      match skip with
      | S k => remove_go old k s'
      | O =>
          if startswith old s then remove_go old (String.length old - 1) s'
          else String a (remove_go old 0 s')
      end
  end.

Definition remove (old s : string) : string :=
  if truthy old then remove_go old 0 s else s.

(** [f"{s:<width}"]: [s] padded with spaces on the right, never cut. *)
Definition ljust (width : nat) (s : string) : string :=
  s +:+ str_mul " " (width - String.length s).

End Py.

(** ** app_health_checker.py *)
Module AppHealthChecker.
Import Py.

(** What the child process started by [subprocess.run] does: it exits after
    some seconds with its standard output, never exits, or cannot be started
    (the exception [subprocess.run] then raises). *)
Inductive child :=
  | Exits (elapsed : Q) (stdout : string)
  | NeverExits
  | SpawnFails (e : exn).

(** [subprocess.run(cmd, capture_output=True, text=True, timeout=limit)]: the
    captured output when the child exits within [limit] seconds, and
    [TimeoutExpired] when it has not (the child is then killed). What
    happens to a child that exits at the very end of the wait is a matter of
    scheduling; it is read here, and no property rests on it. *)
Definition subprocess_run (c : child) (limit : Z) : res string :=
  match c with
  | Exits elapsed stdout =>
      if Qle_bool elapsed (inject_Z limit) then Ok stdout
      else Raise (Exn TimeoutExpired "timed out")
  | NeverExits => Raise (Exn TimeoutExpired "timed out")
  | SpawnFails e => Raise e
  end.

(** The [status_code] entry holds an int or one of the sentinel strings. *)
Inductive code :=
  | CodeInt (n : Z)
  | CodeStr (s : string).

Definition code_text (c : code) : string :=
  match c with
  | CodeInt n => str n
  | CodeStr s => s
  end.

(** The dict [check_application_health] returns. *)
Record result := {
  url : string;
  status : string;
  status_code : code;
  message : string;
  timestamp : string
}.

(** The curl command line of one probe. *)
Definition curl_cmd (u : string) (timeout : Z) : list string :=
  ["curl"; "-s"; "-o"; "/dev/null"; "-w"; "%{http_code}";
   "--max-time"; str timeout; "--insecure"; u].

(** The [if/elif] chain on the numeric status code: status and message. *)
Definition classify (status_code : Z) : string * string :=
  if (200 <=? status_code) && (status_code <? 300) then
    ("UP", "Application is functioning correctly")
  else if (300 <=? status_code) && (status_code <? 400) then
    ("UP", "Application is up (redirect)")
  else if (400 <=? status_code) && (status_code <? 500) then
    ("DOWN", "Client error (HTTP " +:+ str status_code +:+ ")")
  else if (500 <=? status_code) && (status_code <? 600) then
    ("DOWN", "Server error (HTTP " +:+ str status_code +:+ ")")
  else
    ("UNKNOWN", "Unexpected status code: " +:+ str status_code).

(** The body of the [try] block, once [subprocess.run] has returned. *)
Definition interpret (u now stdout : string) : res result :=
  let status_code := strip stdout in
  if negb (truthy status_code) || negb (isdigit status_code) then
    Ok {| url := u; status := "DOWN"; status_code := CodeStr "N/A";
          message := "Unable to connect or receive response";
          timestamp := now |}
  else
    status_code ← int status_code;
    let '(st, msg) := classify status_code in
    Ok {| url := u; status := st; status_code := CodeInt status_code;
          message := msg; timestamp := now |}.

(** The two [except] clauses. *)
Definition on_exception (u now : string) (timeout : Z) (e : exn) : result :=
  match exn_class e with
  | TimeoutExpired =>
      {| url := u; status := "DOWN"; status_code := CodeStr "TIMEOUT";
         message := "Request timeout after " +:+ str timeout +:+ " seconds";
         timestamp := now |}
  | _ =>
      {| url := u; status := "DOWN"; status_code := CodeStr "ERROR";
         message := "Error: " +:+ exn_text e;
         timestamp := now |}
  end.

(** [check_application_health(url, timeout)]. [spawn] answers the command
    line with the behaviour of the child; [now] is the formatted clock. *)
Definition check_application_health
    (spawn : list string -> child) (now : string)
    (u : string) (timeout : Z) : result :=
  match
    (stdout ← subprocess_run (spawn (curl_cmd u timeout)) (timeout + 2);
     interpret u now stdout)
  with
  | Ok r => r
  | Raise e => on_exception u now timeout e
  end.

(** [format_result(result)] *)
Definition format_result (r : result) : string :=
  let up := String.eqb (status r) "UP" in
  let status_symbol := if up then "✓" else "✗" in
  let status_color := String esc (if up then "[92m" else "[91m") in
  let reset_color := String esc "[0m" in
  String nl
    (status_color +:+ "[" +:+ status_symbol +:+ "] " +:+ url r +:+ reset_color
       +:+ String nl
    ("    Status: " +:+ status r +:+ String nl
    ("    HTTP Code: " +:+ code_text (status_code r) +:+ String nl
    ("    Message: " +:+ message r +:+ String nl
    ("    Checked at: " +:+ timestamp r +:+ String nl ""))))).

(** *** The environment and the effects of a run *)

Inductive event :=
  | Print (text : string)
  | PrintHelp
  | Run (cmd : list string) (limit : Z)
  | Sleep (seconds : Z).

Record world := {
  (** the child started by the n-th call of [subprocess.run] *)
  spawn : nat -> list string -> child;
  (** [datetime.now().strftime(...)] during the n-th probe *)
  clock : nat -> string;
  (** [open(name, 'r')] and reading it: the text, or the exception *)
  open_file : string -> res string;
  (** the number of iterations of a monitoring loop that have come to their
      sleep when Ctrl+C arrives *)
  ticks : nat;
  (** where Ctrl+C finds the loop: in the probe that starts the next
      iteration, which [subprocess.run] then leaves with
      [KeyboardInterrupt], or in the sleep of the last one (at once, if
      there is none) *)
  in_probe : bool
}.

(** The state threaded through a run: what has been printed and started so
    far, oldest first, and the number of probes made. *)
Record state := {
  trace : list event;
  probes : nat
}.

(** A step either goes on with a value, leaves through [sys.exit], or
    raises an exception that nothing in the script catches. *)
Inductive step (A : Type) :=
  | Go (a : A)
  | Exit (status : Z)
  | Throw (e : exn).
Arguments Go {A} a.
Arguments Exit {A} status.
Arguments Throw {A} e.

Definition io (A : Type) : Type := state -> step A * state.

#[global] Instance io_ret : MRet io := fun A a s => (Go a, s).
#[global] Instance io_bind : MBind io := fun A B k m s =>
  match m s with
  | (Go a, s') => k a s'
  | (Exit n, s') => (Exit n, s')
  | (Throw e, s') => (Throw e, s')
  end.

Definition emit (e : event) : io unit := fun s =>
  (Go tt, {| trace := trace s ++ [e]; probes := probes s |}).

(** [time.sleep(seconds)]: the sleep, or the exception for an argument that
    [time.sleep] refuses. *)
Definition sleep (seconds : Z) : io unit :=
  match time_sleep seconds with
  | Ok _ => emit (Sleep seconds)
  | Raise e => fun s => (Throw e, s)
  end.

Definition print (text : string) : io unit := emit (Print text).

Definition sys_exit {A} (n : Z) : io A := fun s => (Exit n, s).

(** One call of [check_application_health] inside a run. *)
Definition probe (w : world) (u : string) (timeout : Z) : io result := fun s =>
  let n := probes s in
  (Go (check_application_health (spawn w n) (clock w n) u timeout),
   {| trace := trace s ++ [Run (curl_cmd u timeout) (timeout + 2)];
      probes := S n |}).

Definition count_if {A} (p : A -> bool) (l : list A) : Z :=
  foldr (fun r n => if p r then 1 + n else n) 0 l.

(** [sum(1 for r in results if r['status'] == 'UP')], and for ['DOWN']. *)
Definition up_count (results : list result) : Z :=
  count_if (fun r => String.eqb (status r) "UP") results.
Definition down_count (results : list result) : Z :=
  count_if (fun r => String.eqb (status r) "DOWN") results.

Definition summary_line (results : list result) : string :=
  "SUMMARY: " +:+ str (up_count results) +:+ " UP | "
    +:+ str (down_count results)
    +:+ " DOWN | Total: " +:+ str (Z.of_nat (length results)).

(** The [for url in urls] loop of [check_multiple_urls]. *)
Fixpoint check_each (w : world) (urls : list string) (timeout : Z)
    (results : list result) : io (list result) :=
  match urls with
  | [] => mret results
  | u :: rest =>
      r ← probe w u timeout;
      _ ← print (format_result r);
      check_each w rest timeout (results ++ [r])
  end.

(** [check_multiple_urls(urls, timeout)] *)
Definition check_multiple_urls (w : world) (urls : list string) (timeout : Z)
    : io (list result) :=
  _ ← print (str_mul "=" 70);
  _ ← print "APPLICATION HEALTH CHECK REPORT";
  _ ← print (str_mul "=" 70);
  results ← check_each w urls timeout [];
  _ ← print (str_mul "=" 70);
  _ ← print (summary_line results);
  _ ← print (str_mul "=" 70);
  mret results.

(** A probe that Ctrl+C cuts short: curl is started, and [subprocess.run]
    raises [KeyboardInterrupt], which no [except Exception] catches. *)
Definition cut_probe (u : string) (timeout : Z) : io unit := fun s =>
  (Go tt, {| trace := trace s ++ [Run (curl_cmd u timeout) (timeout + 2)];
             probes := S (probes s) |}).

(** The [while True] loop of [continuous_monitor] up to the
    [KeyboardInterrupt]: [n] iterations that come to their sleep, and the
    probe the interrupt cuts short if it arrives in one. An exception of
    [time.sleep] leaves the loop, and is not caught. *)
Fixpoint monitor_loop (w : world) (n : nat) (u : string) (interval timeout : Z)
    : io unit :=
  match n with
  | O => if in_probe w then cut_probe u timeout else mret tt
  | S n' =>
      r ← probe w u timeout;
      _ ← print (format_result r);
      _ ← sleep interval;
      monitor_loop w n' u interval timeout
  end.

(** [continuous_monitor(url, interval, timeout)] *)
Definition continuous_monitor (w : world) (u : string) (interval timeout : Z)
    : io unit :=
  _ ← print ("Starting continuous monitoring of " +:+ u);
  _ ← print ("Check interval: " +:+ str interval +:+ " seconds");
  _ ← print ("Press Ctrl+C to stop" +:+ String nl "");
  _ ← monitor_loop w (ticks w) u interval timeout;
  print (String nl (String nl "Monitoring stopped by user.")).

(** The list comprehension of [read_urls_from_file]. *)
Definition select_urls (lines : list string) : list string :=
  strip <$>
    List.filter (fun line => truthy (strip line) && negb (startswith "#" line))
      lines.

(** [read_urls_from_file(filename)] *)
Definition read_urls_from_file (w : world) (filename : string)
    : io (list string) :=
  match open_file w filename with
  | Ok text => mret (select_urls (file_lines (universal_newlines text)))
  | Raise e =>
      match exn_class e with
      | FileNotFoundError =>
          _ ← print ("Error: File '" +:+ filename +:+ "' not found.");
          sys_exit 1
      | _ =>
          _ ← print ("Error reading file: " +:+ exn_text e);
          sys_exit 1
      end
  end.

(** The parsed command line. *)
Record args := {
  arg_urls : list string;
  arg_file : option string;
  arg_continuous : bool;
  arg_interval : Z;
  arg_timeout : Z
}.

(** The [if args.file / elif args.urls / else] of [main]: where the targets
    come from. *)
Definition resolve_urls (w : world) (a : args) : io (list string) :=
  let no_file : io (list string) :=
    match arg_urls a with
    | [] => _ ← emit PrintHelp; sys_exit 1
    | us => mret us
    end in
  match arg_file a with
  | Some f => if truthy f then read_urls_from_file w f else no_file
  | None => no_file
  end.

(** [main()], after [parser.parse_args()]. *)
Definition main (w : world) (a : args) : io unit :=
  urls ← resolve_urls w a;
  match urls with
  | [] => _ ← print "Error: No URLs provided"; sys_exit 1
  | u0 :: _ =>
      if arg_continuous a then
        if 1 <? Z.of_nat (length urls) then
          _ ← print "Error: Continuous mode requires exactly one URL";
          sys_exit 1
        else continuous_monitor w u0 (arg_interval a) (arg_timeout a)
      else
        _ ← check_multiple_urls w urls (arg_timeout a);
        mret tt
  end.

(** Running the script: the exit status and everything it did. The
    interpreter ends a run that an exception leaves with status 1. *)
Definition run_main (w : world) (a : args) : Z * list event :=
  match main w a {| trace := []; probes := 0 |} with
  | (Go _, s) => (0, trace s)
  | (Exit n, s) => (n, trace s)
  | (Throw _, s) => (1, trace s)
  end.

Definition is_probe (e : event) : bool :=
  match e with Run _ _ => true | _ => false end.

Definition printed (t : list event) : list string :=
  omap (fun e => match e with Print s => Some s | _ => None end) t.

End AppHealthChecker.

(** ** system_health_monitor.py *)
Module SystemHealthMonitor.
Import Py.

(** *** Numbers *)

(** The metric probes return a float, except that [min(load * 25, 100)]
    returns the int [100] when it caps. *)
Inductive num :=
  | NInt (n : Z)
  | NFloat (x : float).

(** The exact order between a float and an int, as Python compares them;
    [None] when the float is a NaN. *)
Definition float_cmp_Z (x : float) (t : Z) : option comparison :=
  match Prim2SF x with
  | S754_nan => None
  | S754_infinity neg => Some (if neg then Lt else Gt)
  | S754_zero _ => Some (0 ?= t)
  | S754_finite neg m e =>
      let v := if neg then Z.neg m else Z.pos m in
      Some (if 0 <=? e then v * 2 ^ e ?= t else v ?= t * 2 ^ (- e))
  end.

Definition num_cmp_Z (v : num) (t : Z) : option comparison :=
  match v with
  | NInt n => Some (n ?= t)
  | NFloat x => float_cmp_Z x t
  end.

(** [v > t] *)
Definition num_gt_Z (v : num) (t : Z) : bool :=
  match num_cmp_Z v t with Some Gt => true | _ => false end.

(** [v == t] *)
Definition num_eq_Z (v : num) (t : Z) : bool :=
  match num_cmp_Z v t with Some Eq => true | _ => false end.

(** [min(x, 100)] for a float [x]: the first argument unless the second is
    smaller. *)
Definition min_100 (x : float) : num :=
  if num_gt_Z (NFloat x) 100 then NInt 100 else NFloat x.

(** The float arithmetic of the interpreter that is taken as given: parsing
    and printing decimals, the correctly rounded quotient of two ints, and
    rounding to two decimals. *)
Record builtins := {
  (** [float(s)]; [None] is [ValueError] *)
  float_of_str : string -> option float;
  (** [a / b] for ints, [b] not zero *)
  truediv : Z -> Z -> float;
  (** [round(x, 2)] *)
  round2 : float -> float;
  (** [f"{v:.1f}"] *)
  fmt_1f : num -> string
}.

Definition float_of (rt : builtins) (s : string) : res float :=
  of_option
    (Exn ValueError ("could not convert string to float: '" +:+ s +:+ "'"))
    (float_of_str rt s).

(** [l[i]] *)
Definition index {A} (l : list A) (i : nat) : res A :=
  of_option (Exn IndexError "list index out of range") (l !! i).

(** *** The host *)

Record host := {
  (** [platform.system()] *)
  system : string;
  (** [subprocess.run(cmd, shell=True, capture_output=True, text=True).stdout] *)
  shell : string -> res string;
  (** [open(path, 'r')] and its text *)
  read_text : string -> res string;
  (** [datetime.now().strftime('%Y-%m-%d %H:%M:%S')] *)
  now : string
}.

Definition DEFAULT_THRESHOLDS : gmap string Z :=
  <["cpu" := 80]> (<["memory" := 80]> (<["disk" := 80]> ∅)).

Definition top_darwin : string :=
  "top -l 1 | grep 'CPU usage' | awk '{print $3}' | sed 's/%//'".
Definition top_linux : string :=
  "top -bn1 | grep 'Cpu(s)' | awk '{print $2}' | sed 's/%us,//'".

(** The first [try] block of [get_cpu_usage]: the platform's extraction. *)
Definition cpu_extract (rt : builtins) (h : host) : res num :=
  if String.eqb (system h) "Darwin" then
    out ← shell h top_darwin;
    x ← float_of rt (strip out);
    Ok (NFloat x)
  else
    out ← shell h top_linux;
    x ← float_of rt (strip out);
    Ok (NFloat x).

(** [float(f.read().split()[0])] on [/proc/loadavg]: the 1-minute load
    average. *)
Definition load_average (rt : builtins) (h : host) : res float :=
  text ← read_text h "/proc/loadavg";
  first ← index (split_ws text) 0;
  float_of rt first.

(** The inner [try] block: the estimate from the load average. *)
Definition cpu_estimate (rt : builtins) (h : host) : res num :=
  load ← load_average rt h;
  Ok (min_100 (load * 25)%float).

(** [get_cpu_usage()] *)
Definition get_cpu_usage (rt : builtins) (h : host) : res num :=
  try_except (cpu_extract rt h) (fun _ =>
    try_except (cpu_estimate rt h) (fun _ => Ok (NFloat 0%float))).

(** [((used) / total) * 100], rounded to two decimals. *)
Definition percent (rt : builtins) (used total : Z) : res num :=
  if total =? 0 then Raise (Exn ZeroDivisionError "division by zero")
  else Ok (NFloat (round2 rt (truediv rt used total * 100)%float)).

(** [int([l for l in lines if key in l][0].split()[1])] *)
Definition meminfo_field (key : string) (lines : list string) : res Z :=
  l ← index (List.filter (contains key) lines) 0;
  field ← index (split_ws l) 1;
  int field.

Definition memory_body (rt : builtins) (h : host) : res num :=
  if String.eqb (system h) "Darwin" then
    out_total ← shell h "sysctl -n hw.memsize";
    total ← int (strip out_total);
    out_free ←
      shell h "vm_stat | grep 'Pages free' | awk '{print $3}' | sed 's/\.//'";
    free_pages ← int (strip out_free);
    let page_size := 4096 in
    let free_memory := free_pages * page_size in
    let used_memory := total - free_memory in
    percent rt used_memory total
  else
    text ← read_text h "/proc/meminfo";
    let lines := file_lines (universal_newlines text) in
    mem_total ← meminfo_field "MemTotal" lines;
    mem_available ← meminfo_field "MemAvailable" lines;
    percent rt (mem_total - mem_available) mem_total.

(** [get_memory_usage()] *)
Definition get_memory_usage (rt : builtins) (h : host) : res num :=
  try_except (memory_body rt h) (fun _ => Ok (NFloat 0%float)).

Definition disk_body (rt : builtins) (h : host) : res num :=
  out ← shell h "df -h / | tail -1 | awk '{print $5}' | sed 's/%//'";
  x ← float_of rt (strip out);
  Ok (NFloat x).

(** [get_disk_usage()] *)
Definition get_disk_usage (rt : builtins) (h : host) : res num :=
  try_except (disk_body rt h) (fun _ => Ok (NFloat 0%float)).

(** A row of the process table. *)
Record process := {
  user : string;
  pid : string;
  cpu : string;
  mem : string;
  command : string
}.

Definition process_of_line (line : string) : option process :=
  let parts := split_ws line in
  if 11 <=? Z.of_nat (length parts) then
    match parts with
    | p0 :: p1 :: p2 :: p3 :: _ =>
        Some {| user := p0; pid := p1; cpu := p2; mem := p3;
                command := str_take 50 (join " " (drop 10 parts)) |}
    | _ => None
    end
  else None.

(** [get_top_processes(count)] *)
Definition get_top_processes (h : host) (count : Z) : res (list process) :=
  try_except
    (let cmd :=
       if String.eqb (system h) "Darwin" then
         "ps aux | sort -rk 3 | head -" +:+ str (count + 1)
           +:+ " | tail -" +:+ str count
       else
         "ps aux --sort=-%cpu | head -" +:+ str (count + 1)
           +:+ " | tail -" +:+ str count in
     out ← shell h cmd;
     Ok (omap process_of_line (split nl (strip out))))
    (fun _ => Ok []).

(** [thresholds[key]] *)
Definition getitem (thresholds : gmap string Z) (key : string) : res Z :=
  of_option (Exn KeyError ("'" +:+ key +:+ "'")) (thresholds !! key).

(** The dict [check_system_health] returns. *)
Record health_data := {
  timestamp : string;
  cpu_usage : num;
  memory_usage : num;
  disk_usage : num;
  top_processes : list process;
  alerts : list string
}.

(** The text of one alert. *)
Definition alert_text (rt : builtins) (label : string) (v : num) (limit : Z)
    : string :=
  label +:+ " usage is HIGH: " +:+ fmt_1f rt v +:+ "% (threshold: "
    +:+ str limit +:+ "%)".

(** One [if usage > thresholds[key]: alerts.append(...)] statement. *)
Definition check_metric (rt : builtins) (thresholds : gmap string Z)
    (label key : string) (v : num) (alerts : list string)
    : res (list string) :=
  limit ← getitem thresholds key;
  if num_gt_Z v limit then Ok (alerts ++ [alert_text rt label v limit])
  else Ok alerts.

(** [check_system_health(thresholds)] *)
Definition check_system_health (rt : builtins) (h : host)
    (thresholds : gmap string Z) : res health_data :=
  let timestamp := now h in
  cpu_usage ← get_cpu_usage rt h;
  memory_usage ← get_memory_usage rt h;
  disk_usage ← get_disk_usage rt h;
  top_processes ← get_top_processes h 5;
  alerts ← check_metric rt thresholds "CPU" "cpu" cpu_usage [];
  alerts ← check_metric rt thresholds "Memory" "memory" memory_usage alerts;
  alerts ← check_metric rt thresholds "Disk" "disk" disk_usage alerts;
  Ok {| timestamp := timestamp; cpu_usage := cpu_usage;
        memory_usage := memory_usage; disk_usage := disk_usage;
        top_processes := top_processes; alerts := alerts |}.

(** [key, value = pair.split('=')] *)
Definition unpack_pair (item : string) : res (string * string) :=
  match split "=" item with
  | [key; value] => Ok (key, value)
  | [_] => Raise (Exn ValueError "not enough values to unpack (expected 2, got 1)")
  | _ => Raise (Exn ValueError "too many values to unpack (expected 2)")
  end.

(** The [for pair in threshold_str.split(',')] loop. *)
Fixpoint parse_pairs (pairs : list string) (thresholds : gmap string Z)
    : res (gmap string Z) :=
  match pairs with
  | [] => Ok thresholds
  | item :: rest =>
      kv ← unpack_pair item;
      n ← int (strip kv.2);
      parse_pairs rest (<[strip kv.1 := n]> thresholds)
  end.

(** [parse_thresholds(threshold_str)]; [None] is the option left out. *)
Definition parse_thresholds (threshold_str : option string)
    : res (gmap string Z) :=
  let thresholds := DEFAULT_THRESHOLDS in
  match threshold_str with
  | Some s =>
      if truthy s then parse_pairs (split "," s) thresholds
      else Ok thresholds
  | None => Ok thresholds
  end.

Definition red : string := String esc "[91m".
Definition green : string := String esc "[92m".
Definition reset : string := String esc "[0m".

(** The row of one process in the report. *)
Definition process_line (proc : process) : string :=
  "  " +:+ ljust 8 (pid proc) +:+ " " +:+ ljust 6 (cpu proc) +:+ " "
    +:+ ljust 6 (mem proc) +:+ " " +:+ ljust 10 (user proc) +:+ " "
    +:+ command proc.

(** The list [report] that [format_report] builds. *)
Definition report_lines (rt : builtins) (d : health_data) : list string :=
  [str_mul "=" 70;
   "SYSTEM HEALTH MONITORING REPORT";
   "Timestamp: " +:+ timestamp d;
   str_mul "=" 70;
   "";
   "SYSTEM METRICS:";
   "  CPU Usage:    " +:+ fmt_1f rt (cpu_usage d) +:+ "%";
   "  Memory Usage: " +:+ fmt_1f rt (memory_usage d) +:+ "%";
   "  Disk Usage:   " +:+ fmt_1f rt (disk_usage d) +:+ "%";
   ""]
  ++ match top_processes d with
     | [] => []
     | procs =>
         ["TOP CPU-CONSUMING PROCESSES:";
          "  " +:+ ljust 8 "PID" +:+ " " +:+ ljust 6 "CPU%" +:+ " "
            +:+ ljust 6 "MEM%" +:+ " " +:+ ljust 10 "USER" +:+ " " +:+ "COMMAND";
          "  " +:+ str_mul "-" 60]
         ++ (process_line <$> procs) ++ [""]
     end
  ++ match alerts d with
     | [] => [green +:+ "✓ No alerts - All metrics within thresholds" +:+ reset]
     | found =>
         (red +:+ "⚠ ALERTS:" +:+ reset)
           :: ((fun alert => "  " +:+ red +:+ "✗ " +:+ alert +:+ reset) <$> found)
     end
  ++ [str_mul "=" 70; ""].

(** [format_report(health_data)] *)
Definition format_report (rt : builtins) (d : health_data) : string :=
  join (String nl "") (report_lines rt d).

(** The report without the colour codes, as [log_to_file] writes it. *)
Definition strip_colors (report : string) : string :=
  remove reset (remove green (remove red report)).

(** *** Runs of the monitor *)

Inductive sys_event :=
  | Out (text : string)
  | Nap (seconds : Z).

(** How the [with open(path, 'a')] block of [log_to_file] ends: the text is
    written and the file closed; [open] raises; or the file is opened, and
    created if there was none, and writing or closing raises after some
    characters of the text have reached it. *)
Inductive append_outcome :=
  | Appended
  | OpenFails (e : exn)
  | WriteFails (e : exn) (written : nat).

Record sys_world := {
  (** the host as the n-th health check of the run finds it; a Ctrl+C that
      arrives while a metric is read is caught by the bare [except] of that
      probe like any failure of its command, and shows here as a command
      that raises *)
  host_at : nat -> host;
  (** how appending a text to a path ends once n health checks are made *)
  append_to : nat -> string -> string -> append_outcome;
  (** the iterations of the loop that have come to their sleep when the
      Ctrl+C arrives that ends the loop; it arrives while the loop sleeps *)
  interrupt_after : nat
}.

(** What has been printed and slept so far, the text files, and the number
    of health checks made. *)
Record sys_state := {
  output : list sys_event;
  files : gmap string string;
  checks : nat
}.

(** A step of a run: a value or an exception, and the state it leaves. *)
Definition run (A : Type) : Type := sys_state -> res A * sys_state.

#[global] Instance run_ret : MRet run := fun A a s => (Ok a, s).
#[global] Instance run_bind : MBind run := fun A B k m s =>
  match m s with
  | (Ok a, s') => k a s'
  | (Raise e, s') => (Raise e, s')
  end.

Definition say (text : string) : run unit := fun s =>
  (Ok tt, {| output := output s ++ [Out text]; files := files s;
             checks := checks s |}).

(** [time.sleep(seconds)]: the sleep, or the exception for an argument that
    [time.sleep] refuses. *)
Definition nap (seconds : Z) : run unit := fun s =>
  match time_sleep seconds with
  | Ok _ =>
      (Ok tt, {| output := output s ++ [Nap seconds]; files := files s;
                 checks := checks s |})
  | Raise e => (Raise e, s)
  end.

(** A computation of [res] inside a run. *)
Definition lift {A} (m : res A) : run A := fun s => (m, s).

(** What reaches a file opened for appending. *)
Definition append_file (path text : string) : run unit := fun s =>
  (Ok tt, {| output := output s;
             files := <[path := default "" (files s !! path) +:+ text]> (files s);
             checks := checks s |}).

(** [log_to_file(report, log_file)]: every exception of the [with] block is
    caught and reported. *)
Definition log_to_file (w : sys_world) (report log_file : string) : run unit :=
  fun s =>
  let clean_report := strip_colors report in
  let text := clean_report +:+ String nl "" in
  match append_to w (checks s) log_file text with
  | Appended =>
      (_ ← append_file log_file text;
       say ("Report logged to: " +:+ log_file)) s
  | OpenFails e => say ("Error writing to log file: " +:+ exn_text e) s
  | WriteFails e written =>
      (_ ← append_file log_file (str_take written text);
       say ("Error writing to log file: " +:+ exn_text e)) s
  end.

(** [if log_file:] on an optional path *)
Definition given (log_file : option string) : option string :=
  match log_file with
  | Some f => if truthy f then Some f else None
  | None => None
  end.

(** One health check inside a run. *)
Definition health_check (rt : builtins) (w : sys_world)
    (thresholds : gmap string Z) : run health_data := fun s =>
  (check_system_health rt (host_at w (checks s)) thresholds,
   {| output := output s; files := files s; checks := S (checks s) |}).

(** Check, format, print and, if asked, log: the body shared by the loop
    and by the one-time check of [main]. *)
Definition report_once (rt : builtins) (w : sys_world)
    (thresholds : gmap string Z) (log_file : option string) : run unit :=
  health_data ← health_check rt w thresholds;
  let report := format_report rt health_data in
  _ ← say report;
  match given log_file with
  | Some f => log_to_file w report f
  | None => mret tt
  end.

Fixpoint report_loop (rt : builtins) (w : sys_world) (n : nat) (interval : Z)
    (thresholds : gmap string Z) (log_file : option string) : run unit :=
  match n with
  | O => mret tt
  | S n' =>
      _ ← report_once rt w thresholds log_file;
      _ ← nap interval;
      report_loop rt w n' interval thresholds log_file
  end.

(** [continuous_monitor(interval, thresholds, log_file)] *)
Definition continuous_monitor (rt : builtins) (w : sys_world) (interval : Z)
    (thresholds : gmap string Z) (log_file : option string) : run unit :=
  _ ← say "Starting continuous system health monitoring";
  _ ← say ("Check interval: " +:+ str interval +:+ " seconds");
  tc ← lift (getitem thresholds "cpu");
  tm ← lift (getitem thresholds "memory");
  td ← lift (getitem thresholds "disk");
  _ ← say ("Thresholds: CPU=" +:+ str tc +:+ "%, Memory=" +:+ str tm
            +:+ "%, Disk=" +:+ str td +:+ "%");
  _ ← match given log_file with
      | Some f => say ("Logging to: " +:+ f)
      | None => mret tt
      end;
  _ ← say ("Press Ctrl+C to stop" +:+ String nl "");
  _ ← report_loop rt w (interrupt_after w) interval thresholds log_file;
  say (String nl (String nl "Monitoring stopped by user.")).

(** The parsed command line. *)
Record sys_args := {
  opt_continuous : bool;
  opt_interval : Z;
  opt_log : option string;
  opt_thresholds : option string
}.

(** [main()], after [parser.parse_args()]. *)
Definition main (rt : builtins) (w : sys_world) (a : sys_args) : run unit :=
  thresholds ← lift (parse_thresholds (opt_thresholds a));
  if opt_continuous a then
    continuous_monitor rt w (opt_interval a) thresholds (opt_log a)
  else report_once rt w thresholds (opt_log a).

End SystemHealthMonitor.

(** ** Vocabulary of the properties *)

(** A message mentions a phrase when it contains it, letter case aside. *)
Definition mentions (phrase text : string) : bool :=
  Py.contains (Py.lower phrase) (Py.lower text).



(** The verdicts of probing [urls] in order, the first probe being the
    [n]-th of the run, and what the loop over them prints and starts. *)
Fixpoint probe_results (w : AppHealthChecker.world) (n : nat)
    (urls : list string) (timeout : Z) : list AppHealthChecker.result :=
  match urls with
  | [] => []
  | u :: rest =>
      AppHealthChecker.check_application_health
        (AppHealthChecker.spawn w n) (AppHealthChecker.clock w n) u timeout
        :: probe_results w (S n) rest timeout
  end.

Fixpoint probe_events (w : AppHealthChecker.world) (n : nat)
    (urls : list string) (timeout : Z) : list AppHealthChecker.event :=
  match urls with
  | [] => []
  | u :: rest =>
      AppHealthChecker.Run (AppHealthChecker.curl_cmd u timeout) (timeout + 2)
        :: AppHealthChecker.Print
             (AppHealthChecker.format_result
                (AppHealthChecker.check_application_health
                   (AppHealthChecker.spawn w n) (AppHealthChecker.clock w n)
                   u timeout))
        :: probe_events w (S n) rest timeout
  end.

(** The selection of targets as the interface describes it: a blank line is
    dropped, and so is a line whose first character that is not whitespace
    is ['#']. *)
Definition select_urls_stated (lines : list string) : list string :=
  Py.strip <$>
    List.filter
      (fun line => Py.truthy (Py.strip line)
                   && negb (Py.startswith "#" (Py.lstrip line)))
      lines.

Fixpoint all_space (s : string) : bool :=
  match s with
  | EmptyString => true
  | String a s' => Py.is_space a && all_space s'
  end.

(** The alerts about one metric, recognised by the label they start with. *)
Definition alerts_for (label : string) (alerts : list string) : list string :=
  List.filter (Py.startswith (label +:+ " usage is HIGH")) alerts.

(** The alerts one metric adds. *)
Definition metric_alerts (rt : SystemHealthMonitor.builtins) (label : string)
    (v : SystemHealthMonitor.num) (limit : Z) : list string :=
  if SystemHealthMonitor.num_gt_Z v limit
  then [SystemHealthMonitor.alert_text rt label v limit] else [].

(** The rational a number denotes; [None] for an infinity or a NaN. *)
Definition float_exact (x : float) : option Q :=
  match Prim2SF x with
  | S754_zero _ => Some 0%Q
  | S754_finite neg m e =>
      Some (inject_Z (if neg then Z.neg m else Z.pos m) * Qpower 2 e)%Q
  | _ => None
  end.

Definition num_exact (v : SystemHealthMonitor.num) : option Q :=
  match v with
  | SystemHealthMonitor.NInt n => Some (inject_Z n)
  | SystemHealthMonitor.NFloat x => float_exact x
  end.

(** The alerts about the metric [label], measured as [v] under the limit
    [limit]: the one alert [check_system_health] writes when [v > limit],
    none otherwise; none when [v] equals the limit; and, for a measurement
    that denotes a number, one exactly when that number is strictly greater
    than the limit. *)
Definition alerts_when_above (rt : SystemHealthMonitor.builtins)
    (label : string) (v : SystemHealthMonitor.num) (limit : Z)
    (alerts : list string) : Prop :=
  alerts_for label alerts = metric_alerts rt label v limit /\
  length (alerts_for label alerts)
    = (if SystemHealthMonitor.num_gt_Z v limit then 1 else 0)%nat /\
  (SystemHealthMonitor.num_eq_Z v limit = true ->
     alerts_for label alerts = []) /\
  (forall q, num_exact v = Some q ->
     (length (alerts_for label alerts) = 1%nat <-> (inject_Z limit < q)%Q) /\
     ((q == inject_Z limit)%Q -> alerts_for label alerts = [])).

(** The key and the integer one item of a thresholds string names. *)
Definition item_pair (item : string) : Py.res (string * Z) :=
  kv ← SystemHealthMonitor.unpack_pair item;
  n ← Py.int (Py.strip kv.2);
  Py.Ok (Py.strip kv.1, n).

(** The pairs a thresholds string names, in order; the exception of the
    first item that names none. *)
Fixpoint named_pairs (items : list string) : Py.res (list (string * Z)) :=
  match items with
  | [] => Py.Ok []
  | item :: rest =>
      p ← item_pair item;
      ps ← named_pairs rest;
      Py.Ok (p :: ps)
  end.

(** The value given to [key] by the last pair that names it. *)
Fixpoint last_binding (key : string) (ps : list (string * Z)) : option Z :=
  match ps with
  | [] => None
  | p :: rest =>
      match last_binding key rest with
      | Some v => Some v
      | None => if String.eqb p.1 key then Some p.2 else None
      end
  end.

(** The character [c] does not occur in [s]. *)
Fixpoint free_of (c : ascii) (s : string) : bool :=
  match s with
  | EmptyString => true
  | String a s' => negb (Ascii.eqb a c) && free_of c s'
  end.

(** A key that can be written in a thresholds string and read back: no
    comma, no equals sign, no whitespace at its ends. *)
Definition plain_key (k : string) : bool :=
  free_of "," k && free_of "=" k && String.eqb (Py.strip k) k.

(** Text of ASCII characters only. *)
Fixpoint ascii_text (s : string) : bool :=
  match s with
  | EmptyString => true
  | String a s' => (N_of_ascii a <? 128)%N && ascii_text s'
  end.

(** An int whose decimal writing [int] reads back: one of at most 4300
    digits. *)
Definition short_int (v : Z) : bool :=
  Py.digit_count (Py.str v) <=? Py.max_str_digits.

(** An item of a thresholds string that is not [key=integer]: not two parts
    around one equals sign, or a value that is no int literal, or one of
    more digits than [int] converts. *)
Definition malformed (item : string) : Prop :=
  length (Py.split "=" item) <> 2%nat \/
  exists k v, Py.split "=" item = [k; v] /\
    (Py.int_opt (Py.strip v) = None \/
     Py.max_str_digits < Py.digit_count (Py.strip v)).

(** The thresholds string that names the pairs [ps] in order, as in
    [cpu=90,memory=85]. *)
Definition render_thresholds (ps : list (string * Z)) : string :=
  Py.join "," ((fun p : string * Z => p.1 +:+ "=" +:+ Py.str p.2) <$> ps).

(** ** Sample environments *)
Module Samples.
Import Py AppHealthChecker.

(** A network in which each URL of [table] answers with the given child; any
    other URL never answers. The URL is the last word of the command line. *)
Definition network (table : list (string * child)) (n : nat)
    (cmd : list string) : child :=
  match last cmd with
  | Some u =>
      default NeverExits
        (snd <$> List.find (fun e => String.eqb (fst e) u) table)
  | None => NeverExits
  end.

Definition two_sites : world := {|
  spawn := network [("https://good.example", Exits (3 # 10) "200");
                    ("https://bad.example", Exits (1 # 2) "503");
                    ("https://missing.example", Exits (1 # 5) "404");
                    ("https://odd.example", Exits (1 # 5) "000");
                    ("https://slow.example", Exits 9 "200")];
  clock := fun _ => "2024-05-01 12:00:00";
  open_file := fun name =>
    if String.eqb name "urls.txt" then
      Ok ("# targets" +:+ String nl
            ("https://good.example" +:+ String nl
               ("  # disabled" +:+ String nl
                  (String nl ("  https://bad.example  " +:+ String nl "")))))
    else Raise (Exn FileNotFoundError "No such file or directory");
  ticks := 2;
  in_probe := false
|}.

End Samples.

(** A runtime for the sample hosts. Each function agrees with the
    interpreter on the stated inputs, which cover the samples, and is not
    meant beyond them. *)
Module Reference.
Import Py SystemHealthMonitor.

(** An int as a float; exact below [2^53]. *)
Definition float_of_Z (n : Z) : float :=
  match n with
  | Z0 => 0%float
  | Zpos _ => PrimFloat.of_uint63 (Uint63.of_Z n)
  | Zneg _ => (- PrimFloat.of_uint63 (Uint63.of_Z (- n)))%float
  end.

Definition digits_opt (s : string) : option Z :=
  if all_digits s then int_digits 0 true s else None.

(** [float(s)] for [digits], [digits.digits], with an optional sign, when the
    digits without the point make a number below [2^53] and at most 22 of
    them follow the point: the quotient of two exact floats is then the
    nearest float to the decimal. [None] on every other input. *)
Definition float_of_str (s : string) : option float :=
  let t := strip s in
  let '(negative, body) :=
    match t with
    | String "-" r => (true, r)
    | String "+" r => (false, r)
    | _ => (false, t)
    end in
  let sign (x : float) := if negative then (- x)%float else x in
  match split "." body with
  | [whole] =>
      n ← digits_opt whole;
      if truthy whole && (n <? 2 ^ 53) then Some (sign (float_of_Z n)) else None
  | [whole; frac] =>
      n ← digits_opt (whole +:+ frac);
      let k := Z.of_nat (String.length frac) in
      if truthy (whole +:+ frac) && all_digits whole
         && (n <? 2 ^ 53) && (k <=? 22)
      then Some (sign (float_of_Z n / float_of_Z (10 ^ k))%float)
      else None
  | _ => None
  end.

(** [a / b] for ints below [2^53] in magnitude. *)
Definition truediv (a b : Z) : float := (float_of_Z a / float_of_Z b)%float.

(** The integer nearest to [|x| * k], ties to even, with the sign of [x];
    [None] for an infinity or a NaN. *)
Definition scaled_round (x : float) (k : Z) : option (bool * Z) :=
  match Prim2SF x with
  | S754_zero neg => Some (neg, 0)
  | S754_finite neg m e =>
      if 0 <=? e then Some (neg, Z.pos m * 2 ^ e * k)
      else
        let n := Z.pos m * k in
        let d := 2 ^ (- e) in
        let q := n / d in
        let r := n mod d in
        Some (neg,
              if 2 * r <? d then q
              else if d <? 2 * r then q + 1
              else if Z.even q then q else q + 1)
  | _ => None
  end.

(** [round(x, 2)] for [|x|] below [2^53 / 100]. *)
Definition round2 (x : float) : float :=
  match scaled_round x 100 with
  | Some (neg, n) =>
      let y := (float_of_Z n / 100)%float in
      if neg then (- y)%float else y
  | None => x
  end.

(** [f"{v:.1f}"] *)
Definition fmt_1f (v : num) : string :=
  match v with
  | NInt n => str n +:+ ".0"
  | NFloat x =>
      match scaled_round x 10 with
      | Some (neg, n) =>
          (if neg then "-" else "") +:+ str (n / 10) +:+ "." +:+ str (n mod 10)
      | None =>
          match Prim2SF x with
          | S754_infinity true => "-inf"
          | S754_infinity false => "inf"
          | _ => "nan"
          end
      end
  end.

Definition runtime : builtins := {|
  SystemHealthMonitor.float_of_str := float_of_str;
  SystemHealthMonitor.truediv := truediv;
  SystemHealthMonitor.round2 := round2;
  SystemHealthMonitor.fmt_1f := fmt_1f
|}.

Definition unavailable {A} (what : string) : res A :=
  Raise (Exn OSError what).

(** A Linux host: [top] reports 75.0, the root partition is 80% full, 600 of
    1000 kB of memory are in use. *)
Definition linux_host : host := {|
  system := "Linux";
  shell := fun cmd =>
    if String.eqb cmd top_linux then Ok ("75.0" +:+ String nl "")
    else if String.eqb cmd "df -h / | tail -1 | awk '{print $5}' | sed 's/%//'"
    then Ok ("80" +:+ String nl "")
    else Ok "";
  read_text := fun path =>
    if String.eqb path "/proc/meminfo" then
      Ok ("MemTotal:       1000 kB" +:+ String nl
            ("MemFree:         100 kB" +:+ String nl
               ("MemAvailable:   400 kB" +:+ String nl "")))
    else if String.eqb path "/proc/loadavg" then
      Ok ("0.52 0.58 0.59 1/389 12345" +:+ String nl "")
    else unavailable "No such file or directory";
  now := "2024-05-01 12:00:00"
|}.

(** A host on which [top] prints nothing usable but the load average can be
    read. *)
Definition no_top_host (loadavg : string) : host := {|
  system := "Linux";
  shell := fun _ => Ok "";
  read_text := fun path =>
    if String.eqb path "/proc/loadavg" then Ok loadavg
    else unavailable "No such file or directory";
  now := "2024-05-01 12:00:00"
|}.

(** A host on which no command can be started and no file opened. *)
Definition dead_host : host := {|
  system := "Linux";
  shell := fun _ => unavailable "Cannot allocate memory";
  read_text := fun _ => unavailable "No such file or directory";
  now := "2024-05-01 12:00:00"
|}.

(** An idle host with an empty root partition and all its memory
    available. *)
Definition idle_host : host := {|
  system := "Linux";
  shell := fun cmd =>
    if String.eqb cmd top_linux then Ok ("0.0" +:+ String nl "")
    else if String.eqb cmd "df -h / | tail -1 | awk '{print $5}' | sed 's/%//'"
    then Ok ("0" +:+ String nl "")
    else Ok "";
  read_text := fun path =>
    if String.eqb path "/proc/meminfo" then
      Ok ("MemTotal:       1000 kB" +:+ String nl
            ("MemAvailable:  1000 kB" +:+ String nl ""))
    else unavailable "No such file or directory";
  now := "2024-05-01 12:00:00"
|}.

End Reference.

(** ** Vocabulary of the further properties *)

Definition is_sleep (e : AppHealthChecker.event) : bool :=
  match e with AppHealthChecker.Sleep _ => true | _ => false end.


(** The probe that Ctrl+C cuts short, when it arrives in one. *)
Definition cut_events (w : AppHealthChecker.world) (u : string) (timeout : Z)
    : list AppHealthChecker.event :=
  if AppHealthChecker.in_probe w then
    [AppHealthChecker.Run (AppHealthChecker.curl_cmd u timeout) (timeout + 2)]
  else [].

(** What [continuous_monitor] prints before its loop, and when Ctrl+C ends
    it. *)
Definition monitor_header (u : string) (interval : Z)
    : list AppHealthChecker.event :=
  [AppHealthChecker.Print ("Starting continuous monitoring of " +:+ u);
   AppHealthChecker.Print ("Check interval: " +:+ Py.str interval +:+ " seconds");
   AppHealthChecker.Print ("Press Ctrl+C to stop" +:+ String Py.nl "")].

Definition monitor_stopped : AppHealthChecker.event :=
  AppHealthChecker.Print (String Py.nl (String Py.nl "Monitoring stopped by user.")).

(** The class of the exception [time.sleep] raises for an interval it
    refuses. *)
Definition refusal (interval : Z) : Py.exn_kind :=
  if (interval <? - Py.max_sleep) || (Py.max_sleep <? interval)
  then Py.OverflowError else Py.ValueError.


(** A world like [Samples.two_sites] whose only file, [notes.txt], has
    comments and blank lines and no target. *)
Definition no_target_file : AppHealthChecker.world := {|
  AppHealthChecker.spawn := AppHealthChecker.spawn Samples.two_sites;
  AppHealthChecker.clock := AppHealthChecker.clock Samples.two_sites;
  AppHealthChecker.open_file := fun name =>
    if String.eqb name "notes.txt" then
      Py.Ok ("# nothing to check" +:+ String Py.nl
               ("   " +:+ String Py.nl ("#https://good.example" +:+ String Py.nl "")))
    else Py.Raise (Py.Exn Py.OSError "Permission denied");
  AppHealthChecker.ticks := 0;
  AppHealthChecker.in_probe := false
|}.

(** Text with colour marks: a plain character, or one of the three colour
    codes the reports use. *)
Inductive piece :=
  | Plain (a : ascii)
  | Red
  | Green
  | Reset.

Definition piece_text (p : piece) : string :=
  match p with
  | Plain a => String a ""
  | Red => SystemHealthMonitor.red
  | Green => SystemHealthMonitor.green
  | Reset => SystemHealthMonitor.reset
  end.

Fixpoint pieces_text (ps : list piece) : string :=
  match ps with
  | [] => ""
  | p :: rest => piece_text p +:+ pieces_text rest
  end.

(** A plain character is any character but ESC. *)
Definition plain_piece (p : piece) : bool :=
  match p with
  | Plain a => negb (Ascii.eqb a Py.esc)
  | _ => true
  end.

Definition is_plain (p : piece) : bool :=
  match p with Plain _ => true | _ => false end.

Definition same_code (c p : piece) : bool :=
  match c, p with
  | Red, Red | Green, Green | Reset, Reset => true
  | _, _ => false
  end.

(** Text that is made of plain characters and colour codes. *)
Definition marked (s : string) : Prop :=
  exists ps, forallb plain_piece ps = true /\ s = pieces_text ps.

(** The health data hold no ESC character in any text the report shows. *)
Definition plain_process (p : SystemHealthMonitor.process) : bool :=
  free_of Py.esc (SystemHealthMonitor.user p)
  && free_of Py.esc (SystemHealthMonitor.pid p)
  && free_of Py.esc (SystemHealthMonitor.cpu p)
  && free_of Py.esc (SystemHealthMonitor.mem p)
  && free_of Py.esc (SystemHealthMonitor.command p).

Definition plain_data (rt : SystemHealthMonitor.builtins)
    (d : SystemHealthMonitor.health_data) : bool :=
  free_of Py.esc (SystemHealthMonitor.timestamp d)
  && free_of Py.esc (SystemHealthMonitor.fmt_1f rt (SystemHealthMonitor.cpu_usage d))
  && free_of Py.esc (SystemHealthMonitor.fmt_1f rt (SystemHealthMonitor.memory_usage d))
  && free_of Py.esc (SystemHealthMonitor.fmt_1f rt (SystemHealthMonitor.disk_usage d))
  && forallb plain_process (SystemHealthMonitor.top_processes d)
  && forallb (free_of Py.esc) (SystemHealthMonitor.alerts d).

Definition is_nap (e : SystemHealthMonitor.sys_event) : bool :=
  match e with SystemHealthMonitor.Nap _ => true | _ => false end.

(** The file at [path] has only grown: what it held is still there, at the
    front. A file that does not exist holds nothing. *)
Definition grown (before after : gmap string string) (path : string) : Prop :=
  exists added,
    default "" (after !! path) = default "" (before !! path) +:+ added.

(** What a stretch of a run from [s] to [s'] did: [n] health checks, the
    prints and sleeps [outs] in order, files that only grew, and no file
    touched but the log. *)
Definition run_effect (log : option string)
    (s s' : SystemHealthMonitor.sys_state) (n : nat)
    (outs : list SystemHealthMonitor.sys_event) : Prop :=
  SystemHealthMonitor.checks s' = (SystemHealthMonitor.checks s + n)%nat /\
  (forall path,
     grown (SystemHealthMonitor.files s) (SystemHealthMonitor.files s') path) /\
  (forall path, log <> Some path ->
     SystemHealthMonitor.files s' !! path = SystemHealthMonitor.files s !! path) /\
  SystemHealthMonitor.output s' = SystemHealthMonitor.output s ++ outs.

(** The text [log_to_file] writes for a report. *)
Definition log_text (report : string) : string :=
  SystemHealthMonitor.strip_colors report +:+ String Py.nl "".

(** The line [log_to_file] prints once [n] health checks are made. *)
Definition log_message (w : SystemHealthMonitor.sys_world) (n : nat)
    (report path : string) : SystemHealthMonitor.sys_event :=
  match SystemHealthMonitor.append_to w n path (log_text report) with
  | SystemHealthMonitor.Appended =>
      SystemHealthMonitor.Out ("Report logged to: " +:+ path)
  | SystemHealthMonitor.OpenFails e =>
      SystemHealthMonitor.Out ("Error writing to log file: " +:+ Py.exn_text e)
  | SystemHealthMonitor.WriteFails e _ =>
      SystemHealthMonitor.Out ("Error writing to log file: " +:+ Py.exn_text e)
  end.

(** The report of the [n]-th health check of a run (the empty text, should
    the check raise). *)
Definition report_at (rt : SystemHealthMonitor.builtins)
    (w : SystemHealthMonitor.sys_world) (n : nat) (policy : gmap string Z)
    : string :=
  match SystemHealthMonitor.check_system_health rt
          (SystemHealthMonitor.host_at w n) policy with
  | Py.Ok d => SystemHealthMonitor.format_report rt d
  | Py.Raise _ => ""
  end.

(** What the [n]-th health check of a run puts on the screen: its report,
    then the line about the log if there is one. *)
Definition once_output (rt : SystemHealthMonitor.builtins)
    (w : SystemHealthMonitor.sys_world) (n : nat) (policy : gmap string Z)
    (log : option string) : list SystemHealthMonitor.sys_event :=
  SystemHealthMonitor.Out (report_at rt w n policy)
    :: match SystemHealthMonitor.given log with
       | Some path => [log_message w (S n) (report_at rt w n policy) path]
       | None => []
       end.


(** What [continuous_monitor] prints before its loop. *)
Definition monitor_banner (policy : gmap string Z) (interval : Z)
    (log : option string) : list SystemHealthMonitor.sys_event :=
  [SystemHealthMonitor.Out "Starting continuous system health monitoring";
   SystemHealthMonitor.Out
     ("Check interval: " +:+ Py.str interval +:+ " seconds");
   SystemHealthMonitor.Out
     ("Thresholds: CPU=" +:+ Py.str (default 0 (policy !! "cpu"))
        +:+ "%, Memory=" +:+ Py.str (default 0 (policy !! "memory"))
        +:+ "%, Disk=" +:+ Py.str (default 0 (policy !! "disk")) +:+ "%")]
  ++ match SystemHealthMonitor.given log with
     | Some path => [SystemHealthMonitor.Out ("Logging to: " +:+ path)]
     | None => []
     end
  ++ [SystemHealthMonitor.Out ("Press Ctrl+C to stop" +:+ String Py.nl "")].


(** A sample run: the Linux host, a directory that cannot be written and a
    device that is full. *)
Definition sample_sys_world : SystemHealthMonitor.sys_world := {|
  SystemHealthMonitor.host_at := fun _ => Reference.linux_host;
  SystemHealthMonitor.append_to := fun _ path _ =>
    if Py.startswith "/ro/" path then
      SystemHealthMonitor.OpenFails
        (Py.Exn Py.OSError "[Errno 30] Read-only file system")
    else if Py.startswith "/full/" path then
      SystemHealthMonitor.WriteFails
        (Py.Exn Py.OSError "[Errno 28] No space left on device") 0
    else SystemHealthMonitor.Appended;
  SystemHealthMonitor.interrupt_after := 2
|}.

Definition sample_sys_state : SystemHealthMonitor.sys_state := {|
  SystemHealthMonitor.output := [];
  SystemHealthMonitor.files := {["health.log" := "earlier" +:+ String Py.nl ""]};
  SystemHealthMonitor.checks := 0
|}.

(** * Properties *)

Import Py.

(** ** Facts about the string primitives *)

Lemma digit_not_space (a : ascii) : is_digit a = true -> is_space a = false.
Proof.
  unfold is_digit, digit_val, is_space.
  destruct (_ && _)%N eqn:E; [|discriminate].
  intros _. apply andb_true_iff in E as [E1 E2].
  apply N.leb_le in E1. apply N.leb_le in E2.
  apply orb_false_iff; split; apply andb_false_iff.
  - right. apply N.leb_gt. lia.
  - right. apply N.leb_gt. lia.
Qed.

Lemma digit_val_range (a : ascii) (d : Z) :
  digit_val a = Some d -> 0 <= d <= 9.
Proof.
  unfold digit_val. destruct (_ && _)%N eqn:E; [|discriminate].
  intros [= <-]. apply andb_true_iff in E as [E1 E2].
  apply N.leb_le in E1. apply N.leb_le in E2. lia.
Qed.

Lemma all_digits_lstrip (s : string) :
  all_digits s = true -> lstrip s = s.
Proof.
  destruct s as [|a s]; simpl; [done|].
  intros [Ha _]%andb_true_iff. by rewrite (digit_not_space a Ha).
Qed.

Lemma all_digits_rstrip (s : string) :
  all_digits s = true -> rstrip s = s.
Proof.
  induction s as [|a s IH]; simpl; [done|].
  intros [Ha Hs]%andb_true_iff. rewrite (IH Hs).
  destruct s; [by rewrite (digit_not_space a Ha)|done].
Qed.

Lemma isdigit_strip (s : string) : isdigit s = true -> strip s = s.
Proof.
  unfold isdigit, strip. intros [_ H]%andb_true_iff.
  by rewrite (all_digits_lstrip s H), (all_digits_rstrip s H).
Qed.

Lemma int_digits_all_digits (s : string) :
  all_digits s = true ->
  forall acc seen, 0 <= acc -> (seen = true \/ s <> EmptyString) ->
  exists n, int_digits acc seen s = Some n /\ acc <= n.
Proof.
  induction s as [|a s IH]; simpl; intros Hs acc seen Hacc Hne.
  - destruct Hne as [->|?]; [|done]. exists acc. split; [done|lia].
  - apply andb_true_iff in Hs as [Ha Hs].
    unfold is_digit in Ha. destruct (digit_val a) as [d|] eqn:Hd; [|done].
    pose proof (digit_val_range a d Hd).
    destruct (IH Hs (acc * 10 + d) true) as (n & Hn & Hle); [lia|by left|].
    exists n. split; [done|lia].
Qed.

Lemma int_opt_isdigit (s : string) :
  isdigit s = true -> int_opt s = int_digits 0 false s.
Proof.
  intros H. unfold int_opt. rewrite (isdigit_strip s H).
  unfold isdigit in H. apply andb_true_iff in H as [_ Hd].
  destruct s as [|a s]; [done|].
  simpl in Hd. apply andb_true_iff in Hd as [Ha _].
  destruct a as [[] [] [] [] [] [] [] []]; try discriminate Ha; reflexivity.
Qed.

(** On a string that passes [isdigit], [int] succeeds with a natural number:
    the [ValueError] branch after the [isdigit] test is never taken. *)
Lemma isdigit_int (s : string) :
  isdigit s = true -> exists n, int_opt s = Some n /\ 0 <= n.
Proof.
  intros H. rewrite (int_opt_isdigit s H).
  unfold isdigit in H. apply andb_true_iff in H as [Hne Hd].
  destruct s as [|a s]; [done|].
  destruct (int_digits_all_digits (String a s) Hd 0 false) as (n & Hn & Hle);
    [lia|by right|].
  exists n. split; [done|lia].
Qed.

(** *** Reading back a printed int *)

Lemma all_digits_uint (d : Decimal.uint) :
  all_digits (NilEmpty.string_of_uint d) = true.
Proof. induction d; simpl; auto. Qed.

Lemma int_digits_uint_acc (d : Decimal.uint) :
  forall acc : positive,
  int_digits (Z.pos acc) true (NilEmpty.string_of_uint d)
    = Some (Z.pos (Pos.of_uint_acc d acc)).
Proof.
  induction d as [|d IH|d IH|d IH|d IH|d IH|d IH|d IH|d IH|d IH|d IH];
    intros acc; [reflexivity|..];
    cbn [NilEmpty.string_of_uint Pos.of_uint_acc];
    rewrite <- IH; cbn [int_digits];
    match goal with
    | |- context [digit_val ?c] =>
        let v := eval vm_compute in (digit_val c) in
        change (digit_val c) with v
    end;
    cbv beta iota; f_equal; lia.
Qed.

Lemma int_digits_uint (d : Decimal.uint) :
  int_digits 0 true (NilEmpty.string_of_uint d) = Some (Z.of_N (Pos.of_uint d)).
Proof.
  induction d as [|d IH|d IH|d IH|d IH|d IH|d IH|d IH|d IH|d IH|d IH];
    [reflexivity|exact IH|..];
    cbn [NilEmpty.string_of_uint Pos.of_uint int_digits];
    match goal with
    | |- context [digit_val ?c] =>
        let v := eval vm_compute in (digit_val c) in
        change (digit_val c) with v
    end;
    cbv beta iota; apply int_digits_uint_acc.
Qed.

Lemma str_pos (p : positive) :
  str (Z.pos p) = NilEmpty.string_of_uint (Pos.to_uint p) /\
  isdigit (str (Z.pos p)) = true.
Proof.
  assert (str (Z.pos p) = NilEmpty.string_of_uint (Pos.to_uint p)) as E.
  { unfold str. cbn [Z.to_int NilZero.string_of_int].
    unfold NilZero.string_of_uint.
    pose proof (DecimalPos.Unsigned.to_uint_nonnil p).
    by destruct (Pos.to_uint p). }
  split; [exact E|]. rewrite E. unfold isdigit.
  rewrite all_digits_uint, andb_true_r.
  pose proof (DecimalPos.Unsigned.to_uint_nonnil p).
  by destruct (Pos.to_uint p).
Qed.

Lemma int_str_pos (p : positive) : int_opt (str (Z.pos p)) = Some (Z.pos p).
Proof.
  destruct (str_pos p) as [E Hd].
  rewrite (int_opt_isdigit _ Hd), E.
  pose proof (DecimalPos.Unsigned.to_uint_nonnil p) as Hnn.
  pose proof (int_digits_uint (Pos.to_uint p)) as Hu.
  rewrite DecimalPos.Unsigned.of_to in Hu.
  destruct (Pos.to_uint p); try done; exact Hu.
Qed.

(** [int(str(n)) == n] *)
Lemma int_str (n : Z) : int_opt (str n) = Some n.
Proof.
  destruct n as [|p|p]; [reflexivity|apply int_str_pos|].
  destruct (str_pos p) as [E Hd].
  assert (str (Z.neg p) = String "-" (str (Z.pos p))) as -> by reflexivity.
  unfold int_opt, strip.
  assert (lstrip (String "-" (str (Z.pos p))) = String "-" (str (Z.pos p)))
    as -> by reflexivity.
  assert (rstrip (String "-" (str (Z.pos p))) = String "-" (str (Z.pos p)))
    as ->.
  { pose proof Hd as Hd'. unfold isdigit in Hd'.
    apply andb_true_iff in Hd' as [Hne Hall].
    cbn [rstrip]. rewrite (all_digits_rstrip _ Hall).
    by destruct (str (Z.pos p)). }
  change (Z.opp <$> int_digits 0 false (str (Z.pos p)) = Some (Z.neg p)).
  by rewrite <- (int_opt_isdigit _ Hd), int_str_pos.
Qed.

Lemma strip_str (n : Z) : strip (str n) = str n.
Proof.
  destruct n as [|p|p]; [reflexivity|..].
  - apply isdigit_strip, str_pos.
  - destruct (str_pos p) as [_ Hd].
    assert (str (Z.neg p) = String "-" (str (Z.pos p))) as -> by reflexivity.
    unfold strip. cbn [lstrip]. change (is_space "-") with false. cbv iota.
    unfold isdigit in Hd. apply andb_true_iff in Hd as [Hne Hall].
    cbn [rstrip]. rewrite (all_digits_rstrip _ Hall).
    by destruct (str (Z.pos p)).
Qed.

Lemma free_of_uint (c : ascii) (d : Decimal.uint) :
  is_digit c = false -> free_of c (NilEmpty.string_of_uint d) = true.
Proof.
  intros Hc.
  assert (forall a, is_digit a = true -> Ascii.eqb a c = false) as Hne.
  { intros a Ha. destruct (Ascii.eqb a c) eqn:E; [|done].
    apply Ascii.eqb_eq in E as ->. congruence. }
  induction d; cbn [NilEmpty.string_of_uint free_of]; [done|..];
    rewrite IHd, Hne by reflexivity; reflexivity.
Qed.

(** A printed int has digits and at most a minus sign. *)
Lemma free_of_str (c : ascii) (n : Z) :
  is_digit c = false -> c <> "-"%char -> free_of c (str n) = true.
Proof.
  intros Hc Hm.
  assert (forall p, free_of c (str (Z.pos p)) = true) as Hpos.
  { intros p. destruct (str_pos p) as [-> _]. by apply free_of_uint. }
  destruct n as [|p|p].
  - change (str 0) with "0". cbn [free_of].
    destruct (Ascii.eqb "0" c) eqn:E; [|done].
    apply Ascii.eqb_eq in E as <-. done.
  - apply Hpos.
  - assert (str (Z.neg p) = String "-" (str (Z.pos p))) as -> by reflexivity.
    cbn [free_of]. rewrite Hpos.
    destruct (Ascii.eqb "-" c) eqn:E; [|done].
    apply Ascii.eqb_eq in E. congruence.
Qed.

Lemma free_of_app (c : ascii) (s t : string) :
  free_of c (s +:+ t) = free_of c s && free_of c t.
Proof.
  induction s as [|a s IH]; [done|].
  change (String a s +:+ t) with (String a (s +:+ t)).
  cbn [free_of]. rewrite IH. by rewrite andb_assoc.
Qed.

Lemma split_free (c : ascii) (s : string) :
  free_of c s = true -> split c s = [s].
Proof.
  induction s as [|a s IH]; [done|]. cbn [free_of split].
  intros [Ha Hs]%andb_true_iff. apply negb_true_iff in Ha.
  by rewrite Ha, (IH Hs).
Qed.

Lemma split_app (c : ascii) (s t : string) :
  free_of c s = true -> split c (s +:+ String c t) = s :: split c t.
Proof.
  induction s as [|a s IH].
  - intros _. change ("" +:+ String c t) with (String c t).
    cbn [split]. by rewrite Ascii.eqb_refl.
  - cbn [free_of]. intros [Ha Hs]%andb_true_iff. apply negb_true_iff in Ha.
    change (String a s +:+ String c t) with (String a (s +:+ String c t)).
    cbn [split]. by rewrite Ha, (IH Hs).
Qed.

Lemma split_join (c : ascii) (items : list string) :
  items <> [] -> forallb (free_of c) items = true ->
  split c (join (String c "") items) = items.
Proof.
  induction items as [|x rest IH]; [done|]. intros _.
  cbn [forallb]. intros [Hx Hrest]%andb_true_iff.
  destruct rest as [|y rest].
  - by apply split_free.
  - change (join (String c "") (x :: y :: rest))
      with (x +:+ String c (join (String c "") (y :: rest))).
    rewrite (split_app _ _ _ Hx). f_equal. by apply IH.
Qed.

Lemma startswith_contains (p s : string) :
  startswith p s = true -> contains p s = true.
Proof. destruct s; simpl; intros ->; done. Qed.

(** ** The endpoint classifier *)

Import AppHealthChecker.

(** The ranges of the [if/elif] chain, for any integer. *)
Lemma classify_ranges (c : Z) :
  (200 <= c < 300 ->
     classify c = ("UP", "Application is functioning correctly")) /\
  (300 <= c < 400 -> classify c = ("UP", "Application is up (redirect)")) /\
  (400 <= c < 500 ->
     classify c = ("DOWN", "Client error (HTTP " +:+ str c +:+ ")")) /\
  (500 <= c < 600 ->
     classify c = ("DOWN", "Server error (HTTP " +:+ str c +:+ ")")) /\
  (c < 200 \/ 600 <= c ->
     classify c = ("UNKNOWN", "Unexpected status code: " +:+ str c)).
Proof.
  unfold classify.
  destruct (200 <=? c) eqn:E1, (c <? 300) eqn:E2, (300 <=? c) eqn:E3,
    (c <? 400) eqn:E4, (400 <=? c) eqn:E5, (c <? 500) eqn:E6,
    (500 <=? c) eqn:E7, (c <? 600) eqn:E8; simpl;
    repeat split; intros; try reflexivity; lia.
Qed.

(** Every natural number is the code a probe reads from its decimal
    writing. *)
Lemma printed_code_is_read (c : Z) :
  0 <= c -> isdigit (strip (str c)) = true /\ int_opt (strip (str c)) = Some c.
Proof.
  intros Hc. rewrite strip_str, int_str. split; [|done].
  destruct c as [|p|p]; [reflexivity|apply str_pos|lia].
Qed.

(** C1. For the status code [c] a probe reads (a digit string of at most
    4300 digits, the longest [int] converts), the verdict is: [200 <= c < 300]
    UP with "Application is functioning correctly"; [300 <= c < 400] UP with a
    redirect message; [400 <= c < 500] DOWN with a message mentioning "client
    error"; [500 <= c < 600] DOWN with a message mentioning "server error";
    any other integer UNKNOWN; and an output that is empty or not a number is
    DOWN with the message "Unable to connect or receive response". *)
Theorem status_code_classification
    (spawn : list string -> child) (now u : string) (timeout : Z)
    (stdout : string) :
  subprocess_run (spawn (curl_cmd u timeout)) (timeout + 2) = Ok stdout ->
  let r := check_application_health spawn now u timeout in
  (isdigit (strip stdout) = true ->
   digit_count (strip stdout) <= max_str_digits ->
   exists c, int_opt (strip stdout) = Some c /\ status_code r = CodeInt c /\
     (200 <= c < 300 ->
        status r = "UP" /\ message r = "Application is functioning correctly") /\
     (300 <= c < 400 ->
        status r = "UP" /\ mentions "redirect" (message r) = true) /\
     (400 <= c < 500 ->
        status r = "DOWN" /\ mentions "client error" (message r) = true) /\
     (500 <= c < 600 ->
        status r = "DOWN" /\ mentions "server error" (message r) = true) /\
     (c < 200 \/ 600 <= c ->
        status r = "UNKNOWN" /\
        message r = "Unexpected status code: " +:+ str c)) /\
  (isdigit (strip stdout) = false ->
   status r = "DOWN" /\ status_code r = CodeStr "N/A" /\
   message r = "Unable to connect or receive response").
Proof.
  intros Hrun r. subst r. unfold check_application_health. rewrite Hrun.
  simpl. unfold interpret. split; [intros Hd Hfit|intros Hd]; rewrite Hd.
  - destruct (isdigit_int _ Hd) as (c & Hc & _).
    assert (truthy (strip stdout) = true) as ->.
    { unfold isdigit in Hd. by apply andb_true_iff in Hd as [? _]. }
    simpl. unfold int. rewrite Hc. apply Z.leb_le in Hfit. rewrite Hfit.
    simpl.
    exists c. split; [done|].
    generalize (classify_ranges c). intros (H2 & H3 & H4 & H5 & Hx).
    revert H2 H3 H4 H5 Hx.
    destruct (classify c) as [st msg] eqn:Hcl. simpl. clear Hcl.
    intros H2 H3 H4 H5 Hx. split; [done|].
    split; [|split; [|split; [|split]]]; intros Hr;
      [ specialize (H2 Hr) | specialize (H3 Hr) | specialize (H4 Hr)
      | specialize (H5 Hr) | specialize (Hx Hr) ];
      simplify_eq; split; reflexivity.
  - rewrite orb_true_r. simpl. done.
Qed.

Lemma status_code_classification_witness :
  subprocess_run
    (spawn Samples.two_sites 0 (curl_cmd "https://missing.example" 5)) (5 + 2)
    = Ok "404" /\
  status (check_application_health (spawn Samples.two_sites 0)
            "2024-05-01 12:00:00" "https://missing.example" 5) = "DOWN".
Proof.
  split; [reflexivity|].
  destruct (status_code_classification (spawn Samples.two_sites 0)
              "2024-05-01 12:00:00" "https://missing.example" 5 "404"
              eq_refl) as [H _].
  assert (digit_count (strip "404") <= max_str_digits) as Hfit
    by (vm_compute; discriminate).
  destruct (H eq_refl Hfit) as (c & Hc & _ & _ & _ & H4 & _).
  injection Hc as <-. apply H4. lia.
Defined.

(** ** Failure paths of the endpoint probe *)

Lemma check_raised spawn now u timeout e :
  subprocess_run (spawn (curl_cmd u timeout)) (timeout + 2) = Raise e ->
  check_application_health spawn now u timeout = on_exception u now timeout e.
Proof. intros H. unfold check_application_health. by rewrite H. Qed.







(** ** One-shot runs and their summary *)

Lemma check_status_200 spawn now u timeout :
  subprocess_run (spawn (curl_cmd u timeout)) (timeout + 2) = Ok "200" ->
  check_application_health spawn now u timeout =
    {| url := u; status := "UP"; status_code := CodeInt 200;
       message := "Application is functioning correctly"; timestamp := now |}.
Proof. intros H. unfold check_application_health. by rewrite H. Qed.

Lemma check_status_503 spawn now u timeout :
  subprocess_run (spawn (curl_cmd u timeout)) (timeout + 2) = Ok "503" ->
  check_application_health spawn now u timeout =
    {| url := u; status := "DOWN"; status_code := CodeInt 503;
       message := "Server error (HTTP 503)"; timestamp := now |}.
Proof. intros H. unfold check_application_health. by rewrite H. Qed.

Lemma printed_app (t1 t2 : list event) :
  printed (t1 ++ t2) = printed t1 ++ printed t2.
Proof. apply omap_app. Qed.

Lemma printed_probe_events w n urls timeout :
  printed (probe_events w n urls timeout)
    = format_result <$> probe_results w n urls timeout.
Proof.
  revert n. induction urls as [|u rest IH]; intros n; [done|].
  simpl. f_equal. apply IH.
Qed.

Lemma probe_results_length w n urls timeout :
  length (probe_results w n urls timeout) = length urls.
Proof. revert n. induction urls; intros n; simpl; auto. Qed.

(** The loop of [check_multiple_urls] probes every URL once, in order, and
    prints each verdict right after its probe. *)
Lemma check_each_spec w urls timeout :
  forall results s,
  check_each w urls timeout results s =
    (Go (results ++ probe_results w (probes s) urls timeout),
     {| trace := trace s ++ probe_events w (probes s) urls timeout;
        probes := (probes s + length urls)%nat |}).
Proof.
  induction urls as [|u rest IH]; intros results s; simpl.
  - unfold mret, io_ret. rewrite !app_nil_r, Nat.add_0_r. by destruct s.
  - unfold mbind, io_bind, probe, print, emit. simpl.
    rewrite IH. simpl. rewrite <- !app_assoc. simpl.
    do 2 f_equal. f_equal. lia.
Qed.

(** A one-shot run: the header, the verdicts, then the rule, the summary line
    and the closing rule. *)
Lemma check_multiple_urls_spec w urls timeout s :
  let results := probe_results w (probes s) urls timeout in
  check_multiple_urls w urls timeout s =
    (Go results,
     {| trace :=
          trace s
            ++ [Print (str_mul "=" 70); Print "APPLICATION HEALTH CHECK REPORT";
                Print (str_mul "=" 70)]
            ++ probe_events w (probes s) urls timeout
            ++ [Print (str_mul "=" 70); Print (summary_line results);
                Print (str_mul "=" 70)];
        probes := (probes s + length urls)%nat |}).
Proof.
  intros results. subst results. unfold check_multiple_urls.
  unfold mbind, io_bind, print, emit. cbn [trace probes].
  rewrite check_each_spec. cbn [trace probes app].
  unfold mret, io_ret. rewrite <- !app_assoc. reflexivity.
Qed.

(** C9. A one-shot run over the two targets, the first answering 200 and the
    second 503, returns one UP and one DOWN verdict, in that order, and the
    last thing it prints before the closing rule is the summary line
    "SUMMARY: 1 UP | 1 DOWN | Total: 2". *)
Theorem two_target_report (w : world) (timeout : Z) :
  subprocess_run (spawn w 0 (curl_cmd "https://good.example" timeout))
    (timeout + 2) = Ok "200" ->
  subprocess_run (spawn w 1 (curl_cmd "https://bad.example" timeout))
    (timeout + 2) = Ok "503" ->
  exists r1 r2 s body,
    check_multiple_urls w ["https://good.example"; "https://bad.example"]
      timeout {| trace := []; probes := 0 |} = (Go [r1; r2], s) /\
    url r1 = "https://good.example" /\ status r1 = "UP" /\
    url r2 = "https://bad.example" /\ status r2 = "DOWN" /\
    up_count [r1; r2] = 1 /\ down_count [r1; r2] = 1 /\
    printed (trace s) =
      body ++ ["SUMMARY: 1 UP | 1 DOWN | Total: 2"; str_mul "=" 70] /\
    contains "1 UP | 1 DOWN | Total: 2" (summary_line [r1; r2]) = true.
Proof.
  intros H1 H2.
  pose proof (check_multiple_urls_spec w
    ["https://good.example"; "https://bad.example"] timeout
    {| trace := []; probes := 0 |}) as Hrun.
  cbn [probes probe_results] in Hrun.
  rewrite (check_status_200 _ _ _ _ H1), (check_status_503 _ _ _ _ H2) in Hrun.
  eexists _, _, _, _. split; [exact Hrun|].
  repeat (split; [reflexivity|]).
  split; [|reflexivity].
  cbn [trace]. rewrite !printed_app, printed_probe_events.
  cbn [printed omap list_omap]. rewrite !app_assoc.
  etrans; [apply (app_assoc _ [_] [_; _])|]. reflexivity.
Qed.

Lemma two_target_report_witness :
  exists r1 r2 s body,
    check_multiple_urls Samples.two_sites
      ["https://good.example"; "https://bad.example"]
      5 {| trace := []; probes := 0 |} = (Go [r1; r2], s) /\
    url r1 = "https://good.example" /\ status r1 = "UP" /\
    url r2 = "https://bad.example" /\ status r2 = "DOWN" /\
    up_count [r1; r2] = 1 /\ down_count [r1; r2] = 1 /\
    printed (trace s) =
      body ++ ["SUMMARY: 1 UP | 1 DOWN | Total: 2"; str_mul "=" 70] /\
    contains "1 UP | 1 DOWN | Total: 2" (summary_line [r1; r2]) = true.
Proof. exact (two_target_report Samples.two_sites 5 eq_refl eq_refl). Defined.

Lemma count_if_bounds {A} (p : A -> bool) (l : list A) :
  0 <= count_if p l <= Z.of_nat (length l).
Proof. induction l as [|x l IH]; simpl; [lia|]. destruct (p x); lia. Qed.

Lemma count_if_filter {A} (p : A -> bool) (l : list A) :
  count_if p l = Z.of_nat (length (List.filter p l)).
Proof.
  induction l as [|x l IH]; simpl; [done|].
  destruct (p x); simpl; lia.
Qed.

Lemma up_down_split (results : list result) :
  up_count results + down_count results
    + count_if (fun r => negb (String.eqb (status r) "UP")
                         && negb (String.eqb (status r) "DOWN")) results
  = Z.of_nat (length results).
Proof.
  unfold up_count, down_count.
  induction results as [|r rs IH]; simpl; [done|].
  destruct (String.eqb (status r) "UP") eqn:E1.
  - apply String.eqb_eq in E1. rewrite E1. simpl. lia.
  - destruct (String.eqb (status r) "DOWN"); simpl; lia.
Qed.

(** C10. The summary counts a verdict as UP only when its status is exactly
    "UP" and as DOWN only when it is exactly "DOWN"; every verdict counts in
    the total. A verdict with status "UNKNOWN", which an out-of-range status
    code gives, is in the total only, and then UP + DOWN is strictly less than
    the total. *)
Theorem summary_ignores_unknown (results : list result) :
  up_count results
    = Z.of_nat (length (List.filter (fun r => String.eqb (status r) "UP") results)) /\
  down_count results
    = Z.of_nat (length (List.filter (fun r => String.eqb (status r) "DOWN") results)) /\
  summary_line results =
    "SUMMARY: " +:+ str (up_count results) +:+ " UP | "
      +:+ str (down_count results)
      +:+ " DOWN | Total: " +:+ str (Z.of_nat (length results)) /\
  up_count results + down_count results <= Z.of_nat (length results) /\
  (forall r, r ∈ results -> status r = "UNKNOWN" ->
     up_count results + down_count results < Z.of_nat (length results)) /\
  (forall c, c < 200 \/ 600 <= c -> (classify c).1 = "UNKNOWN").
Proof.
  split; [apply count_if_filter|]. split; [apply count_if_filter|].
  split; [reflexivity|].
  pose proof (up_down_split results) as Hsplit.
  split; [|split].
  - pose proof (count_if_bounds
      (fun r => negb (String.eqb (status r) "UP")
                && negb (String.eqb (status r) "DOWN")) results). lia.
  - intros r Hin Hst.
    enough (1 <= count_if
              (fun r => negb (String.eqb (status r) "UP")
                        && negb (String.eqb (status r) "DOWN")) results) by lia.
    clear Hsplit. induction Hin as [r rs|r r' rs Hin IH]; simpl.
    + rewrite Hst. simpl.
      pose proof (count_if_bounds
        (fun r => negb (String.eqb (status r) "UP")
                  && negb (String.eqb (status r) "DOWN")) rs). lia.
    + pose proof (count_if_bounds
        (fun r => negb (String.eqb (status r) "UP")
                  && negb (String.eqb (status r) "DOWN")) rs).
      specialize (IH Hst). destruct (_ && _); lia.
  - intros c Hc. destruct (classify_ranges c) as (_ & _ & _ & _ & Hx).
    by rewrite (Hx Hc).
Qed.

(** An answer of "000", which curl writes when it got no response, is a
    verdict that the summary counts in the total only. *)
Lemma summary_ignores_unknown_witness :
  let r := check_application_health (spawn Samples.two_sites 0)
             "2024-05-01 12:00:00" "https://odd.example" 5 in
  status r = "UNKNOWN" /\ status_code r = CodeInt 0 /\
  summary_line [r] = "SUMMARY: 0 UP | 0 DOWN | Total: 1" /\
  up_count [r] + down_count [r] < Z.of_nat (length [r]).
Proof.
  intros r. repeat (split; [reflexivity|]).
  destruct (summary_ignores_unknown [r]) as (_ & _ & _ & _ & H & _).
  apply (H r); [apply list_elem_of_here|reflexivity].
Defined.

(** ** Continuous mode *)

Lemma resolve_urls_no_probe (w : world) (a : args) (s : state) :
  let '(_, s') := resolve_urls w a s in
  List.filter is_probe (trace s') = List.filter is_probe (trace s) /\
  probes s' = probes s.
Proof.
  unfold resolve_urls, read_urls_from_file.
  assert (forall t e, is_probe e = false ->
            List.filter is_probe (t ++ [e]) = List.filter is_probe t) as Hsnoc.
  { intros t e He. rewrite List.filter_app. simpl. rewrite He.
    apply app_nil_r. }
  destruct (arg_file a) as [f|]; [destruct (truthy f)|];
    [destruct (open_file w f) as [text|e]; [|destruct (exn_class e)]|..];
    try destruct (arg_urls a);
    unfold mbind, mret, io_bind, io_ret, print, emit, sys_exit; simpl;
    rewrite ?Hsnoc by done; done.
Qed.

(** C5. When continuous mode is asked for and more than one target was
    given, the script prints "Error: Continuous mode requires exactly one
    URL", exits with status 1, and has started no probe. *)
Theorem continuous_rejects_several_targets
    (w : world) (a : args) (urls : list string) (s : state) :
  arg_continuous a = true ->
  resolve_urls w a {| trace := []; probes := 0 |} = (Go urls, s) ->
  (1 < length urls)%nat ->
  run_main w a
    = (1, trace s ++ [Print "Error: Continuous mode requires exactly one URL"])
  /\ (run_main w a).1 <> 0
  /\ List.filter is_probe (run_main w a).2 = [].
Proof.
  intros Hc Hres Hlen.
  pose proof (resolve_urls_no_probe w a {| trace := []; probes := 0 |}) as Hnp.
  rewrite Hres in Hnp. destruct Hnp as [Hnp _]. simpl in Hnp.
  assert (run_main w a
            = (1, trace s
                    ++ [Print "Error: Continuous mode requires exactly one URL"]))
    as Hrun.
  { unfold run_main, main. unfold mbind at 1. unfold io_bind at 1.
    rewrite Hres, Hc.
    destruct urls as [|u0 [|u1 rest]]; simpl in Hlen; [lia..|].
    assert ((1 <? Z.of_nat (length (u0 :: u1 :: rest))) = true) as ->.
    { apply Z.ltb_lt. simpl length. lia. }
    reflexivity. }
  split; [exact Hrun|]. rewrite Hrun. split; [done|].
  simpl. rewrite List.filter_app, Hnp. reflexivity.
Qed.

Lemma continuous_rejects_several_targets_witness :
  let a := {| arg_urls := ["https://good.example"; "https://bad.example"];
              arg_file := None; arg_continuous := true;
              arg_interval := 60; arg_timeout := 5 |} in
  run_main Samples.two_sites a
    = (1, [Print "Error: Continuous mode requires exactly one URL"]) /\
  (run_main Samples.two_sites a).1 <> 0 /\
  List.filter is_probe (run_main Samples.two_sites a).2 = [].
Proof.
  intros a.
  exact (continuous_rejects_several_targets Samples.two_sites a
           ["https://good.example"; "https://bad.example"]
           {| trace := []; probes := 0 |} eq_refl eq_refl
           (le_n 2)).
Defined.

(** ** Reading targets from a file *)

Lemma lstrip_decomp (s : string) :
  exists pre, s = pre +:+ lstrip s /\ all_space pre = true.
Proof.
  induction s as [|a s (pre & Hs & Hpre)]; simpl.
  - by exists EmptyString.
  - destruct (is_space a) eqn:Ha.
    + exists (String a pre). simpl. rewrite Ha, Hpre. split; [|done].
      by rewrite Hs at 1.
    + by exists EmptyString.
Qed.

Lemma rstrip_decomp (s : string) :
  exists post, s = rstrip s +:+ post /\ all_space post = true.
Proof.
  induction s as [|a s (post & Hs & Hpost)]; simpl.
  - by exists EmptyString.
  - destruct (rstrip s) as [|b r] eqn:Hr.
    + destruct (is_space a) eqn:Ha.
      * exists (String a post). simpl in *. rewrite Ha, Hpost.
        split; [by rewrite Hs at 1|done].
      * exists post. simpl in *. split; [by rewrite Hs at 1|done].
    + exists post. split; [|done]. simpl. by rewrite Hs at 1.
Qed.

Lemma lstrip_head (s : string) (a : ascii) (t : string) :
  lstrip s = String a t -> is_space a = false.
Proof.
  induction s as [|b s IH]; simpl; [done|].
  destruct (is_space b) eqn:Hb; [exact IH|]. by intros [= <- _].
Qed.

Lemma rstrip_head (a : ascii) (s : string) :
  is_space a = false -> exists t, rstrip (String a s) = String a t.
Proof. intros Ha. simpl. destruct (rstrip s); rewrite ?Ha; eauto. Qed.

Lemma rstrip_idemp (s : string) : rstrip (rstrip s) = rstrip s.
Proof.
  induction s as [|a s IH]; simpl; [done|].
  destruct (rstrip s) as [|b r] eqn:Hr.
  - destruct (is_space a) eqn:Ha; simpl; [done|by rewrite Ha].
  - change (rstrip (String a (String b r))) with
      (match rstrip (String b r) with
       | EmptyString => if is_space a then EmptyString else String a EmptyString
       | r' => String a r'
       end).
    by rewrite IH.
Qed.

Lemma strip_head (s : string) (a : ascii) (t : string) :
  strip s = String a t -> is_space a = false.
Proof.
  unfold strip. destruct (lstrip s) as [|b u] eqn:Hl; [done|].
  pose proof (lstrip_head _ _ _ Hl) as Hb.
  destruct (rstrip_head b u Hb) as (t' & ->). by intros [= <- _].
Qed.

(** Stripping leaves nothing more to strip. *)
Lemma strip_idemp (s : string) : strip (strip s) = strip s.
Proof.
  unfold strip.
  assert (lstrip (rstrip (lstrip s)) = rstrip (lstrip s)) as ->.
  { destruct (lstrip s) as [|b u] eqn:Hl; [done|].
    pose proof (lstrip_head _ _ _ Hl) as Hb.
    destruct (rstrip_head b u Hb) as (t' & ->). simpl. by rewrite Hb. }
  apply rstrip_idemp.
Qed.

(** Stripping removes whitespace only, and only at the two ends. *)
Lemma strip_decomp (s : string) :
  exists pre post,
    s = pre +:+ strip s +:+ post /\
    all_space pre = true /\ all_space post = true.
Proof.
  destruct (lstrip_decomp s) as (pre & Hs & Hpre).
  destruct (rstrip_decomp (lstrip s)) as (post & Hl & Hpost).
  exists pre, post. unfold strip. by rewrite <- Hl.
Qed.

Lemma startswith_hash_lstrip (line : string) :
  startswith "#" line = true -> lstrip line = line.
Proof.
  destruct line as [|a s]; cbn [startswith lstrip]; [done|].
  destruct (Ascii.eqb "#" a) eqn:E; [|done].
  apply Ascii.eqb_eq in E as <-. done.
Qed.

Lemma select_urls_cons (line : string) (lines : list string) :
  select_urls (line :: lines) =
    (if truthy (strip line) && negb (startswith "#" line)
     then [strip line] else []) ++ select_urls lines.
Proof. unfold select_urls. simpl. by destruct (_ && _). Qed.

Lemma select_urls_app (l1 l2 : list string) :
  select_urls (l1 ++ l2) = select_urls l1 ++ select_urls l2.
Proof. unfold select_urls. by rewrite List.filter_app, fmap_app. Qed.

Lemma truthy_nonempty (s : string) : truthy s = true <-> s <> EmptyString.
Proof. destruct s; simpl; split; try done. Qed.

(** C7, as the code has it. The targets read from a file are its lines in
    order, each with the surrounding whitespace stripped, without the lines
    that are blank and without the lines whose very first character is '#'.
    A line with whitespace before a '#' is kept (as a target that starts with
    '#'); the result is the one stated in the interface exactly when no line
    is such an indented comment. *)
Theorem read_urls_keeps_lines (lines : list string) :
  (forall (w : world) (f text : string) (s : state),
     open_file w f = Ok text ->
     lines = file_lines (universal_newlines text) ->
     read_urls_from_file w f s = (Go (select_urls lines), s)) /\
  (forall u, u ∈ select_urls lines <->
     exists line, line ∈ lines /\ u = strip line /\ u <> EmptyString /\
                  startswith "#" line = false) /\
  select_urls lines `sublist_of` (strip <$> lines) /\
  (forall u, u ∈ select_urls lines -> strip u = u) /\
  ((forall line, line ∈ lines -> startswith "#" (lstrip line) = true ->
      startswith "#" line = true) ->
   select_urls lines = select_urls_stated lines).
Proof.
  split; [|split; [|split; [|split]]].
  - intros w f text s Hopen ->. unfold read_urls_from_file. by rewrite Hopen.
  - intros u. unfold select_urls. rewrite list_elem_of_fmap. split.
    + intros (line & -> & Hin). apply list_elem_of_In, List.filter_In in Hin.
      destruct Hin as [Hin Hk]. apply andb_true_iff in Hk as [Ht Hh].
      exists line. rewrite list_elem_of_In. repeat split; try done.
      * by apply truthy_nonempty.
      * by apply negb_true_iff.
    + intros (line & Hin & -> & Hne & Hh). exists line. split; [done|].
      apply list_elem_of_In, List.filter_In. split; [by apply list_elem_of_In|].
      apply andb_true_iff. split; [by apply truthy_nonempty|].
      by apply negb_true_iff.
  - induction lines as [|line rest IH]; [constructor|].
    rewrite select_urls_cons, fmap_cons.
    destruct (_ && _); simpl; by constructor.
  - intros u. unfold select_urls. rewrite list_elem_of_fmap.
    intros (line & -> & _). apply strip_idemp.
  - intros Hno. unfold select_urls, select_urls_stated. f_equal.
    apply List.filter_ext_in. intros line Hin%list_elem_of_In. f_equal.
    destruct (startswith "#" line) eqn:E.
    + by rewrite (startswith_hash_lstrip line E), E.
    + destruct (startswith "#" (lstrip line)) eqn:E'; [|done].
      by rewrite (Hno line Hin E') in E.
Qed.

Lemma read_urls_keeps_lines_witness :
  read_urls_from_file Samples.two_sites "urls.txt" {| trace := []; probes := 0 |}
    = (Go ["https://good.example"; "# disabled"; "https://bad.example"],
       {| trace := []; probes := 0 |}) /\
  strip "https://bad.example" = "https://bad.example".
Proof.
  pose (text := "# targets" +:+ String nl
                  ("https://good.example" +:+ String nl
                     ("  # disabled" +:+ String nl
                        (String nl ("  https://bad.example  " +:+ String nl ""))))).
  destruct (read_urls_keeps_lines (file_lines (universal_newlines text)))
    as (Hread & _ & _ & Hstrip & _).
  split.
  - exact (Hread Samples.two_sites "urls.txt" text
             {| trace := []; probes := 0 |} eq_refl eq_refl).
  - apply Hstrip. vm_compute. do 2 apply list_elem_of_further.
    apply list_elem_of_here.
Defined.

(** A line whose first character that is not whitespace is '#', but which
    starts with whitespace, is not excluded. *)
Lemma indented_comment_is_kept :
  let lines :=
    file_lines (universal_newlines
      ("  # disabled" +:+ String nl ("https://good.example" +:+ String nl ""))) in
  select_urls lines = ["# disabled"; "https://good.example"] /\
  select_urls_stated lines = ["https://good.example"] /\
  select_urls lines <> select_urls_stated lines.
Proof. repeat split. discriminate. Qed.

(** ** The host probes *)

Import SystemHealthMonitor.

Lemma try_except_total {A} (body : res A) (a : A) :
  exists v, try_except body (fun _ => Ok a) = Ok v.
Proof. destruct body; simpl; eauto. Qed.

Lemma get_cpu_usage_total rt h : exists v, get_cpu_usage rt h = Ok v.
Proof.
  unfold get_cpu_usage. destruct (cpu_extract rt h); simpl; [eauto|].
  apply try_except_total.
Qed.

Lemma get_memory_usage_total rt h : exists v, get_memory_usage rt h = Ok v.
Proof. apply try_except_total. Qed.

Lemma get_disk_usage_total rt h : exists v, get_disk_usage rt h = Ok v.
Proof. apply try_except_total. Qed.

Lemma get_top_processes_total h n : exists v, get_top_processes h n = Ok v.
Proof. apply try_except_total. Qed.

Lemma eq_not_gt (v : num) (t : Z) : num_eq_Z v t = true -> num_gt_Z v t = false.
Proof. unfold num_eq_Z, num_gt_Z. by destruct (num_cmp_Z v t) as [[]|]. Qed.

Lemma num_gt_Z_int (n t : Z) : num_gt_Z (NInt n) t = true <-> t < n.
Proof.
  unfold num_gt_Z. simpl.
  destruct (Z.compare_spec n t); split; intros; try done; lia.
Qed.

Lemma check_metric_spec rt thresholds label key v limit alerts :
  thresholds !! key = Some limit ->
  check_metric rt thresholds label key v alerts
    = Ok (alerts ++ metric_alerts rt label v limit).
Proof.
  intros H. unfold check_metric, getitem, metric_alerts. rewrite H. simpl.
  destruct (num_gt_Z v limit); [done|by rewrite app_nil_r].
Qed.

(** *** The comparison of a measurement with a limit is the exact one *)

Lemma Qcompare_inject_Z (a b : Z) :
  (inject_Z a ?= inject_Z b)%Q = (a ?= b).
Proof. unfold Qcompare. simpl. by rewrite !Z.mul_1_r. Qed.

Lemma Qcompare_div_inject_Z (a b : Z) (d : positive) :
  (inject_Z a * / inject_Z (Z.pos d) ?= inject_Z b)%Q = (a ?= b * Z.pos d).
Proof.
  unfold Qcompare. simpl. by rewrite !Z.mul_1_r, Pos.mul_1_l.
Qed.

Lemma float_cmp_exact (x : float) (t : Z) (q : Q) :
  float_exact x = Some q ->
  float_cmp_Z x t = Some (q ?= inject_Z t)%Q.
Proof.
  unfold float_exact, float_cmp_Z.
  destruct (Prim2SF x) as [s|s| |s m e]; try discriminate; intros [= <-]; f_equal.
  - symmetry. apply (Qcompare_inject_Z 0 t).
  - set (v := if s then Z.neg m else Z.pos m).
    destruct e as [|p|p]; cbn [Z.leb Z.compare Z.opp].
    + rewrite Z.pow_0_r, Z.mul_1_r. simpl Qpower.
      rewrite (Qcompare_comp (inject_Z v * 1)%Q (inject_Z v) (Qmult_1_r _)
                 (inject_Z t) (inject_Z t) (Qeq_refl _)).
      symmetry. apply Qcompare_inject_Z.
    + assert (inject_Z v * inject_Z 2 ^ Z.pos p == inject_Z (v * 2 ^ Z.pos p))%Q
        as Heq.
      { rewrite inject_Z_mult, Zpower_Qpower; [reflexivity|lia]. }
      change (2%Q) with (inject_Z 2).
      rewrite (Qcompare_comp _ _ Heq (inject_Z t) (inject_Z t) (Qeq_refl _)).
      symmetry. apply Qcompare_inject_Z.
    + assert (inject_Z v * inject_Z 2 ^ Z.neg p
              == inject_Z v * / inject_Z (Z.pos (2 ^ p)))%Q as Heq.
      { change (inject_Z 2 ^ Z.neg p)%Q with (/ (inject_Z 2 ^ Z.pos p))%Q.
        rewrite <- Zpower_Qpower by lia.
        by rewrite <- Pos2Z.inj_pow. }
      change (2%Q) with (inject_Z 2).
      rewrite (Qcompare_comp _ _ Heq (inject_Z t) (inject_Z t) (Qeq_refl _)).
      rewrite Qcompare_div_inject_Z. cbn [Z.opp]. by rewrite Pos2Z.inj_pow.
Qed.

(** A finite measurement is above the limit exactly when the number it
    denotes is strictly greater, and equal to it exactly when they are the
    same number. *)
Lemma num_gt_Z_exact (v : num) (t : Z) (q : Q) :
  num_exact v = Some q ->
  (num_gt_Z v t = true <-> (inject_Z t < q)%Q) /\
  (num_eq_Z v t = true <-> (q == inject_Z t)%Q).
Proof.
  intros Hq.
  assert (num_cmp_Z v t = Some (q ?= inject_Z t)%Q) as Hcmp.
  { destruct v as [n|x]; simpl in *.
    - injection Hq as <-. by rewrite Qcompare_inject_Z.
    - by apply float_cmp_exact. }
  unfold num_gt_Z, num_eq_Z. rewrite Hcmp.
  rewrite Qgt_alt, Qeq_alt.
  destruct (q ?= inject_Z t)%Q; split; split; congruence.
Qed.

(** *** Alerts *)

Lemma alerts_for_app (label : string) (l1 l2 : list string) :
  alerts_for label (l1 ++ l2) = alerts_for label l1 ++ alerts_for label l2.
Proof. apply List.filter_app. Qed.

Ltac by_label :=
  unfold alerts_for, metric_alerts;
  match goal with |- context [num_gt_Z ?v ?t] => destruct (num_gt_Z v t) end;
  reflexivity.

Lemma alerts_for_cpu rt v t :
  alerts_for "CPU" (metric_alerts rt "CPU" v t) = metric_alerts rt "CPU" v t
  /\ alerts_for "Memory" (metric_alerts rt "CPU" v t) = []
  /\ alerts_for "Disk" (metric_alerts rt "CPU" v t) = [].
Proof. repeat split; by_label. Qed.

Lemma alerts_for_memory rt v t :
  alerts_for "CPU" (metric_alerts rt "Memory" v t) = []
  /\ alerts_for "Memory" (metric_alerts rt "Memory" v t)
     = metric_alerts rt "Memory" v t
  /\ alerts_for "Disk" (metric_alerts rt "Memory" v t) = [].
Proof. repeat split; by_label. Qed.

Lemma alerts_for_disk rt v t :
  alerts_for "CPU" (metric_alerts rt "Disk" v t) = []
  /\ alerts_for "Memory" (metric_alerts rt "Disk" v t) = []
  /\ alerts_for "Disk" (metric_alerts rt "Disk" v t)
     = metric_alerts rt "Disk" v t.
Proof. repeat split; by_label. Qed.

Lemma alerts_when_above_intro rt label v limit alerts :
  alerts_for label alerts = metric_alerts rt label v limit ->
  alerts_when_above rt label v limit alerts.
Proof.
  intros H. unfold alerts_when_above. rewrite H. unfold metric_alerts.
  split; [done|]. split; [by destruct (num_gt_Z v limit)|].
  split; [intros He; by rewrite (eq_not_gt _ _ He)|].
  intros q Hq. destruct (num_gt_Z_exact v limit q Hq) as [Hgt Heq].
  split.
  - rewrite <- Hgt. by destruct (num_gt_Z v limit).
  - intros He%Heq. by rewrite (eq_not_gt _ _ He).
Qed.

(** C2. With a policy that has the three limits, a health check returns the
    three measurements and a list of alerts in which each of cpu, memory and
    disk has one alert when its value is strictly greater than its limit and
    none otherwise; a value equal to its limit has none. The returned data
    has no verdict: it is the measurements, the process table and the
    alerts. *)
Theorem alert_iff_above_threshold
    (rt : builtins) (h : host) (thresholds : gmap string Z) (tc tm td : Z) :
  thresholds !! "cpu" = Some tc ->
  thresholds !! "memory" = Some tm ->
  thresholds !! "disk" = Some td ->
  exists d, check_system_health rt h thresholds = Ok d /\
    get_cpu_usage rt h = Ok (cpu_usage d) /\
    get_memory_usage rt h = Ok (memory_usage d) /\
    get_disk_usage rt h = Ok (disk_usage d) /\
    alerts d = metric_alerts rt "CPU" (cpu_usage d) tc
                 ++ metric_alerts rt "Memory" (memory_usage d) tm
                 ++ metric_alerts rt "Disk" (disk_usage d) td /\
    alerts_when_above rt "CPU" (cpu_usage d) tc (alerts d) /\
    alerts_when_above rt "Memory" (memory_usage d) tm (alerts d) /\
    alerts_when_above rt "Disk" (disk_usage d) td (alerts d).
Proof.
  intros Hc Hm Hd.
  destruct (get_cpu_usage_total rt h) as [c Ec].
  destruct (get_memory_usage_total rt h) as [m Em].
  destruct (get_disk_usage_total rt h) as [k Ek].
  destruct (get_top_processes_total h 5) as [ps Eps].
  eexists. split.
  { unfold check_system_health. rewrite Ec, Em, Ek, Eps. simpl.
    rewrite (check_metric_spec _ _ _ _ _ _ _ Hc). simpl.
    rewrite (check_metric_spec _ _ _ _ _ _ _ Hm). simpl.
    rewrite (check_metric_spec _ _ _ _ _ _ _ Hd). simpl.
    rewrite <- app_assoc. reflexivity. }
  cbn [cpu_usage memory_usage disk_usage alerts].
  destruct (alerts_for_cpu rt c tc) as (Hcc & Hcm & Hcd).
  destruct (alerts_for_memory rt m tm) as (Hmc & Hmm & Hmd).
  destruct (alerts_for_disk rt k td) as (Hdc & Hdm & Hdd).
  split; [exact Ec|]. split; [exact Em|]. split; [exact Ek|].
  split; [reflexivity|].
  split; [|split]; apply alerts_when_above_intro; rewrite !alerts_for_app.
  - by rewrite Hcc, Hmc, Hdc, !app_nil_r.
  - by rewrite Hcm, Hmm, Hdm, !app_nil_r.
  - by rewrite Hcd, Hmd, Hdd.
Qed.

Lemma alert_iff_above_threshold_witness :
  exists d,
    check_system_health Reference.runtime Reference.linux_host
      (<["cpu" := 50]> DEFAULT_THRESHOLDS) = Ok d /\
    alerts d = ["CPU usage is HIGH: 75.0% (threshold: 50%)"] /\
    disk_usage d = NFloat 80 /\
    alerts_for "Disk" (alerts d) = [].
Proof.
  assert ((<["cpu" := 50]> DEFAULT_THRESHOLDS : gmap string Z) !! "cpu"
          = Some 50) as Hc by (vm_compute; reflexivity).
  assert ((<["cpu" := 50]> DEFAULT_THRESHOLDS : gmap string Z) !! "memory"
          = Some 80) as Hm by (vm_compute; reflexivity).
  assert ((<["cpu" := 50]> DEFAULT_THRESHOLDS : gmap string Z) !! "disk"
          = Some 80) as Hd by (vm_compute; reflexivity).
  destruct (alert_iff_above_threshold Reference.runtime Reference.linux_host
              _ 50 80 80 Hc Hm Hd)
    as (d & Hrun & _ & _ & Hdisk & Halerts & _ & _ & _ & _ & Heq & _).
  exists d. split; [exact Hrun|].
  assert (disk_usage d = NFloat 80) as Hdu.
  { assert (get_disk_usage Reference.runtime Reference.linux_host
            = Ok (NFloat 80)) as E by (vm_compute; reflexivity).
    rewrite E in Hdisk. by injection Hdisk. }
  split; [|split; [exact Hdu|]].
  - assert (get_cpu_usage Reference.runtime Reference.linux_host
            = Ok (NFloat 75)) as Ecpu by (vm_compute; reflexivity).
    assert (get_memory_usage Reference.runtime Reference.linux_host
            = Ok (NFloat 60)) as Emem by (vm_compute; reflexivity).
    unfold check_system_health in Hrun. rewrite Ecpu, Emem in Hrun.
    vm_compute in Hrun. injection Hrun as <-. reflexivity.
  - apply Heq. rewrite Hdu. reflexivity.
Defined.


(** *** The CPU estimate *)

Lemma min_100_capped (x : float) : num_gt_Z (min_100 x) 100 = false.
Proof.
  unfold min_100. destruct (num_gt_Z (NFloat x) 100) eqn:E; [reflexivity|done].
Qed.

(** C6. [get_cpu_usage] never raises and never returns None: it returns a
    number. When the extraction of the platform fails and the 1-minute load
    average can be read, the number is [min(load * 25, 100)], which is never
    above 100; when the load average cannot be read either, it is 0.0. *)
Theorem cpu_fallback_estimate (rt : builtins) (h : host) :
  (exists v, get_cpu_usage rt h = Ok v) /\
  (forall e, cpu_extract rt h = Raise e ->
     (forall load, load_average rt h = Ok load ->
        get_cpu_usage rt h = Ok (min_100 (load * 25)%float) /\
        (num_gt_Z (NFloat (load * 25)%float) 100 = true ->
           min_100 (load * 25)%float = NInt 100) /\
        (num_gt_Z (NFloat (load * 25)%float) 100 = false ->
           min_100 (load * 25)%float = NFloat (load * 25)%float) /\
        num_gt_Z (min_100 (load * 25)%float) 100 = false /\
        (forall q, num_exact (min_100 (load * 25)%float) = Some q ->
           (q <= 100)%Q)) /\
     (forall e', load_average rt h = Raise e' ->
        get_cpu_usage rt h = Ok (NFloat 0%float))).
Proof.
  split; [apply get_cpu_usage_total|].
  intros e He. unfold get_cpu_usage, cpu_estimate. rewrite He. simpl.
  split.
  - intros load Hl. rewrite Hl. simpl.
    split; [done|]. unfold min_100 at 1 2.
    split; [by intros ->|]. split; [by intros ->|].
    split; [apply min_100_capped|].
    intros q Hq. destruct (num_gt_Z_exact _ 100 q Hq) as [Hgt _].
    apply Qnot_lt_le. intros Hlt. apply Hgt in Hlt.
    by rewrite min_100_capped in Hlt.
  - intros e' Hl. by rewrite Hl.
Qed.

Lemma cpu_fallback_estimate_witness :
  (exists e, cpu_extract Reference.runtime
               (Reference.no_top_host "0.52 0.58 0.59 1/389 12345") = Raise e) /\
  load_average Reference.runtime
    (Reference.no_top_host "0.52 0.58 0.59 1/389 12345")
    = Ok 0x1.0a3d70a3d70a4p-1%float /\
  get_cpu_usage Reference.runtime
    (Reference.no_top_host "0.52 0.58 0.59 1/389 12345") = Ok (NFloat 13).
Proof.
  split; [eexists; vm_compute; reflexivity|].
  split; [vm_compute; reflexivity|].
  destruct (cpu_fallback_estimate Reference.runtime
              (Reference.no_top_host "0.52 0.58 0.59 1/389 12345"))
    as [_ H].
  destruct (H (Exn ValueError "could not convert string to float: ''")
              ltac:(vm_compute; reflexivity)) as [Hest _].
  destruct (Hest 0x1.0a3d70a3d70a4p-1%float ltac:(vm_compute; reflexivity))
    as [Hcpu _].
  rewrite Hcpu. vm_compute. reflexivity.
Defined.

(** With a load average of 5.2 the estimate is capped, and the cap is the
    int 100. *)
Example cpu_estimate_capped :
  get_cpu_usage Reference.runtime
    (Reference.no_top_host "5.20 4.10 3.00 7/389 12345") = Ok (NInt 100).
Proof. vm_compute. reflexivity. Qed.

(** ** Failure paths of the probes *)

Lemma classify_message_nonempty (c : Z) : (classify c).2 <> EmptyString.
Proof.
  unfold classify.
  repeat match goal with |- context [if ?b then _ else _] => destruct b end;
    done.
Qed.

Lemma message_nonempty spawn now u timeout :
  message (check_application_health spawn now u timeout) <> EmptyString.
Proof.
  unfold check_application_health.
  destruct (subprocess_run _ _) as [out|e]; simpl.
  - unfold interpret. destruct (_ || _); [done|].
    destruct (int (strip out)) as [c|e]; simpl.
    + pose proof (classify_message_nonempty c).
      by destruct (classify c).
    + unfold on_exception. by destruct (exn_class e).
  - unfold on_exception. by destruct (exn_class e).
Qed.

(** C3, as the code has it. Every verdict of the endpoint probe has a
    message, and each failure path of that probe (no numeric answer, the
    timeout, any other exception) gives status DOWN with a sentinel code and
    a message that says what failed. The metric probes have no message to
    give: when reading memory or disk usage fails the probe returns the
    bare number 0.0, and so does the CPU probe when its extraction and its
    estimate both fail. *)
Theorem probe_failure_paths :
  (forall spawn now u timeout,
     let r := check_application_health spawn now u timeout in
     message r <> EmptyString /\
     (forall out,
        subprocess_run (spawn (curl_cmd u timeout)) (timeout + 2) = Ok out ->
        isdigit (strip out) = false ->
        status r = "DOWN" /\ status_code r = CodeStr "N/A" /\
        message r = "Unable to connect or receive response") /\
     (forall e,
        subprocess_run (spawn (curl_cmd u timeout)) (timeout + 2) = Raise e ->
        exn_class e = TimeoutExpired ->
        status r = "DOWN" /\ status_code r = CodeStr "TIMEOUT" /\
        message r = "Request timeout after " +:+ str timeout +:+ " seconds") /\
     (forall e,
        subprocess_run (spawn (curl_cmd u timeout)) (timeout + 2) = Raise e ->
        exn_class e <> TimeoutExpired ->
        status r = "DOWN" /\ status_code r = CodeStr "ERROR" /\
        message r = "Error: " +:+ exn_text e)) /\
  (forall rt h,
     (forall e, memory_body rt h = Raise e ->
        get_memory_usage rt h = Ok (NFloat 0%float)) /\
     (forall e, disk_body rt h = Raise e ->
        get_disk_usage rt h = Ok (NFloat 0%float)) /\
     (forall e e', cpu_extract rt h = Raise e -> cpu_estimate rt h = Raise e' ->
        get_cpu_usage rt h = Ok (NFloat 0%float))).
Proof.
  split.
  - intros spawn now u timeout r. subst r.
    split; [apply message_nonempty|].
    split; [|split].
    + intros out Hrun Hd. unfold check_application_health. rewrite Hrun.
      simpl. unfold interpret. rewrite Hd, orb_true_r. done.
    + intros e Hrun He. rewrite (check_raised _ _ _ _ _ Hrun).
      unfold on_exception. by rewrite He.
    + intros e Hrun He. rewrite (check_raised _ _ _ _ _ Hrun).
      unfold on_exception. by destruct (exn_class e).
  - intros rt h. split; [|split].
    + intros e He. unfold get_memory_usage. by rewrite He.
    + intros e He. unfold get_disk_usage. by rewrite He.
    + intros e e' He He'. unfold get_cpu_usage. by rewrite He, He'.
Qed.

Lemma probe_failure_paths_witness :
  status_code (check_application_health (spawn Samples.two_sites 0)
                 "2024-05-01 12:00:00" "https://slow.example" 5)
    = CodeStr "TIMEOUT" /\
  get_memory_usage Reference.runtime Reference.dead_host = Ok (NFloat 0%float).
Proof.
  destruct probe_failure_paths as [Hhttp Hmetric]. split.
  - destruct (Hhttp (spawn Samples.two_sites 0) "2024-05-01 12:00:00"
                "https://slow.example" 5) as (_ & _ & Ht & _).
    exact (proj1 (proj2 (Ht (Exn TimeoutExpired "timed out") eq_refl eq_refl))).
  - destruct (Hmetric Reference.runtime Reference.dead_host) as (Hm & _).
    apply (Hm (Exn OSError "No such file or directory")).
    vm_compute. reflexivity.
Defined.

(** On a host where every probe fails, each metric probe returns what it
    returns on an idle host where every probe succeeds, and the whole health
    check is the same: nothing in the result tells the failure. *)
Lemma metric_failure_is_silent :
  (exists e, memory_body Reference.runtime Reference.dead_host = Raise e) /\
  (exists e, disk_body Reference.runtime Reference.dead_host = Raise e) /\
  (exists e, cpu_extract Reference.runtime Reference.dead_host = Raise e) /\
  (exists e, cpu_estimate Reference.runtime Reference.dead_host = Raise e) /\
  memory_body Reference.runtime Reference.idle_host = Ok (NFloat 0%float) /\
  disk_body Reference.runtime Reference.idle_host = Ok (NFloat 0%float) /\
  cpu_extract Reference.runtime Reference.idle_host = Ok (NFloat 0%float) /\
  get_memory_usage Reference.runtime Reference.dead_host
    = get_memory_usage Reference.runtime Reference.idle_host /\
  get_disk_usage Reference.runtime Reference.dead_host
    = get_disk_usage Reference.runtime Reference.idle_host /\
  get_cpu_usage Reference.runtime Reference.dead_host
    = get_cpu_usage Reference.runtime Reference.idle_host /\
  check_system_health Reference.runtime Reference.dead_host DEFAULT_THRESHOLDS
    = check_system_health Reference.runtime Reference.idle_host
        DEFAULT_THRESHOLDS /\
  (d ← check_system_health Reference.runtime Reference.dead_host
         DEFAULT_THRESHOLDS;
   Ok (cpu_usage d, memory_usage d, disk_usage d, alerts d))
    = Ok (NFloat 0%float, NFloat 0%float, NFloat 0%float, []).
Proof.
  repeat split; try (eexists; vm_compute; reflexivity);
    vm_compute; reflexivity.
Qed.

(** ** The threshold policy *)

Lemma parse_pairs_spec (items : list string) :
  forall thresholds : gmap string Z,
  parse_pairs items thresholds =
    (ps ← named_pairs items;
     Ok (foldl (fun m (p : string * Z) => <[p.1 := p.2]> m) thresholds ps)).
Proof.
  induction items as [|item rest IH]; intros thresholds; [done|].
  cbn [parse_pairs named_pairs]. unfold item_pair.
  destruct (unpack_pair item) as [kv|e]; [|done]. simpl.
  destruct (int (strip kv.2)) as [n|e]; [|done]. simpl.
  rewrite IH. by destruct (named_pairs rest).
Qed.

Lemma foldl_insert_lookup (ps : list (string * Z)) :
  forall (thresholds : gmap string Z) (key : string),
  foldl (fun m (p : string * Z) => <[p.1 := p.2]> m) thresholds ps !! key =
    match last_binding key ps with
    | Some v => Some v
    | None => thresholds !! key
    end.
Proof.
  induction ps as [|p rest IH]; intros thresholds key; [done|].
  cbn [foldl last_binding]. rewrite IH.
  destruct (last_binding key rest); [done|].
  destruct (String.eqb p.1 key) eqn:E.
  - apply String.eqb_eq in E as <-. apply lookup_insert_eq.
  - apply String.eqb_neq in E. by apply lookup_insert_ne.
Qed.

Lemma last_binding_in (ps : list (string * Z)) (key : string) (v : Z) :
  last_binding key ps = Some v -> (key, v) ∈ ps.
Proof.
  induction ps as [|[k' v'] rest IH]; [done|]. cbn [last_binding].
  destruct (last_binding key rest) as [w|].
  - intros [= ->]. apply list_elem_of_further. by apply IH.
  - simpl. destruct (String.eqb k' key) eqn:E; [|done].
    apply String.eqb_eq in E as ->. intros [= ->]. apply list_elem_of_here.
Qed.

Lemma last_binding_none (ps : list (string * Z)) (key : string) :
  last_binding key ps = None <-> key ∉ ps.*1.
Proof.
  induction ps as [|[k' v'] rest IH]; cbn [last_binding fmap list_fmap].
  - split; [intros _; apply not_elem_of_nil|done].
  - rewrite not_elem_of_cons. simpl.
    destruct (last_binding key rest) as [w|].
    + split; [done|]. intros [_ H]. by apply IH in H.
    + destruct (String.eqb k' key) eqn:E.
      * apply String.eqb_eq in E as ->. split; [done|]. by intros [? _].
      * apply String.eqb_neq in E. split; [|done]. intros _.
        split; [congruence|]. by apply IH.
Qed.

Lemma last_binding_nodup (ps : list (string * Z)) (key : string) (v : Z) :
  NoDup ps.*1 -> (key, v) ∈ ps -> last_binding key ps = Some v.
Proof.
  induction ps as [|[k' v'] rest IH]; intros Hnd Hin.
  - by apply elem_of_nil in Hin.
  - cbn [fmap list_fmap] in Hnd. apply NoDup_cons in Hnd as [Hk' Hnd].
    cbn [last_binding]. apply elem_of_cons in Hin as [[= -> ->]|Hin].
    + simpl in Hk'. apply last_binding_none in Hk'. rewrite Hk'. simpl.
      by rewrite String.eqb_refl.
    + by rewrite (IH Hnd Hin).
Qed.

Lemma item_pair_render (k : string) (v : Z) :
  plain_key k = true -> short_int v = true ->
  item_pair (k +:+ "=" +:+ str v) = Ok (k, v).
Proof.
  unfold plain_key, short_int.
  intros [[_ Heq]%andb_true_iff Hk]%andb_true_iff Hv.
  apply String.eqb_eq in Hk.
  unfold item_pair, unpack_pair.
  change (k +:+ "=" +:+ str v) with (k +:+ String "=" (str v)).
  rewrite (split_app _ _ _ Heq), (split_free "=" (str v))
    by (by apply free_of_str).
  unfold mbind, res_bind, bind. cbn [fst snd].
  rewrite strip_str. unfold int. rewrite int_str, Hv.
  by rewrite Hk.
Qed.

Lemma named_pairs_render (ps : list (string * Z)) :
  forallb (fun p : string * Z => plain_key p.1) ps = true ->
  forallb (fun p : string * Z => short_int p.2) ps = true ->
  named_pairs ((fun p : string * Z => p.1 +:+ "=" +:+ str p.2) <$> ps) = Ok ps.
Proof.
  induction ps as [|[k v] rest IH]; [done|]. cbn [forallb fmap list_fmap].
  intros [Hk Hrest]%andb_true_iff [Hv Hvs]%andb_true_iff.
  cbn [named_pairs fst snd] in *.
  rewrite (item_pair_render k v Hk Hv). unfold mbind, res_bind, bind.
  by rewrite (IH Hrest Hvs).
Qed.

Lemma item_pair_render_long (k : string) (v : Z) :
  plain_key k = true -> short_int v = false ->
  exists e,
    item_pair (k +:+ "=" +:+ str v) = Raise e /\ exn_class e = ValueError.
Proof.
  unfold plain_key, short_int.
  intros [[_ Heq]%andb_true_iff Hk]%andb_true_iff Hv.
  unfold item_pair, unpack_pair.
  change (k +:+ "=" +:+ str v) with (k +:+ String "=" (str v)).
  rewrite (split_app _ _ _ Heq), (split_free "=" (str v))
    by (by apply free_of_str).
  unfold mbind, res_bind, bind. cbn [fst snd].
  rewrite strip_str. unfold int. rewrite int_str, Hv.
  eexists. split; reflexivity.
Qed.

Lemma named_pairs_render_long (ps : list (string * Z)) :
  forallb (fun p : string * Z => plain_key p.1) ps = true ->
  forallb (fun p : string * Z => short_int p.2) ps = false ->
  exists e,
    named_pairs ((fun p : string * Z => p.1 +:+ "=" +:+ str p.2) <$> ps)
      = Raise e /\ exn_class e = ValueError.
Proof.
  induction ps as [|[k v] rest IH]; [done|]. cbn [forallb fmap list_fmap].
  intros [Hk Hrest]%andb_true_iff Hv. cbn [named_pairs fst snd] in *.
  destruct (short_int v) eqn:Ev.
  - rewrite (item_pair_render k v Hk Ev). unfold mbind, res_bind, bind.
    destruct (IH Hrest Hv) as (e & -> & He). by exists e.
  - destruct (item_pair_render_long k v Hk Ev) as (e & -> & He). by exists e.
Qed.

Lemma plain_keys (ps : list (string * Z)) :
  forallb (fun p : string * Z => plain_key p.1 && ascii_text p.1) ps = true ->
  forallb (fun p : string * Z => plain_key p.1) ps = true.
Proof.
  induction ps as [|p rest IH]; [done|]. cbn [forallb].
  intros [[Hp _]%andb_true_iff Hrest]%andb_true_iff.
  by rewrite Hp, (IH Hrest).
Qed.

Lemma split_render (ps : list (string * Z)) :
  ps <> [] ->
  forallb (fun p : string * Z => plain_key p.1) ps = true ->
  split "," (render_thresholds ps)
    = (fun p : string * Z => p.1 +:+ "=" +:+ str p.2) <$> ps.
Proof.
  intros Hne Hplain. unfold render_thresholds. apply split_join.
  - by destruct ps.
  - clear Hne. induction ps as [|[k v] rest IH]; [done|].
    cbn [forallb fmap list_fmap] in *.
    apply andb_true_iff in Hplain as [Hk Hrest].
    rewrite (IH Hrest), andb_true_r. cbn [fst snd].
    unfold plain_key in Hk.
    apply andb_true_iff in Hk as [[Hc _]%andb_true_iff _].
    cbn [fst] in Hc. rewrite !free_of_app, Hc. cbn [free_of andb].
    change (Ascii.eqb "=" ",") with false. cbn [negb andb].
    by apply free_of_str.
Qed.

Lemma render_truthy (ps : list (string * Z)) :
  ps <> [] -> truthy (render_thresholds ps) = true.
Proof.
  destruct ps as [|[k v] rest]; [done|]. intros _. unfold render_thresholds.
  cbn [fmap list_fmap fst snd].
  destruct rest as [|q rest]; cbn [join fmap list_fmap]; by destruct k.
Qed.

(** C8. Without a thresholds string, or with an empty one, the policy is
    cpu=80, memory=80, disk=80. With a string of key=value items, every key
    it names maps to the integer given for it (to the last one given, when a
    key is named more than once) and every other key keeps its default; a
    string with an item that is not key=integer raises instead, and so does
    one with a value of more than 4300 digits. In particular the string
    written from a list of pairs with distinct keys and values of at most
    4300 digits, as in [cpu=90,memory=85], gives the policy that maps each of
    these keys to its value and leaves the rest at the default; with a
    longer value the parse raises [ValueError] whatever the other items
    are. *)
Theorem parse_thresholds_policy :
  parse_thresholds None = Ok DEFAULT_THRESHOLDS /\
  parse_thresholds (Some "") = Ok DEFAULT_THRESHOLDS /\
  DEFAULT_THRESHOLDS !! "cpu" = Some 80 /\
  DEFAULT_THRESHOLDS !! "memory" = Some 80 /\
  DEFAULT_THRESHOLDS !! "disk" = Some 80 /\
  (forall s, ascii_text s = true -> truthy s = true ->
    match named_pairs (split "," s) with
    | Raise e => parse_thresholds (Some s) = Raise e
    | Ok ps =>
        exists policy, parse_thresholds (Some s) = Ok policy /\
          (forall key v, last_binding key ps = Some v -> policy !! key = Some v) /\
          (forall key, key ∉ ps.*1 ->
             policy !! key = DEFAULT_THRESHOLDS !! key) /\
          (NoDup ps.*1 ->
             forall key v, (key, v) ∈ ps -> policy !! key = Some v)
    end) /\
  (forall ps : list (string * Z),
     ps <> [] ->
     forallb (fun p : string * Z => plain_key p.1 && ascii_text p.1) ps = true ->
     NoDup ps.*1 ->
     (forallb (fun p : string * Z => short_int p.2) ps = true ->
      exists policy,
        parse_thresholds (Some (render_thresholds ps)) = Ok policy /\
        (forall key v, (key, v) ∈ ps -> policy !! key = Some v) /\
        (forall key, key ∉ ps.*1 ->
           policy !! key = DEFAULT_THRESHOLDS !! key)) /\
     (forallb (fun p : string * Z => short_int p.2) ps = false ->
      exists e,
        parse_thresholds (Some (render_thresholds ps)) = Raise e /\
        exn_class e = ValueError)).
Proof.
  do 2 (split; [reflexivity|]).
  do 3 (split; [vm_compute; reflexivity|]).
  split.
  - intros s _ Hs. unfold parse_thresholds. rewrite Hs, parse_pairs_spec.
    destruct (named_pairs (split "," s)) as [ps|e]; [|done]. simpl.
    eexists. split; [reflexivity|].
    split; [|split].
    + intros key v H. by rewrite foldl_insert_lookup, H.
    + intros key H%last_binding_none. by rewrite foldl_insert_lookup, H.
    + intros Hnd key v Hin.
      by rewrite foldl_insert_lookup, (last_binding_nodup _ _ _ Hnd Hin).
  - intros ps Hne Hplain%plain_keys Hnd. unfold parse_thresholds.
    rewrite (render_truthy ps Hne), parse_pairs_spec,
      (split_render ps Hne Hplain).
    split; intros Hv.
    + rewrite (named_pairs_render ps Hplain Hv).
      simpl. eexists. split; [reflexivity|]. split.
      * intros key v Hin.
        by rewrite foldl_insert_lookup, (last_binding_nodup _ _ _ Hnd Hin).
      * intros key H%last_binding_none. by rewrite foldl_insert_lookup, H.
    + destruct (named_pairs_render_long ps Hplain Hv) as (e & -> & He).
      by exists e.
Qed.

Lemma parse_thresholds_policy_witness :
  named_pairs (split "," "cpu=90, memory=85")
    = Ok [("cpu", 90); ("memory", 85)] /\
  exists policy,
    parse_thresholds (Some "cpu=90, memory=85") = Ok policy /\
    policy !! "cpu" = Some 90 /\ policy !! "memory" = Some 85 /\
    policy !! "disk" = Some 80.
Proof.
  assert (named_pairs (split "," "cpu=90, memory=85")
          = Ok [("cpu", 90); ("memory", 85)]) as Hps
    by (vm_compute; reflexivity).
  split; [exact Hps|].
  destruct parse_thresholds_policy as (_ & _ & _ & _ & Hdisk & H & _).
  specialize (H "cpu=90, memory=85" eq_refl eq_refl). rewrite Hps in H.
  destruct H as (policy & Hp & Hlast & Hdef & _).
  exists policy. split; [exact Hp|].
  split; [apply Hlast; reflexivity|].
  split; [apply Hlast; reflexivity|].
  rewrite Hdef; [exact Hdisk|].
  cbn. rewrite !not_elem_of_cons. repeat split; try done.
  apply not_elem_of_nil.
Defined.

(** An integer value is not always accepted: the digit string of 4301 nines
    is an integer, and the parse of [cpu=99...9] raises ValueError instead
    of giving a policy that maps cpu to it. *)
Lemma long_threshold_raises :
  isdigit (str_mul "9" 4301) = true /\
  exists e,
    parse_thresholds (Some ("cpu=" +:+ str_mul "9" 4301)) = Raise e /\
    exn_class e = ValueError.
Proof.
  split; [vm_compute; reflexivity|].
  eexists. split; [vm_compute; reflexivity|reflexivity].
Qed.

(** A key given twice keeps the last value, and an item without '=' makes
    the parse raise. *)
Example parse_thresholds_edge_cases :
  (policy ← parse_thresholds (Some "cpu=50,cpu=60"); Ok (policy !! "cpu"))
    = Ok (Some 60) /\
  parse_thresholds (Some "cpu=50,")
    = Raise (Exn ValueError "not enough values to unpack (expected 2, got 1)").
Proof. split; vm_compute; reflexivity. Qed.

(** * Further properties *)

(** ** The verdict of the endpoint probe *)

(** A verdict is either the classification of a natural number or one of the
    three failure verdicts. *)
Lemma verdict_shape spawn now u timeout :
  let r := check_application_health spawn now u timeout in
  (exists c, 0 <= c /\
     r = {| url := u; status := (classify c).1; status_code := CodeInt c;
            message := (classify c).2; AppHealthChecker.timestamp := now |}) \/
  (exists s msg, (s = "N/A" \/ s = "TIMEOUT" \/ s = "ERROR") /\
     r = {| url := u; status := "DOWN"; status_code := CodeStr s;
            message := msg; AppHealthChecker.timestamp := now |}).
Proof.
  unfold check_application_health.
  destruct (subprocess_run _ _) as [out|e]; simpl.
  - unfold interpret. destruct (isdigit (strip out)) eqn:Hd.
    + destruct (isdigit_int _ Hd) as (c & Hc & Hpos).
      assert (truthy (strip out) = true) as ->.
      { unfold isdigit in Hd. by apply andb_true_iff in Hd as [? _]. }
      simpl. unfold int. rewrite Hc.
      destruct (digit_count (strip out) <=? max_str_digits).
      * simpl. left. exists c. split; [done|]. by destruct (classify c).
      * right. eexists _, _. split; [|reflexivity]. auto.
    + rewrite orb_true_r. right. eexists _, _. split; [|reflexivity]. auto.
  - right. unfold on_exception.
    destruct (exn_class e); eexists _, _; (split; [|reflexivity]); auto.
Qed.

Lemma classify_status (c : Z) :
  ((classify c).1 = "UP" <-> 200 <= c < 400) /\
  ((classify c).1 = "DOWN" <-> 400 <= c < 600) /\
  ((classify c).1 = "UNKNOWN" <-> c < 200 \/ 600 <= c).
Proof.
  destruct (classify_ranges c) as (H2 & H3 & H4 & H5 & Hx).
  destruct (Z_lt_le_dec c 200) as [?|?];
    [rewrite Hx by lia; simpl; repeat split; intros; try done; lia|].
  destruct (Z_lt_le_dec c 300) as [?|?];
    [rewrite H2 by lia; simpl; repeat split; intros; try done; lia|].
  destruct (Z_lt_le_dec c 400) as [?|?];
    [rewrite H3 by lia; simpl; repeat split; intros; try done; lia|].
  destruct (Z_lt_le_dec c 500) as [?|?];
    [rewrite H4 by lia; simpl; repeat split; intros; try done; lia|].
  destruct (Z_lt_le_dec c 600) as [?|?];
    [rewrite H5 by lia; simpl; repeat split; intros; try done; lia|].
  rewrite Hx by lia; simpl; repeat split; intros; try done; lia.
Qed.

(** X1. Whatever the probe meets, its verdict names the URL it was given and
    has status UP, DOWN or UNKNOWN; it is UP exactly when the probe read a
    status code in [200, 400), and UNKNOWN exactly when it read a code below
    200 or from 600 on. *)
Theorem verdict_status_by_code
    (spawn : list string -> child) (now u : string) (timeout : Z) :
  let r := check_application_health spawn now u timeout in
  url r = u /\ AppHealthChecker.timestamp r = now /\
  (status r = "UP" \/ status r = "DOWN" \/ status r = "UNKNOWN") /\
  (status r = "UP" <-> exists c, status_code r = CodeInt c /\ 200 <= c < 400) /\
  (status r = "UNKNOWN" <->
     exists c, status_code r = CodeInt c /\ (0 <= c < 200 \/ 600 <= c)).
Proof.
  intros r. destruct (verdict_shape spawn now u timeout)
    as [(c & Hc & Hr)|(s & msg & Hs & Hr)]; fold r in Hr; rewrite Hr; simpl.
  - destruct (classify_status c) as (Hup & Hdown & Hunk).
    split; [done|]. split; [done|]. split; [|split].
    + destruct (Z_lt_le_dec c 200); [right; right; apply Hunk; lia|].
      destruct (Z_lt_le_dec c 400); [left; apply Hup; lia|].
      destruct (Z_lt_le_dec c 600); [right; left; apply Hdown; lia|].
      right; right; apply Hunk; lia.
    + rewrite Hup. split; [eauto|]. by intros (c' & [= <-] & ?).
    + rewrite Hunk. split.
      * intros H. exists c. split; [done|lia].
      * intros (c' & [= <-] & ?). lia.
  - split; [done|]. split; [done|]. split; [auto|].
    split; (split; [done|]); by intros (c & ? & _).
Qed.

(** X2. A verdict carries a sentinel string as its code only when the probe
    failed: the status is then DOWN and the sentinel is N/A, TIMEOUT or
    ERROR. A numeric code is never negative, and status and message are then
    the classification of that code. *)
Theorem verdict_code_shape
    (spawn : list string -> child) (now u : string) (timeout : Z) :
  let r := check_application_health spawn now u timeout in
  (forall s, status_code r = CodeStr s ->
     status r = "DOWN" /\ (s = "N/A" \/ s = "TIMEOUT" \/ s = "ERROR")) /\
  (forall c, status_code r = CodeInt c ->
     0 <= c /\ (status r, message r) = classify c).
Proof.
  intros r. destruct (verdict_shape spawn now u timeout)
    as [(c & Hc & Hr)|(s & msg & Hs & Hr)]; fold r in Hr; rewrite Hr; simpl.
  - split; [done|]. intros c' [= <-]. split; [done|]. by destruct (classify c).
  - split; [|done]. by intros s' [= <-].
Qed.

(** ** One-shot and continuous runs *)

Lemma check_url spawn now u timeout :
  url (check_application_health spawn now u timeout) = u.
Proof.
  destruct (verdict_shape spawn now u timeout)
    as [(c & _ & ->)|(s & msg & _ & ->)]; reflexivity.
Qed.

Lemma probe_results_urls w n urls timeout :
  url <$> probe_results w n urls timeout = urls.
Proof.
  revert n. induction urls as [|u rest IH]; intros n; [done|].
  cbn [probe_results fmap list_fmap]. rewrite check_url. f_equal. apply IH.
Qed.

Lemma probe_events_probes w n urls timeout :
  List.filter is_probe (probe_events w n urls timeout)
    = (fun u => Run (curl_cmd u timeout) (timeout + 2)) <$> urls.
Proof.
  revert n. induction urls as [|u rest IH]; intros n; [done|].
  cbn [probe_events List.filter is_probe fmap list_fmap]. f_equal. apply IH.
Qed.

(** X3. A one-shot check of a list of URLs never exits early: it returns one
    verdict per URL, in the order of the list, having started exactly one
    curl per URL, in that order, each with [--max-time timeout] and a limit
    of [timeout + 2] seconds; it prints the header, the verdicts in the same
    order, and the summary between two rules. *)
Theorem one_shot_probes_each_url_once
    (w : world) (urls : list string) (timeout : Z) (s : state) :
  exists results s',
    check_multiple_urls w urls timeout s = (Go results, s') /\
    url <$> results = urls /\
    List.filter is_probe (trace s')
      = List.filter is_probe (trace s)
          ++ ((fun u => Run (curl_cmd u timeout) (timeout + 2)) <$> urls) /\
    printed (trace s')
      = printed (trace s)
          ++ [str_mul "=" 70; "APPLICATION HEALTH CHECK REPORT"; str_mul "=" 70]
          ++ (format_result <$> results)
          ++ [str_mul "=" 70; summary_line results; str_mul "=" 70] /\
    probes s' = (probes s + length urls)%nat.
Proof.
  eexists _, _. split; [apply check_multiple_urls_spec|].
  cbn [trace probes]. split; [apply probe_results_urls|].
  split; [|split; [|done]].
  - rewrite !List.filter_app, probe_events_probes. cbn [List.filter is_probe].
    by rewrite app_nil_r.
  - rewrite !printed_app, printed_probe_events. reflexivity.
Qed.


Lemma sleep_refused (interval : Z) :
  interval < 0 \/ max_sleep < interval ->
  exists e, time_sleep interval = Raise e /\ exn_class e = refusal interval.
Proof.
  intros H. unfold time_sleep, refusal.
  destruct ((interval <? - max_sleep) || (max_sleep <? interval)) eqn:E.
  - eexists. split; reflexivity.
  - apply orb_false_iff in E as [_ E%Z.ltb_ge].
    assert ((interval <? 0) = true) as -> by (apply Z.ltb_lt; lia).
    eexists. split; reflexivity.
Qed.


Lemma monitor_loop_refused w k u interval timeout e :
  time_sleep interval = Raise e ->
  forall s,
  monitor_loop w (S k) u interval timeout s =
    (Throw e,
     {| trace :=
          trace s
            ++ [Run (curl_cmd u timeout) (timeout + 2);
                Print (format_result
                         (check_application_health
                            (spawn w (probes s)) (clock w (probes s))
                            u timeout))];
        probes := S (probes s) |}).
Proof.
  intros He s. cbn [monitor_loop]. unfold sleep. rewrite He.
  unfold mbind, io_bind, probe, print, emit. cbn [trace probes].
  by rewrite <- app_assoc.
Qed.


Lemma continuous_monitor_refused w u interval timeout e s :
  time_sleep interval = Raise e -> ticks w <> 0%nat ->
  AppHealthChecker.continuous_monitor w u interval timeout s =
    (Throw e,
     {| trace :=
          trace s ++ monitor_header u interval
            ++ [Run (curl_cmd u timeout) (timeout + 2);
                Print (format_result
                         (check_application_health
                            (spawn w (probes s)) (clock w (probes s))
                            u timeout))];
        probes := S (probes s) |}).
Proof.
  intros He Hticks. destruct (ticks w) as [|k] eqn:Hk; [done|].
  unfold AppHealthChecker.continuous_monitor, mbind, io_bind, print, emit.
  cbn [trace probes]. rewrite Hk, (monitor_loop_refused _ _ _ _ _ _ He).
  cbn [trace probes]. unfold monitor_header. by rewrite <- !app_assoc.
Qed.







(** ** The command line of the endpoint checker *)


Lemma main_after_resolve (w : world) (a : args) (urls : list string) (s : state) :
  resolve_urls w a {| trace := []; probes := 0 |} = (Go urls, s) ->
  AppHealthChecker.main w a {| trace := []; probes := 0 |} =
    match urls with
    | [] => (_ ← print "Error: No URLs provided"; sys_exit 1) s
    | u0 :: _ =>
        if arg_continuous a then
          if 1 <? Z.of_nat (length urls) then
            (_ ← print "Error: Continuous mode requires exactly one URL";
             sys_exit 1) s
          else AppHealthChecker.continuous_monitor w u0 (arg_interval a) (arg_timeout a) s
        else
          (_ ← check_multiple_urls w urls (arg_timeout a); mret tt) s
    end.
Proof.
  intros H. unfold AppHealthChecker.main. unfold mbind at 1. unfold io_bind at 1.
  rewrite H. destruct urls as [|u0 rest]; [done|].
  destruct (arg_continuous a); [destruct (1 <? _)|]; done.
Qed.

Lemma resolve_urls_fresh (w : world) (a : args) (urls : list string) (s : state) :
  resolve_urls w a {| trace := []; probes := 0 |} = (Go urls, s) ->
  List.filter is_probe (trace s) = [] /\ probes s = 0%nat.
Proof.
  intros H. pose proof (resolve_urls_no_probe w a {| trace := []; probes := 0 |}) as Hnp.
  by rewrite H in Hnp.
Qed.

(** X5. When the file given with [--file] cannot be read, the script prints
    one line and exits with status 1 without starting a probe, whatever URLs
    and mode were given besides: "Error: File '<name>' not found." for a
    missing file, "Error reading file: <error>" for any other error. *)
Theorem unreadable_file_exits
    (w : world) (a : args) (f : string) (e : exn) :
  arg_file a = Some f -> truthy f = true ->
  open_file w f = Raise e ->
  run_main w a =
    (1, [Print (match exn_class e with
                | FileNotFoundError => "Error: File '" +:+ f +:+ "' not found."
                | _ => "Error reading file: " +:+ exn_text e
                end)]).
Proof.
  intros Hf Ht Ho. unfold run_main, AppHealthChecker.main, resolve_urls, read_urls_from_file.
  rewrite Hf, Ht, Ho. by destruct (exn_class e).
Qed.

Lemma unreadable_file_exits_witness :
  run_main Samples.two_sites
    {| arg_urls := ["https://good.example"]; arg_file := Some "missing.txt";
       arg_continuous := false; arg_interval := 60; arg_timeout := 5 |}
  = (1, [Print "Error: File 'missing.txt' not found."]).
Proof.
  exact (unreadable_file_exits Samples.two_sites
           {| arg_urls := ["https://good.example"];
              arg_file := Some "missing.txt"; arg_continuous := false;
              arg_interval := 60; arg_timeout := 5 |}
           "missing.txt" (Exn FileNotFoundError "No such file or directory")
           eq_refl eq_refl eq_refl).
Defined.

(** X6. Without targets nothing is probed and the exit status is 1: with
    neither [--file] nor URLs the script prints its help; when the targets
    come out empty (a readable file with only blank lines and comments) it
    prints "Error: No URLs provided". *)
Theorem no_targets_exits (w : world) (a : args) :
  ((arg_file a = None \/ arg_file a = Some "") -> arg_urls a = [] ->
     run_main w a = (1, [PrintHelp])) /\
  (forall s, resolve_urls w a {| trace := []; probes := 0 |} = (Go [], s) ->
     run_main w a = (1, trace s ++ [Print "Error: No URLs provided"]) /\
     List.filter is_probe (run_main w a).2 = []).
Proof.
  split.
  - intros Hf Hu. unfold run_main, AppHealthChecker.main, resolve_urls.
    destruct Hf as [-> | ->]; by rewrite Hu.
  - intros s H. destruct (resolve_urls_fresh _ _ _ _ H) as [Hnp _].
    assert (run_main w a = (1, trace s ++ [Print "Error: No URLs provided"]))
      as Hrun.
    { unfold run_main. by rewrite (main_after_resolve _ _ _ _ H). }
    split; [done|]. rewrite Hrun. cbn [snd].
    by rewrite List.filter_app, Hnp.
Qed.

Lemma no_targets_exits_witness :
  run_main no_target_file
    {| arg_urls := []; arg_file := None; arg_continuous := false;
       arg_interval := 60; arg_timeout := 5 |} = (1, [PrintHelp]) /\
  run_main no_target_file
    {| arg_urls := ["https://good.example"]; arg_file := Some "notes.txt";
       arg_continuous := false; arg_interval := 60; arg_timeout := 5 |}
  = (1, [Print "Error: No URLs provided"]).
Proof.
  split.
  - exact (proj1 (no_targets_exits no_target_file
             {| arg_urls := []; arg_file := None; arg_continuous := false;
                arg_interval := 60; arg_timeout := 5 |})
             (or_introl eq_refl) eq_refl).
  - exact (proj1 (proj2 (no_targets_exits no_target_file
             {| arg_urls := ["https://good.example"];
                arg_file := Some "notes.txt"; arg_continuous := false;
                arg_interval := 60; arg_timeout := 5 |}) {| trace := []; probes := 0 |} eq_refl)).
Defined.

(** X7. In one-shot mode with at least one target the script exits with
    status 0, whatever the verdicts are, after probing each target once in
    order. *)
Theorem one_shot_run_succeeds
    (w : world) (a : args) (urls : list string) (s : state) :
  arg_continuous a = false ->
  resolve_urls w a {| trace := []; probes := 0 |} = (Go urls, s) ->
  urls <> [] ->
  (run_main w a).1 = 0 /\
  List.filter is_probe (run_main w a).2
    = (fun u => Run (curl_cmd u (arg_timeout a)) (arg_timeout a + 2)) <$> urls /\
  printed (run_main w a).2
    = printed (trace s)
        ++ [str_mul "=" 70; "APPLICATION HEALTH CHECK REPORT"; str_mul "=" 70]
        ++ (format_result <$> probe_results w 0 urls (arg_timeout a))
        ++ [str_mul "=" 70;
            summary_line (probe_results w 0 urls (arg_timeout a));
            str_mul "=" 70].
Proof.
  intros Hc H Hne. destruct (resolve_urls_fresh _ _ _ _ H) as [Hnp Hp].
  unfold run_main. rewrite (main_after_resolve _ _ _ _ H), Hc.
  destruct urls as [|u0 rest]; [done|].
  unfold mbind, io_bind. rewrite check_multiple_urls_spec. rewrite Hp.
  cbn [fst snd trace mret io_ret].
  split; [done|]. split.
  - rewrite !List.filter_app, Hnp, probe_events_probes.
    cbn [List.filter is_probe app]. by rewrite app_nil_r.
  - rewrite !printed_app, printed_probe_events. reflexivity.
Qed.

Lemma one_shot_run_succeeds_witness :
  let a := {| arg_urls := []; arg_file := Some "urls.txt";
              arg_continuous := false; arg_interval := 60; arg_timeout := 5 |} in
  (run_main Samples.two_sites a).1 = 0 /\
  List.filter is_probe (run_main Samples.two_sites a).2
    = [Run (curl_cmd "https://good.example" 5) 7;
       Run (curl_cmd "# disabled" 5) 7;
       Run (curl_cmd "https://bad.example" 5) 7].
Proof.
  intros a.
  destruct (one_shot_run_succeeds Samples.two_sites a
              ["https://good.example"; "# disabled"; "https://bad.example"]
              {| trace := []; probes := 0 |} eq_refl eq_refl ltac:(discriminate)) as (H0 & Hp & _).
  split; [exact H0|exact Hp].
Defined.

(** X8. A file given with [--file] takes precedence: the URLs given on the
    command line besides it are ignored. *)
Theorem file_overrides_urls (w : world) (a a' : args) (f : string) :
  arg_file a = Some f -> truthy f = true ->
  arg_file a' = arg_file a ->
  arg_continuous a' = arg_continuous a ->
  arg_interval a' = arg_interval a ->
  arg_timeout a' = arg_timeout a ->
  run_main w a' = run_main w a.
Proof.
  intros Hf Ht Hf' Hc Hi Hto. unfold run_main, AppHealthChecker.main, resolve_urls.
  by rewrite Hf', Hf, Ht, Hc, Hi, Hto.
Qed.

Lemma file_overrides_urls_witness :
  run_main Samples.two_sites
    {| arg_urls := ["https://slow.example"]; arg_file := Some "urls.txt";
       arg_continuous := false; arg_interval := 60; arg_timeout := 5 |}
  = run_main Samples.two_sites
      {| arg_urls := []; arg_file := Some "urls.txt";
         arg_continuous := false; arg_interval := 60; arg_timeout := 5 |}.
Proof.
  exact (file_overrides_urls Samples.two_sites
           {| arg_urls := []; arg_file := Some "urls.txt";
              arg_continuous := false; arg_interval := 60; arg_timeout := 5 |}
           {| arg_urls := ["https://slow.example"]; arg_file := Some "urls.txt";
              arg_continuous := false; arg_interval := 60; arg_timeout := 5 |}
           "urls.txt" eq_refl eq_refl eq_refl eq_refl eq_refl eq_refl).
Defined.



(** X23. In continuous mode an interval [time.sleep] refuses ends the run
    at the first sleep: below zero it raises [ValueError], beyond the range
    of the clock [OverflowError], and nothing catches either. The script
    then exits with status 1 after its opening lines, one probe and its
    verdict, without "Monitoring stopped by user."; only when Ctrl+C
    arrives before the first sleep does it still end with status 0. *)
Theorem refused_interval_ends_run
    (w : world) (a : args) (u : string) (s : state) :
  arg_continuous a = true ->
  resolve_urls w a {| trace := []; probes := 0 |} = (Go [u], s) ->
  arg_interval a < 0 \/ max_sleep < arg_interval a ->
  (ticks w <> 0%nat ->
   (exists e s',
      AppHealthChecker.main w a {| trace := []; probes := 0 |} = (Throw e, s') /\
      exn_class e = refusal (arg_interval a)) /\
   run_main w a =
     (1,
      trace s ++ monitor_header u (arg_interval a)
        ++ [Run (curl_cmd u (arg_timeout a)) (arg_timeout a + 2);
            Print (format_result
                     (check_application_health (spawn w 0) (clock w 0)
                        u (arg_timeout a)))])) /\
  (ticks w = 0%nat ->
   run_main w a =
     (0,
      trace s ++ monitor_header u (arg_interval a)
        ++ cut_events w u (arg_timeout a) ++ [monitor_stopped])).
Proof.
  intros Hc H Hi. destruct (resolve_urls_fresh _ _ _ _ H) as [_ Hp].
  unfold run_main. rewrite (main_after_resolve _ _ _ _ H), Hc.
  change (1 <? Z.of_nat (length [u])) with false. cbv iota.
  split.
  - intros Hticks. destruct (sleep_refused _ Hi) as (e & He & Hclass).
    rewrite (continuous_monitor_refused _ _ _ _ _ _ He Hticks), Hp.
    split; [|done]. by eexists _, _.
  - intros Hticks.
    unfold AppHealthChecker.continuous_monitor, mbind, io_bind, print, emit.
    cbn [trace probes]. rewrite Hticks. cbn [monitor_loop].
    unfold cut_events, cut_probe, monitor_header, monitor_stopped.
    destruct (in_probe w); unfold mret, io_ret; cbn [trace fst snd];
      by rewrite <- !app_assoc.
Qed.

Lemma refused_interval_ends_run_witness :
  let a := {| arg_urls := ["https://good.example"]; arg_file := None;
              arg_continuous := true; arg_interval := -1; arg_timeout := 5 |} in
  (run_main Samples.two_sites a).1 = 1 /\
  List.filter is_probe (run_main Samples.two_sites a).2
    = [Run (curl_cmd "https://good.example" 5) 7] /\
  List.filter is_sleep (run_main Samples.two_sites a).2 = [].
Proof.
  intros a.
  assert (arg_interval a < 0 \/ max_sleep < arg_interval a) as Hi
    by (left; by vm_compute).
  destruct (refused_interval_ends_run Samples.two_sites a
              "https://good.example" {| trace := []; probes := 0 |}
              eq_refl eq_refl Hi) as [H _].
  destruct H as [_ H]; [by vm_compute|].
  rewrite H. split; [reflexivity|]. split; reflexivity.
Defined.

(** ** The policy and the health check *)

Lemma check_system_health_ok rt h (thresholds : gmap string Z) tc tm td :
  thresholds !! "cpu" = Some tc ->
  thresholds !! "memory" = Some tm ->
  thresholds !! "disk" = Some td ->
  exists d, check_system_health rt h thresholds = Ok d.
Proof.
  intros Hc Hm Hd.
  destruct (get_cpu_usage_total rt h) as [c Ec].
  destruct (get_memory_usage_total rt h) as [m Em].
  destruct (get_disk_usage_total rt h) as [k Ek].
  destruct (get_top_processes_total h 5) as [ps Eps].
  unfold check_system_health. rewrite Ec, Em, Ek, Eps. simpl.
  rewrite (check_metric_spec _ _ _ _ _ _ _ Hc). simpl.
  rewrite (check_metric_spec _ _ _ _ _ _ _ Hm). simpl.
  rewrite (check_metric_spec _ _ _ _ _ _ _ Hd). simpl. eauto.
Qed.

Lemma parse_pairs_keeps_keys (items : list string) (th policy : gmap string Z) :
  parse_pairs items th = Ok policy ->
  forall key, is_Some (th !! key) -> is_Some (policy !! key).
Proof.
  rewrite parse_pairs_spec.
  destruct (named_pairs items) as [ps|e]; [|done]. simpl.
  intros [= <-] key Hk. rewrite foldl_insert_lookup.
  by destruct (last_binding key ps).
Qed.

Lemma parse_thresholds_keys (ts : option string) (policy : gmap string Z) :
  parse_thresholds ts = Ok policy ->
  forall key, is_Some (DEFAULT_THRESHOLDS !! key) -> is_Some (policy !! key).
Proof.
  unfold parse_thresholds.
  destruct ts as [s|]; [destruct (truthy s)|];
    try (by intros [= <-]).
  apply parse_pairs_keeps_keys.
Qed.

(** X10. Whatever thresholds string was parsed, the policy that comes out
    still has a limit for cpu, for memory and for disk, so a health check
    under a parsed policy never fails on a missing limit: it always returns
    its data. *)
Theorem parsed_policy_is_complete
    (ts : option string) (policy : gmap string Z) :
  parse_thresholds ts = Ok policy ->
  is_Some (policy !! "cpu") /\ is_Some (policy !! "memory") /\
  is_Some (policy !! "disk") /\
  forall rt h, exists d, check_system_health rt h policy = Ok d.
Proof.
  intros H.
  destruct (parse_thresholds_keys ts policy H "cpu") as [tc Hc];
    [exists 80; vm_compute; reflexivity|].
  destruct (parse_thresholds_keys ts policy H "memory") as [tm Hm];
    [exists 80; vm_compute; reflexivity|].
  destruct (parse_thresholds_keys ts policy H "disk") as [td Hd];
    [exists 80; vm_compute; reflexivity|].
  repeat split; eauto.
  intros rt h. by apply (check_system_health_ok rt h policy tc tm td).
Qed.

Lemma parsed_policy_is_complete_witness :
  exists policy,
    parse_thresholds (Some "swap=10") = Ok policy /\
    is_Some (policy !! "cpu") /\
    exists d, check_system_health Reference.runtime Reference.linux_host policy
              = Ok d.
Proof.
  destruct (parse_thresholds (Some "swap=10")) as [policy|e] eqn:E;
    [|by vm_compute in E].
  exists policy. split; [done|].
  destruct (parsed_policy_is_complete (Some "swap=10") policy E)
    as (Hc & _ & _ & Hrun).
  split; [exact Hc|apply Hrun].
Defined.

(** X11. A health check needs the three limits and nothing else of the
    policy: with all three it returns its data, and without one it raises
    KeyError for the first of cpu, memory, disk that is missing, even when
    the measurement is low. *)
Theorem health_check_needs_limits
    (rt : builtins) (h : host) (thresholds : gmap string Z) :
  ((exists d, check_system_health rt h thresholds = Ok d) <->
   is_Some (thresholds !! "cpu") /\ is_Some (thresholds !! "memory") /\
   is_Some (thresholds !! "disk")) /\
  (thresholds !! "cpu" = None ->
   check_system_health rt h thresholds = Raise (Exn KeyError "'cpu'")) /\
  (is_Some (thresholds !! "cpu") -> thresholds !! "memory" = None ->
   check_system_health rt h thresholds = Raise (Exn KeyError "'memory'")) /\
  (is_Some (thresholds !! "cpu") -> is_Some (thresholds !! "memory") ->
   thresholds !! "disk" = None ->
   check_system_health rt h thresholds = Raise (Exn KeyError "'disk'")).
Proof.
  destruct (get_cpu_usage_total rt h) as [c Ec].
  destruct (get_memory_usage_total rt h) as [m Em].
  destruct (get_disk_usage_total rt h) as [k Ek].
  destruct (get_top_processes_total h 5) as [ps Eps].
  assert (thresholds !! "cpu" = None ->
          check_system_health rt h thresholds = Raise (Exn KeyError "'cpu'"))
    as H1.
  { intros Hc. unfold check_system_health. rewrite Ec, Em, Ek, Eps. simpl.
    unfold check_metric, getitem. by rewrite Hc. }
  assert (is_Some (thresholds !! "cpu") -> thresholds !! "memory" = None ->
          check_system_health rt h thresholds = Raise (Exn KeyError "'memory'"))
    as H2.
  { intros [tc Hc] Hm. unfold check_system_health.
    rewrite Ec, Em, Ek, Eps. simpl.
    rewrite (check_metric_spec _ _ _ _ _ _ _ Hc). simpl.
    unfold check_metric, getitem. by rewrite Hm. }
  assert (is_Some (thresholds !! "cpu") -> is_Some (thresholds !! "memory") ->
          thresholds !! "disk" = None ->
          check_system_health rt h thresholds = Raise (Exn KeyError "'disk'"))
    as H3.
  { intros [tc Hc] [tm Hm] Hd. unfold check_system_health.
    rewrite Ec, Em, Ek, Eps. simpl.
    rewrite (check_metric_spec _ _ _ _ _ _ _ Hc). simpl.
    rewrite (check_metric_spec _ _ _ _ _ _ _ Hm). simpl.
    unfold check_metric, getitem. by rewrite Hd. }
  split; [|done]. split.
  - intros [d Hd].
    destruct (thresholds !! "cpu") as [tc|] eqn:Hc;
      [|by rewrite H1 in Hd].
    destruct (thresholds !! "memory") as [tm|] eqn:Hm;
      [|by rewrite H2 in Hd].
    destruct (thresholds !! "disk") as [td|] eqn:Hk;
      [|by rewrite H3 in Hd].
    eauto.
  - intros ([tc Hc] & [tm Hm] & [td Hd]).
    by apply (check_system_health_ok rt h thresholds tc tm td).
Qed.

Lemma health_check_needs_limits_witness :
  check_system_health Reference.runtime Reference.idle_host
    (<["cpu" := 80]> (<["disk" := 80]> ∅))
  = Raise (Exn KeyError "'memory'").
Proof.
  destruct (health_check_needs_limits Reference.runtime Reference.idle_host
              (<["cpu" := 80]> (<["disk" := 80]> ∅))) as (_ & _ & H & _).
  apply H; [exists 80|]; vm_compute; reflexivity.
Defined.

Lemma parse_pairs_raises (items : list string) (th : gmap string Z) (e : exn) :
  parse_pairs items th = Raise e -> exn_class e = ValueError.
Proof.
  revert th. induction items as [|item rest IH]; intros th; [done|].
  cbn [parse_pairs]. unfold unpack_pair.
  destruct (split "=" item) as [|k [|v [|x more]]];
    try (by intros [= <-]).
  unfold mbind, res_bind, bind. cbn [fst snd]. unfold int.
  destruct (int_opt (strip v)); [|by intros [= <-]].
  destruct (digit_count (strip v) <=? max_str_digits);
    [apply IH|by intros [= <-]].
Qed.

Lemma parse_pairs_raises_iff (items : list string) (th : gmap string Z) :
  (exists e, parse_pairs items th = Raise e) <->
  exists item, item ∈ items /\ malformed item.
Proof.
  revert th. induction items as [|item rest IH]; intros th.
  - split; [by intros [e ?]|]. intros (item & Hin & _).
    by apply elem_of_nil in Hin.
  - assert (malformed item ->
            exists it, it ∈ item :: rest /\ malformed it) as Hhere.
    { intros H. exists item. split; [apply list_elem_of_here|done]. }
    cbn [parse_pairs]. unfold unpack_pair.
    destruct (split "=" item) as [|k [|v [|x more]]] eqn:Hsp;
      try (split; [intros _; apply Hhere; left; rewrite Hsp; simpl; lia
                  |intros _; eexists; reflexivity]).
    unfold mbind, res_bind, bind. cbn [fst snd]. unfold int.
    destruct (int_opt (strip v)) as [z|] eqn:Hv.
    + destruct (digit_count (strip v) <=? max_str_digits) eqn:Hfit.
      * apply Z.leb_le in Hfit. rewrite IH. split.
        -- intros (it & Hin & Hit). exists it.
           split; [by apply list_elem_of_further|done].
        -- intros (it & Hin & Hit).
           apply elem_of_cons in Hin as [->|Hin]; [|by exists it].
           exfalso. destruct Hit as [Hlen|(k' & v' & Heq & Hbad)].
           ++ apply Hlen. by rewrite Hsp.
           ++ rewrite Hsp in Heq. injection Heq as <- <-.
              destruct Hbad as [Hbad|Hbad]; [congruence|lia].
      * apply Z.leb_gt in Hfit. split; [|intros _; eexists; reflexivity].
        intros _. apply Hhere. right. exists k, v. split; [done|by right].
    + split; [|intros _; eexists; reflexivity].
      intros _. apply Hhere. right. exists k, v. split; [done|by left].
Qed.

(** X12. Parsing a thresholds string raises nothing but ValueError, and it
    raises exactly when the string is given, not empty, and has an item that
    is not one key and one value around a single '=', or whose value is not
    an int literal, or is one of more than 4300 digits. *)
Theorem parse_thresholds_raises_value_error (ts : option string) :
  ascii_text (default "" ts) = true ->
  ((exists e, parse_thresholds ts = Raise e) <->
   exists s item,
     ts = Some s /\ truthy s = true /\ item ∈ split "," s /\ malformed item) /\
  (forall e, parse_thresholds ts = Raise e -> exn_class e = ValueError).
Proof.
  intros _. unfold parse_thresholds. split.
  - destruct ts as [s|].
    + destruct (truthy s) eqn:Ht.
      * rewrite parse_pairs_raises_iff. split.
        -- intros (item & Hin & Hbad). by exists s, item.
        -- intros (s' & item & [= <-] & _ & Hin & Hbad). by exists item.
      * split; [by intros [e ?]|].
        intros (s' & item & [= <-] & Ht' & _). congruence.
    + split; [by intros [e ?]|]. by intros (s' & item & ? & _).
  - intros e. destruct ts as [s|]; [|done].
    destruct (truthy s); [|done]. apply parse_pairs_raises.
Qed.

Lemma parse_thresholds_raises_value_error_witness :
  exists e,
    parse_thresholds (Some "cpu=high,disk=90") = Raise e /\
    exn_class e = ValueError.
Proof.
  destruct (parse_thresholds_raises_value_error (Some "cpu=high,disk=90")
              eq_refl) as [[_ H] Hclass].
  destruct H as [e He].
  { exists "cpu=high,disk=90", "cpu=high".
    split; [reflexivity|]. split; [reflexivity|].
    split; [apply list_elem_of_here|].
    right. exists "cpu", "high". split; [reflexivity|]. by left. }
  exists e. split; [exact He|exact (Hclass e He)].
Defined.

(** ** The process table and the memory probe *)

Lemma str_take_length (n : nat) (s : string) :
  (String.length (str_take n s) <= n)%nat.
Proof.
  revert s. induction n as [|n IH]; intros [|a s]; simpl; try lia.
  specialize (IH s). lia.
Qed.

Lemma process_of_line_some (line : string) (p : process) :
  process_of_line line = Some p <->
  (11 <= length (split_ws line))%nat /\
  split_ws line !! 0%nat = Some (user p) /\
  split_ws line !! 1%nat = Some (pid p) /\
  split_ws line !! 2%nat = Some (cpu p) /\
  split_ws line !! 3%nat = Some (mem p) /\
  command p = str_take 50 (join " " (drop 10 (split_ws line))).
Proof.
  unfold process_of_line.
  destruct (11 <=? Z.of_nat (length (split_ws line))) eqn:E.
  - apply Z.leb_le in E.
    destruct (split_ws line) as [|p0 [|p1 [|p2 [|p3 rest]]]] eqn:Hw;
      try (simpl in E; lia).
    split.
    + intros [= <-]. cbn. repeat split; try done. simpl in E; lia.
    + intros (_ & [= H0] & [= H1] & [= H2] & [= H3] & Hc).
      destruct p. simpl in *. by subst.
  - apply Z.leb_gt in E. split; [done|]. intros (H & _). lia.
Qed.

Lemma process_of_line_long (line : string) :
  (11 <= length (split_ws line))%nat -> is_Some (process_of_line line).
Proof.
  intros Hlen.
  destruct (split_ws line) as [|p0 [|p1 [|p2 [|p3 rest]]]] eqn:Hw;
    try (simpl in Hlen; lia).
  exists {| user := p0; pid := p1; cpu := p2; mem := p3;
            command := str_take 50 (join " " (drop 10 (split_ws line))) |}.
  apply process_of_line_some. rewrite Hw. cbn.
  repeat split; try done; by rewrite Hw in Hlen.
Qed.

Lemma process_rows (lines : list string) :
  let rows :=
    List.filter (fun line => (11 <=? length (split_ws line))%nat) lines in
  length (omap process_of_line lines) = length rows /\
  forall i line, rows !! i = Some line ->
    exists p, omap process_of_line lines !! i = Some p /\
              process_of_line line = Some p.
Proof.
  induction lines as [|x l [IHlen IH]]; [by split|].
  cbn [List.filter omap list_omap].
  change (list_omap _ _ process_of_line l) with (omap process_of_line l).
  destruct (11 <=? length (split_ws x))%nat eqn:E.
  - apply Nat.leb_le in E.
    destruct (process_of_line_long x E) as [p Hp]. rewrite Hp.
    split; [cbn [length]; by rewrite IHlen|].
    intros [|i] line; cbn [lookup list_lookup].
    + intros [= <-]. by exists p.
    + apply IH.
  - apply Nat.leb_gt in E.
    destruct (process_of_line x) as [p|] eqn:Hp; [|by split].
    apply process_of_line_some in Hp as [Hlen _]. lia.
Qed.

(** X13. Reading the process table never raises. When the [ps] pipeline
    cannot be run the table is empty. Otherwise its rows are, in order,
    those of the output lines with at least 11 fields, one row for each and
    none for the others: user, pid, cpu and memory are the first four fields
    of the line, and the command is its fields from the 11th on joined by
    single spaces and cut to 50 characters. *)
Theorem top_processes_rows (h : host) (count : Z) :
  let cmd :=
    if String.eqb (system h) "Darwin" then
      "ps aux | sort -rk 3 | head -" +:+ str (count + 1)
        +:+ " | tail -" +:+ str count
    else
      "ps aux --sort=-%cpu | head -" +:+ str (count + 1)
        +:+ " | tail -" +:+ str count in
  exists ps, get_top_processes h count = Ok ps /\
    (forall e, shell h cmd = Raise e -> ps = []) /\
    (forall out, shell h cmd = Ok out ->
       let rows :=
         List.filter (fun line => (11 <=? length (split_ws line))%nat)
           (split nl (strip out)) in
       length ps = length rows /\
       forall i line, rows !! i = Some line ->
         exists p, ps !! i = Some p /\
           split_ws line !! 0%nat = Some (user p) /\
           split_ws line !! 1%nat = Some (pid p) /\
           split_ws line !! 2%nat = Some (cpu p) /\
           split_ws line !! 3%nat = Some (mem p) /\
           command p = str_take 50 (join " " (drop 10 (split_ws line))) /\
           (String.length (command p) <= 50)%nat).
Proof.
  intros cmd. unfold get_top_processes. fold cmd.
  destruct (shell h cmd) as [out|e] eqn:Hsh;
    unfold mbind, res_bind, bind, try_except.
  - eexists. split; [reflexivity|]. split; [done|].
    intros out' [= <-].
    destruct (process_rows (split nl (strip out))) as [Hlen Hrows].
    split; [exact Hlen|]. intros i line Hi.
    destruct (Hrows i line Hi) as (p & Hp & Hline).
    apply process_of_line_some in Hline as (_ & H0 & H1 & H2 & H3 & Hc).
    exists p. repeat split; try assumption.
    rewrite Hc. apply str_take_length.
  - exists []. split; [done|]. split; [done|]. done.
Qed.

(** X14. On a host that is not macOS the memory usage is read from
    /proc/meminfo: with MemTotal [t] and MemAvailable [a] it is
    [round(((t - a) / t) * 100, 2)]. When MemTotal is 0, or one of the two
    fields is missing or not an integer, or the file cannot be read, the
    probe returns 0.0. *)
Theorem memory_usage_linux (rt : builtins) (h : host) :
  String.eqb (system h) "Darwin" = false ->
  (forall e, read_text h "/proc/meminfo" = Raise e ->
     get_memory_usage rt h = Ok (NFloat 0%float)) /\
  (forall text,
     read_text h "/proc/meminfo" = Ok text ->
     let lines := file_lines (universal_newlines text) in
     (forall e, meminfo_field "MemTotal" lines = Raise e ->
        get_memory_usage rt h = Ok (NFloat 0%float)) /\
     (forall t e, meminfo_field "MemTotal" lines = Ok t ->
        meminfo_field "MemAvailable" lines = Raise e ->
        get_memory_usage rt h = Ok (NFloat 0%float)) /\
     (forall t a, meminfo_field "MemTotal" lines = Ok t ->
        meminfo_field "MemAvailable" lines = Ok a ->
        get_memory_usage rt h =
          Ok (NFloat (if t =? 0 then 0%float
                      else round2 rt (truediv rt (t - a) t * 100)%float)))).
Proof.
  intros Hsys. unfold get_memory_usage, memory_body. rewrite Hsys.
  split.
  - intros e He. by rewrite He.
  - intros text Ht. cbv zeta. rewrite Ht.
    unfold mbind, res_bind, bind, try_except.
    split; [|split].
    + intros e He. by rewrite He.
    + intros t e Hm Ha. by rewrite Hm, Ha.
    + intros t a Hm Ha. rewrite Hm, Ha. unfold percent. by destruct (t =? 0).
Qed.

Lemma memory_usage_linux_witness :
  get_memory_usage Reference.runtime Reference.linux_host = Ok (NFloat 60).
Proof.
  destruct (memory_usage_linux Reference.runtime Reference.linux_host eq_refl)
    as [_ H].
  destruct (H _ eq_refl) as (_ & _ & Hv).
  rewrite (Hv 1000 400); [vm_compute; reflexivity| |]; vm_compute; reflexivity.
Defined.

(** ** Colour codes and the log *)

Lemma append_assoc (a b c : string) : (a +:+ b) +:+ c = a +:+ b +:+ c.
Proof.
  induction a as [|x a IH]; [done|].
  change ((String x a +:+ b) +:+ c) with (String x ((a +:+ b) +:+ c)).
  by rewrite IH.
Qed.

Lemma append_nil_r (a : string) : a +:+ "" = a.
Proof.
  induction a as [|x a IH]; [done|].
  change (String x a +:+ "") with (String x (a +:+ "")). by rewrite IH.
Qed.

Lemma append_char (a : ascii) (s : string) : String a "" +:+ s = String a s.
Proof. reflexivity. Qed.

Lemma startswith_app (p r : string) : startswith p (p +:+ r) = true.
Proof.
  induction p as [|a p IH]; [done|].
  change (String a p +:+ r) with (String a (p +:+ r)).
  cbn [startswith]. by rewrite Ascii.eqb_refl.
Qed.

Lemma remove_go_skip (old s1 rest : string) :
  remove_go old (String.length s1) (s1 +:+ rest) = remove_go old 0 rest.
Proof.
  induction s1 as [|a s1 IH]; [done|].
  change (String a s1 +:+ rest) with (String a (s1 +:+ rest)).
  cbn [String.length remove_go]. exact IH.
Qed.

Lemma remove_go_plain (o s : string) (a : ascii) :
  Ascii.eqb a esc = false ->
  remove_go (String esc o) 0 (String a s)
    = String a (remove_go (String esc o) 0 s).
Proof.
  intros Ha. cbn [remove_go startswith].
  rewrite Ascii.eqb_sym, Ha. reflexivity.
Qed.

Lemma remove_go_self (o rest : string) :
  remove_go (String esc o) 0 (String esc o +:+ rest)
    = remove_go (String esc o) 0 rest.
Proof.
  change (String esc o +:+ rest) with (String esc (o +:+ rest)).
  cbn [remove_go].
  change (String esc (o +:+ rest)) with (String esc o +:+ rest).
  rewrite startswith_app. cbn [String.length].
  replace (S (String.length o) - 1)%nat with (String.length o) by lia.
  apply remove_go_skip.
Qed.

(** Removing one colour code from marked text removes the marks of that
    colour and nothing else. *)
Lemma remove_code (c : piece) (ps : list piece) :
  is_plain c = false ->
  forallb plain_piece ps = true ->
  remove (piece_text c) (pieces_text ps)
    = pieces_text (List.filter (fun p => negb (same_code c p)) ps).
Proof.
  intros Hc Hps.
  assert (remove (piece_text c) (pieces_text ps)
          = remove_go (piece_text c) 0 (pieces_text ps)) as ->
    by (by destruct c).
  induction ps as [|p ps IH]; [by destruct c|].
  cbn [forallb] in Hps. apply andb_true_iff in Hps as [Hp Hps].
  specialize (IH Hps). cbn [pieces_text List.filter].
  destruct p as [a| | |].
  - cbn [plain_piece] in Hp. apply negb_true_iff in Hp.
    assert (same_code c (Plain a) = false) as -> by (by destruct c).
    cbn [negb pieces_text piece_text].
    rewrite !append_char.
    destruct c; try done; cbn [piece_text] in *; unfold red, green, reset in *;
      rewrite (remove_go_plain _ _ a Hp); by rewrite IH.
  - destruct c; try done; cbn [same_code negb pieces_text piece_text] in IH |- *;
      rewrite <- IH; first [apply remove_go_self | reflexivity].
  - destruct c; try done; cbn [same_code negb pieces_text piece_text] in IH |- *;
      rewrite <- IH; first [apply remove_go_self | reflexivity].
  - destruct c; try done; cbn [same_code negb pieces_text piece_text] in IH |- *;
      rewrite <- IH; first [apply remove_go_self | reflexivity].
Qed.

Lemma filter_keeps_plain (f : piece -> bool) (ps : list piece) :
  forallb plain_piece ps = true ->
  forallb plain_piece (List.filter f ps) = true.
Proof.
  induction ps as [|p ps IH]; [done|]. cbn [forallb List.filter].
  intros [Hp Hps]%andb_true_iff.
  destruct (f p); cbn [forallb]; rewrite ?Hp; auto.
Qed.

Lemma filter_codes (ps : list piece) :
  List.filter (fun p => negb (same_code Reset p))
    (List.filter (fun p => negb (same_code Green p))
       (List.filter (fun p => negb (same_code Red p)) ps))
  = List.filter is_plain ps.
Proof.
  induction ps as [|p ps IH]; [done|].
  destruct p; simpl in *; by rewrite ?IH.
Qed.

Lemma plain_text_free (ps : list piece) :
  forallb plain_piece ps = true ->
  free_of esc (pieces_text (List.filter is_plain ps)) = true.
Proof.
  induction ps as [|p ps IH]; [done|]. cbn [forallb List.filter].
  intros [Hp Hps]%andb_true_iff.
  destruct p; cbn [is_plain]; auto.
  cbn [pieces_text piece_text].
  rewrite !append_char.
  cbn [free_of]. cbn [plain_piece] in Hp. rewrite Hp. by apply IH.
Qed.

Lemma strip_colors_pieces (ps : list piece) :
  forallb plain_piece ps = true ->
  strip_colors (pieces_text ps) = pieces_text (List.filter is_plain ps).
Proof.
  intros Hps. unfold strip_colors.
  change red with (piece_text Red). change green with (piece_text Green).
  change reset with (piece_text Reset).
  rewrite (remove_code Red ps eq_refl Hps).
  rewrite (remove_code Green _ eq_refl (filter_keeps_plain _ _ Hps)).
  rewrite (remove_code Reset _ eq_refl
             (filter_keeps_plain _ _ (filter_keeps_plain _ _ Hps))).
  by rewrite filter_codes.
Qed.

(** X15. On text made of characters other than ESC and of the three colour
    codes (red, green, reset), in any order, the cleaning done before
    logging removes every colour code and leaves every other character in
    place, so the cleaned text has no ESC character. *)
Theorem strip_colors_removes_codes (ps : list piece) :
  forallb plain_piece ps = true ->
  strip_colors (pieces_text ps) = pieces_text (List.filter is_plain ps) /\
  free_of esc (strip_colors (pieces_text ps)) = true.
Proof.
  intros Hps. pose proof (strip_colors_pieces ps Hps) as H.
  split; [exact H|]. rewrite H. by apply plain_text_free.
Qed.

Lemma strip_colors_removes_codes_witness :
  strip_colors (red +:+ "hot" +:+ reset +:+ green +:+ "ok" +:+ reset) = "hotok".
Proof.
  exact (proj1 (strip_colors_removes_codes
    [Red; Plain "h"; Plain "o"; Plain "t"; Reset; Green; Plain "o"; Plain "k";
     Reset] eq_refl)).
Defined.

Lemma pieces_text_app (a b : list piece) :
  pieces_text (a ++ b) = pieces_text a +:+ pieces_text b.
Proof.
  induction a as [|p a IH]; [done|]. cbn [app pieces_text].
  by rewrite IH, append_assoc.
Qed.

Lemma marked_app (s t : string) : marked s -> marked t -> marked (s +:+ t).
Proof.
  intros (ps & Hps & ->) (qs & Hqs & ->). exists (ps ++ qs). split.
  - by rewrite forallb_app, Hps, Hqs.
  - by rewrite pieces_text_app.
Qed.

Lemma marked_free (s : string) : free_of esc s = true -> marked s.
Proof.
  induction s as [|a s IH]; cbn [free_of].
  - intros _. by exists [].
  - intros [Ha Hs]%andb_true_iff. destruct (IH Hs) as (ps & Hps & ->).
    exists (Plain a :: ps). cbn [forallb plain_piece]. by rewrite Ha, Hps.
Qed.

Lemma marked_red : marked red.
Proof. by exists [Red]. Qed.
Lemma marked_green : marked green.
Proof. by exists [Green]. Qed.
Lemma marked_reset : marked reset.
Proof. by exists [Reset]. Qed.

Lemma marked_join (sep : string) (l : list string) :
  marked sep -> Forall marked l -> marked (join sep l).
Proof.
  intros Hsep Hl. induction Hl as [|x l Hx Hl IH]; [by exists []|].
  destruct l as [|y l]; [done|].
  change (join sep (x :: y :: l)) with (x +:+ sep +:+ join sep (y :: l)).
  auto using marked_app.
Qed.

Lemma free_of_str_mul (c a : ascii) (n : nat) :
  Ascii.eqb a c = false -> free_of c (str_mul (String a "") n) = true.
Proof.
  intros H. induction n as [|n IH]; [done|]. cbn [str_mul].
  rewrite append_char. cbn [free_of]. by rewrite H, IH.
Qed.

Lemma marked_ljust (n : nat) (s : string) :
  free_of esc s = true -> marked (ljust n s).
Proof.
  intros H. unfold ljust. apply marked_app; apply marked_free; [done|].
  by apply free_of_str_mul.
Qed.

Ltac marked_text :=
  repeat first
    [ apply marked_red | apply marked_green | apply marked_reset
    | apply marked_ljust; assumption
    | apply marked_free; first [assumption | reflexivity]
    | apply marked_app ].

Lemma marked_report (rt : builtins) (d : health_data) :
  plain_data rt d = true -> marked (format_report rt d).
Proof.
  unfold plain_data.
  intros [[[[[Hts Hc]%andb_true_iff Hm]%andb_true_iff Hd]%andb_true_iff
           Hps]%andb_true_iff Hal]%andb_true_iff.
  unfold format_report. apply marked_join; [by apply marked_free|].
  unfold report_lines. rewrite !Forall_app. repeat split.
  - repeat (apply Forall_cons; split); try (by apply Forall_nil); marked_text.
  - destruct (top_processes d) as [|p ps] eqn:Hprocs; [by apply Forall_nil|].
    rewrite !Forall_app. repeat split.
    + repeat (apply Forall_cons; split); try (by apply Forall_nil); marked_text.
    + apply Forall_fmap, Forall_forall. intros q Hq. cbn.
      rewrite forallb_forall in Hps. apply list_elem_of_In, Hps in Hq.
      unfold plain_process in Hq.
      apply andb_true_iff in Hq as [[[[Hu Hpid]%andb_true_iff
        Hcpu]%andb_true_iff Hmem]%andb_true_iff Hcmd].
      unfold process_line. marked_text.
    + repeat (apply Forall_cons; split); try (by apply Forall_nil); marked_text.
  - destruct (alerts d) as [|al als] eqn:Halerts.
    + repeat (apply Forall_cons; split); try (by apply Forall_nil); marked_text.
    + apply Forall_cons; split; [marked_text|].
      apply Forall_fmap, Forall_forall. intros x Hx. cbn.
      rewrite forallb_forall in Hal. apply list_elem_of_In, Hal in Hx.
      marked_text.
  - repeat (apply Forall_cons; split); try (by apply Forall_nil); marked_text.
Qed.

(** X16. When no text of the health data (timestamp, formatted values,
    process fields, alerts) holds an ESC character, the report cleaned for
    the log has no ESC character at all: every colour code that
    [format_report] wrote is gone. *)
Theorem logged_report_is_plain (rt : builtins) (d : health_data) :
  plain_data rt d = true ->
  free_of esc (strip_colors (format_report rt d)) = true.
Proof.
  intros H. destruct (marked_report rt d H) as (ps & Hps & ->).
  rewrite (strip_colors_pieces ps Hps). by apply plain_text_free.
Qed.

Lemma logged_report_is_plain_witness :
  exists d,
    check_system_health Reference.runtime Reference.linux_host
      (<["cpu" := 50]> DEFAULT_THRESHOLDS) = Ok d /\
    plain_data Reference.runtime d = true /\
    free_of esc (strip_colors (format_report Reference.runtime d)) = true.
Proof.
  destruct (check_system_health Reference.runtime Reference.linux_host
              (<["cpu" := 50]> DEFAULT_THRESHOLDS)) as [d|e] eqn:E;
    [|by vm_compute in E].
  exists d. split; [done|].
  assert (plain_data Reference.runtime d = true) as Hd.
  { vm_compute in E. injection E as <-. vm_compute. reflexivity. }
  split; [exact Hd|exact (logged_report_is_plain Reference.runtime d Hd)].
Defined.

(** ** The report *)

Ltac lines_start :=
  repeat (apply Forall_cons; split); try (by apply Forall_nil);
  try reflexivity.

Lemma report_lines_not_green (rt : builtins) (d : health_data) :
  alerts d <> [] ->
  Forall (fun l => startswith green l = false) (report_lines rt d).
Proof.
  intros Hne. unfold report_lines. rewrite !Forall_app. repeat split.
  - lines_start.
  - destruct (top_processes d) as [|p ps]; [by apply Forall_nil|].
    rewrite !Forall_app. repeat split; [lines_start| |lines_start].
    apply Forall_fmap, Forall_forall. intros q _. reflexivity.
  - destruct (alerts d) as [|al als]; [done|].
    apply Forall_cons; split; [reflexivity|].
    apply Forall_fmap, Forall_forall. intros x _. reflexivity.
  - lines_start.
Qed.

Lemma report_lines_not_red (rt : builtins) (d : health_data) :
  alerts d = [] ->
  Forall (fun l => startswith red l = false) (report_lines rt d).
Proof.
  intros He. unfold report_lines. rewrite He, !Forall_app. repeat split.
  - lines_start.
  - destruct (top_processes d) as [|p ps]; [by apply Forall_nil|].
    rewrite !Forall_app. repeat split; [lines_start| |lines_start].
    apply Forall_fmap, Forall_forall. intros q _. reflexivity.
  - lines_start.
  - lines_start.
Qed.

(** X17. The report has a line for every alert and a row for every process
    of the data. It has the green line "No alerts - All metrics within
    thresholds" exactly when there is no alert, and the red heading
    "ALERTS:" exactly when there is one. Its number of lines is 13, plus 4
    and one per process when there is a process, plus one per alert. *)
Theorem report_sections (rt : builtins) (d : health_data) :
  (forall alert, alert ∈ alerts d ->
     ("  " +:+ red +:+ "✗ " +:+ alert +:+ reset) ∈ report_lines rt d) /\
  (forall p, p ∈ top_processes d -> process_line p ∈ report_lines rt d) /\
  ((green +:+ "✓ No alerts - All metrics within thresholds" +:+ reset)
     ∈ report_lines rt d <-> alerts d = []) /\
  ((red +:+ "⚠ ALERTS:" +:+ reset) ∈ report_lines rt d <-> alerts d <> []) /\
  length (report_lines rt d)
    = (13 + match top_processes d with
            | [] => 0
            | ps => 4 + length ps
            end + length (alerts d))%nat.
Proof.
  split; [|split; [|split; [|split]]].
  - intros alert Hin. unfold report_lines. rewrite !elem_of_app.
    right. right. left. destruct (alerts d) as [|al als]; [by apply elem_of_nil in Hin|].
    apply list_elem_of_further, list_elem_of_fmap. eauto.
  - intros p Hin. unfold report_lines. rewrite !elem_of_app.
    right. left. destruct (top_processes d) as [|q qs]; [by apply elem_of_nil in Hin|].
    rewrite !elem_of_app. right. left. apply list_elem_of_fmap. eauto.
  - split.
    + intros Hin. destruct (alerts d) as [|al als] eqn:Hal; [done|].
      pose proof (report_lines_not_green rt d) as Hng. rewrite Hal in Hng.
      specialize (Hng ltac:(done)). rewrite Forall_forall in Hng.
      by specialize (Hng _ Hin).
    + intros He. unfold report_lines. rewrite He, !elem_of_app.
      right. right. left. apply list_elem_of_here.
  - split.
    + intros Hin He.
      pose proof (report_lines_not_red rt d He) as Hnr.
      rewrite Forall_forall in Hnr. by specialize (Hnr _ Hin).
    + intros Hne. unfold report_lines. rewrite !elem_of_app.
      right. right. left. destruct (alerts d) as [|al als]; [done|].
      apply list_elem_of_here.
  - unfold report_lines. rewrite !length_app.
    destruct (top_processes d) as [|q qs], (alerts d) as [|al als];
      cbn [length]; rewrite ?length_app, ?length_fmap; cbn [length]; lia.
Qed.

(** ** Runs of the host monitor *)

(** X18. Writing a report to the log never raises and touches no other
    file. When the append goes through, the file ends up holding what it
    held (nothing, if it did not exist) followed by the report without its
    colour codes and a newline, and "Report logged to: <path>" is printed.
    When the file cannot be opened no file changes, and when writing or
    closing fails the file holds what reached it; either way "Error writing
    to log file: <error>" is printed instead. *)
Theorem log_to_file_appends
    (w : sys_world) (report path : string) (s : sys_state) :
  exists s', log_to_file w report path s = (Ok tt, s') /\
    checks s' = checks s /\
    (forall other, other <> path -> files s' !! other = files s !! other) /\
    let text := strip_colors report +:+ String nl "" in
    match append_to w (checks s) path text with
    | Appended =>
        files s' !! path = Some (default "" (files s !! path) +:+ text) /\
        output s' = output s ++ [Out ("Report logged to: " +:+ path)]
    | OpenFails e =>
        files s' = files s /\
        output s'
          = output s ++ [Out ("Error writing to log file: " +:+ exn_text e)]
    | WriteFails e written =>
        files s' !! path
          = Some (default "" (files s !! path) +:+ str_take written text) /\
        output s'
          = output s ++ [Out ("Error writing to log file: " +:+ exn_text e)]
    end.
Proof.
  unfold log_to_file. cbv zeta.
  destruct (append_to w (checks s) path _) as [|e|e written].
  - eexists. split; [reflexivity|]. cbn [files output checks].
    split; [done|]. split.
    + intros other Hne. by rewrite lookup_insert_ne.
    + by rewrite lookup_insert_eq.
  - eexists. split; [reflexivity|]. done.
  - eexists. split; [reflexivity|]. cbn [files output checks].
    split; [done|]. split.
    + intros other Hne. by rewrite lookup_insert_ne.
    + by rewrite lookup_insert_eq.
Qed.

Lemma grown_refl (fs : gmap string string) (path : string) : grown fs fs path.
Proof. exists "". by rewrite append_nil_r. Qed.

Lemma grown_trans (a b c : gmap string string) (path : string) :
  grown a b path -> grown b c path -> grown a c path.
Proof.
  intros [x Hx] [y Hy]. exists (x +:+ y). by rewrite Hy, Hx, append_assoc.
Qed.

Lemma grown_insert (fs : gmap string string) (path added other : string) :
  grown fs (<[path := default "" (fs !! path) +:+ added]> fs) other.
Proof.
  destruct (decide (other = path)) as [->|Hne].
  - exists added. by rewrite lookup_insert_eq.
  - unfold grown. rewrite lookup_insert_ne by done. apply grown_refl.
Qed.

Lemma run_effect_refl log s : run_effect log s s 0 [].
Proof.
  unfold run_effect. rewrite Nat.add_0_r, app_nil_r.
  repeat split; auto using grown_refl.
Qed.

Lemma run_effect_trans log s1 s2 s3 n m outs outs' :
  run_effect log s1 s2 n outs -> run_effect log s2 s3 m outs' ->
  run_effect log s1 s3 (n + m) (outs ++ outs').
Proof.
  intros (Hc & Hg & Ho & Hn) (Hc' & Hg' & Ho' & Hn').
  unfold run_effect. rewrite Hc', Hc, Hn', Hn, app_assoc.
  split; [lia|]. split; [|split; [|done]].
  - intros path. eapply grown_trans; eauto.
  - intros path Hp. by rewrite Ho', Ho.
Qed.

Lemma say_effect log text s :
  exists s', say text s = (Ok tt, s') /\ run_effect log s s' 0 [Out text].
Proof.
  eexists. split; [reflexivity|]. unfold run_effect. cbn [checks files output].
  rewrite Nat.add_0_r. repeat split; auto using grown_refl.
Qed.



Lemma log_to_file_effect w report path s :
  exists s', log_to_file w report path s = (Ok tt, s') /\
             run_effect (Some path) s s' 0
               [log_message w (checks s) report path].
Proof.
  unfold log_to_file, log_message, log_text. cbv zeta.
  destruct (append_to w (checks s) path _) as [|e|e written].
  - eexists. split; [reflexivity|]. unfold run_effect.
    cbn [checks files output]. rewrite Nat.add_0_r.
    split; [done|]. split; [intros other; apply grown_insert|].
    split; [|done]. intros other Hne. rewrite lookup_insert_ne; [done|congruence].
  - apply say_effect.
  - eexists. split; [reflexivity|]. unfold run_effect.
    cbn [checks files output]. rewrite Nat.add_0_r.
    split; [done|]. split; [intros other; apply grown_insert|].
    split; [|done]. intros other Hne. rewrite lookup_insert_ne; [done|congruence].
Qed.

Lemma report_once_effect rt w (thresholds : gmap string Z) log s :
  is_Some (thresholds !! "cpu") -> is_Some (thresholds !! "memory") ->
  is_Some (thresholds !! "disk") ->
  exists s', report_once rt w thresholds log s = (Ok tt, s') /\
             run_effect (given log) s s' 1
               (once_output rt w (checks s) thresholds log).
Proof.
  intros [tc Hc] [tm Hm] [td Hd].
  destruct (check_system_health_ok rt (host_at w (checks s)) thresholds
              tc tm td Hc Hm Hd) as [d Hrun].
  unfold report_once, once_output, report_at, mbind, run_bind, health_check.
  rewrite Hrun.
  set (s1 := {| output := output s; files := files s;
                checks := S (checks s) |}).
  assert (run_effect (given log) s s1 1 []) as H1.
  { unfold run_effect, s1. cbn [checks files output].
    rewrite app_nil_r. repeat split; auto using grown_refl. lia. }
  set (s2 := {| output := output s1 ++ [Out (format_report rt d)];
                files := files s1; checks := checks s1 |}).
  assert (run_effect (given log) s1 s2 0 [Out (format_report rt d)]) as H2.
  { unfold run_effect, s2. cbn [checks files output]. rewrite Nat.add_0_r.
    repeat split; auto using grown_refl. }
  change (say (format_report rt d) s1) with (@Ok unit tt, s2).
  cbv iota beta.
  destruct (given log) as [path|] eqn:Hg.
  - destruct (log_to_file_effect w (format_report rt d) path s2)
      as (s3 & -> & H3).
    exists s3. split; [done|].
    pose proof (run_effect_trans _ _ _ _ _ _ _ _
                  (run_effect_trans _ _ _ _ _ _ _ _ H1 H2) H3) as H.
    by replace (1 + 0 + 0)%nat with 1%nat in H by lia.
  - exists s2. split; [done|].
    pose proof (run_effect_trans _ _ _ _ _ _ _ _ H1 H2) as H.
    by replace (1 + 0)%nat with 1%nat in H by lia.
Qed.


Lemma banner_effect {A} (thresholds : gmap string Z) interval log s tc tm td
    (k : run A) :
  thresholds !! "cpu" = Some tc -> thresholds !! "memory" = Some tm ->
  thresholds !! "disk" = Some td ->
  exists s',
    (_ ← say "Starting continuous system health monitoring";
     _ ← say ("Check interval: " +:+ str interval +:+ " seconds");
     tc ← lift (getitem thresholds "cpu");
     tm ← lift (getitem thresholds "memory");
     td ← lift (getitem thresholds "disk");
     _ ← say ("Thresholds: CPU=" +:+ str tc +:+ "%, Memory=" +:+ str tm
               +:+ "%, Disk=" +:+ str td +:+ "%");
     _ ← match given log with
         | Some f => say ("Logging to: " +:+ f)
         | None => mret tt
         end;
     _ ← say ("Press Ctrl+C to stop" +:+ String nl "");
     k) s = k s' /\
    run_effect (given log) s s' 0 (monitor_banner thresholds interval log).
Proof.
  intros Hc Hm Hd. unfold mbind, run_bind, lift, getitem, monitor_banner.
  destruct (say_effect (given log)
              "Starting continuous system health monitoring" s)
    as (s1 & -> & H1).
  destruct (say_effect (given log)
              ("Check interval: " +:+ str interval +:+ " seconds") s1)
    as (s2 & -> & H2).
  rewrite Hc, Hm, Hd. cbn [of_option default].
  destruct (say_effect (given log)
              ("Thresholds: CPU=" +:+ str tc +:+ "%, Memory=" +:+ str tm
                 +:+ "%, Disk=" +:+ str td +:+ "%") s2) as (s3 & -> & H3).
  assert (exists s4,
            match given log with
            | Some f => say ("Logging to: " +:+ f)
            | None => mret tt
            end s3 = (Ok tt, s4) /\
            run_effect (given log) s3 s4 0
              match given log with
              | Some f => [Out ("Logging to: " +:+ f)]
              | None => []
              end) as (s4 & -> & H4).
  { destruct (given log) as [f|] eqn:Hg; rewrite <- ?Hg; [apply say_effect|].
    exists s3. split; [done|apply run_effect_refl]. }
  destruct (say_effect (given log) ("Press Ctrl+C to stop" +:+ String nl "") s4)
    as (s5 & -> & H5).
  exists s5. split; [done|].
  pose proof (run_effect_trans _ _ _ _ _ _ _ _
    (run_effect_trans _ _ _ _ _ _ _ _
      (run_effect_trans _ _ _ _ _ _ _ _
        (run_effect_trans _ _ _ _ _ _ _ _ H1 H2) H3) H4) H5) as H.
  cbn [Nat.add] in H. by rewrite <- !app_assoc in H.
Qed.


Lemma sys_continuous_refused rt w interval (thresholds : gmap string Z) log s e :
  time_sleep interval = Raise e -> interrupt_after w <> 0%nat ->
  is_Some (thresholds !! "cpu") -> is_Some (thresholds !! "memory") ->
  is_Some (thresholds !! "disk") ->
  exists s',
    SystemHealthMonitor.continuous_monitor rt w interval thresholds log s
      = (Raise e, s') /\
    run_effect (given log) s s' 1
      (monitor_banner thresholds interval log
         ++ once_output rt w (checks s) thresholds log).
Proof.
  intros He Hn Hc Hm Hd. pose proof Hc as [tc Hc']. pose proof Hm as [tm Hm'].
  pose proof Hd as [td Hd'].
  unfold SystemHealthMonitor.continuous_monitor.
  destruct (banner_effect thresholds interval log s tc tm td
              (_ ← report_loop rt w (interrupt_after w) interval thresholds log;
               say (String nl (String nl "Monitoring stopped by user.")))
              Hc' Hm' Hd') as (s1 & -> & H1).
  destruct (interrupt_after w) as [|k]; [done|]. cbn [report_loop].
  unfold mbind, run_bind.
  destruct (report_once_effect rt w thresholds log s1 Hc Hm Hd)
    as (s2 & -> & H2).
  assert (checks s1 = checks s) as Hk by (pose proof H1 as [E1 _]; lia).
  rewrite Hk in H2.
  unfold nap. rewrite He. exists s2. split; [done|].
  exact (run_effect_trans _ _ _ _ _ _ _ _ H1 H2).
Qed.



(** X20. A one-time check prints the report of the health data once. With
    no log file (none given, or an empty path) no file changes. With a log
    file, the printed report without its colour codes and a newline is
    appended to it and "Report logged to" follows on the screen; when the
    file cannot be opened, or writing or closing it fails, the report is
    printed all the same, followed by "Error writing to log file", the file
    holds what reached it, and the run ends normally. *)
Theorem one_time_check_reports_and_logs
    (rt : builtins) (w : sys_world) (a : sys_args) (s : sys_state)
    (policy : gmap string Z) (d : health_data) :
  opt_continuous a = false ->
  parse_thresholds (opt_thresholds a) = Ok policy ->
  check_system_health rt (host_at w (checks s)) policy = Ok d ->
  exists s',
    SystemHealthMonitor.main rt w a s = (Ok tt, s') /\
    let report := format_report rt d in
    let text := strip_colors report +:+ String nl "" in
    match given (opt_log a) with
    | None => output s' = output s ++ [Out report] /\ files s' = files s
    | Some path =>
        match append_to w (S (checks s)) path text with
        | Appended =>
            output s'
              = output s ++ [Out report; Out ("Report logged to: " +:+ path)] /\
            files s'
              = <[path := default "" (files s !! path) +:+ text]> (files s)
        | OpenFails e =>
            output s'
              = output s
                  ++ [Out report;
                      Out ("Error writing to log file: " +:+ exn_text e)] /\
            files s' = files s
        | WriteFails e written =>
            output s'
              = output s
                  ++ [Out report;
                      Out ("Error writing to log file: " +:+ exn_text e)] /\
            files s'
              = <[path := default "" (files s !! path)
                            +:+ str_take written text]> (files s)
        end
    end.
Proof.
  intros Hc Hp Hd.
  unfold SystemHealthMonitor.main, mbind, run_bind, lift. rewrite Hp, Hc.
  unfold report_once, mbind, run_bind, health_check. rewrite Hd.
  unfold say at 1. cbn [output files checks]. cbv zeta.
  destruct (given (opt_log a)) as [path|].
  - unfold log_to_file. cbn [output files checks]. cbv zeta.
    destruct (append_to w (S (checks s)) path _) as [|e|e written];
      (eexists; split; [reflexivity|]); cbn [output files checks];
      by rewrite <- app_assoc.
  - eexists. split; [reflexivity|]. done.
Qed.

Lemma one_time_check_reports_and_logs_witness :
  exists s' d,
    SystemHealthMonitor.main Reference.runtime sample_sys_world
      {| opt_continuous := false; opt_interval := 60;
         opt_log := Some "health.log"; opt_thresholds := Some "cpu=50" |}
      sample_sys_state = (Ok tt, s') /\
    check_system_health Reference.runtime Reference.linux_host
      (<["cpu" := 50]> DEFAULT_THRESHOLDS) = Ok d /\
    files s' !! "health.log"
      = Some (("earlier" +:+ String nl "")
                +:+ strip_colors (format_report Reference.runtime d)
                +:+ String nl "").
Proof.
  assert (parse_thresholds (Some "cpu=50")
          = Ok (<["cpu" := 50]> DEFAULT_THRESHOLDS)) as Hp
    by (vm_compute; reflexivity).
  assert (exists d,
            check_system_health Reference.runtime Reference.linux_host
              (<["cpu" := 50]> DEFAULT_THRESHOLDS) = Ok d) as [d Hd].
  { apply (check_system_health_ok _ _ _ 50 80 80); vm_compute; reflexivity. }
  destruct (one_time_check_reports_and_logs Reference.runtime sample_sys_world
              {| opt_continuous := false; opt_interval := 60;
                 opt_log := Some "health.log";
                 opt_thresholds := Some "cpu=50" |}
              sample_sys_state _ d eq_refl Hp Hd) as (s' & Hrun & Hlog).
  exists s', d. split; [exact Hrun|]. split; [exact Hd|].
  cbv zeta in Hlog.
  change (given (opt_log _)) with (Some "health.log") in Hlog.
  cbv iota beta in Hlog.
  change (append_to sample_sys_world _ "health.log" _) with Appended in Hlog.
  cbv iota beta in Hlog. destruct Hlog as [_ Hfiles].
  rewrite Hfiles, lookup_insert_eq.
  assert (files sample_sys_state !! "health.log"
          = Some ("earlier" +:+ String nl "")) as -> by (vm_compute; reflexivity).
  cbn [from_option id]. reflexivity.
Defined.

(** X24. In continuous mode an interval [time.sleep] refuses ends the
    monitor at its first sleep, with [ValueError] below zero and
    [OverflowError] beyond the range of the clock, which nothing catches:
    it has then printed its opening lines and the report of one health
    check, logged it if asked, and never prints "Monitoring stopped by
    user.". *)
Theorem refused_interval_ends_monitor
    (rt : builtins) (w : sys_world) (a : sys_args) (s : sys_state)
    (policy : gmap string Z) :
  opt_continuous a = true ->
  parse_thresholds (opt_thresholds a) = Ok policy ->
  opt_interval a < 0 \/ max_sleep < opt_interval a ->
  interrupt_after w <> 0%nat ->
  exists e s',
    SystemHealthMonitor.main rt w a s = (Raise e, s') /\
    exn_class e = refusal (opt_interval a) /\
    output s'
      = output s ++ monitor_banner policy (opt_interval a) (opt_log a)
          ++ once_output rt w (checks s) policy (opt_log a) /\
    checks s' = S (checks s) /\
    (forall path, grown (files s) (files s') path).
Proof.
  intros Hc Hp Hi Hn.
  destruct (sleep_refused _ Hi) as (e & He & Hclass).
  pose proof (parse_thresholds_keys _ _ Hp) as Hkeys.
  assert (is_Some (policy !! "cpu")) as Hkc
    by (apply Hkeys; exists 80; vm_compute; reflexivity).
  assert (is_Some (policy !! "memory")) as Hkm
    by (apply Hkeys; exists 80; vm_compute; reflexivity).
  assert (is_Some (policy !! "disk")) as Hkd
    by (apply Hkeys; exists 80; vm_compute; reflexivity).
  unfold SystemHealthMonitor.main, mbind, run_bind, lift. rewrite Hp, Hc.
  destruct (sys_continuous_refused rt w (opt_interval a) policy (opt_log a) s e
              He Hn Hkc Hkm Hkd) as (s' & -> & Hk & Hg & _ & Ho).
  exists e, s'. split; [done|]. split; [done|]. split; [done|].
  split; [lia|done].
Qed.

Lemma refused_interval_ends_monitor_witness :
  exists e s',
    SystemHealthMonitor.main Reference.runtime sample_sys_world
      {| opt_continuous := true; opt_interval := -5;
         opt_log := None; opt_thresholds := None |}
      sample_sys_state = (Raise e, s') /\
    exn_class e = ValueError /\ checks s' = 1%nat.
Proof.
  destruct (refused_interval_ends_monitor Reference.runtime sample_sys_world
              {| opt_continuous := true; opt_interval := -5;
                 opt_log := None; opt_thresholds := None |}
              sample_sys_state DEFAULT_THRESHOLDS eq_refl eq_refl)
    as (e & s' & Hrun & Hclass & _ & Hk & _).
  { left. by vm_compute. }
  { by vm_compute. }
  exists e, s'. split; [exact Hrun|]. split; [exact Hclass|exact Hk].
Defined.

(** ** More on limits and order *)

Lemma float_gt_mono (x : float) (t t' : Z) :
  t <= t' -> num_gt_Z (NFloat x) t' = true -> num_gt_Z (NFloat x) t = true.
Proof.
  intros Hle. unfold num_gt_Z, num_cmp_Z, float_cmp_Z.
  destruct (Prim2SF x) as [neg|neg| |neg m e]; try done.
  - destruct (Z.compare_spec 0 t'); try done. intros _.
    destruct (Z.compare_spec 0 t); try done; lia.
  - set (v := if neg then Z.neg m else Z.pos m).
    destruct (0 <=? e) eqn:He.
    + destruct (Z.compare_spec (v * 2 ^ e) t'); try done. intros _.
      destruct (Z.compare_spec (v * 2 ^ e) t); try done; lia.
    + apply Z.leb_gt in He.
      assert (0 < 2 ^ (- e)) by (apply Z.pow_pos_nonneg; lia).
      destruct (Z.compare_spec v (t' * 2 ^ (- e))); try done. intros _.
      destruct (Z.compare_spec v (t * 2 ^ (- e))); try done; nia.
Qed.

Lemma num_gt_mono (v : num) (t t' : Z) :
  t <= t' -> num_gt_Z v t' = true -> num_gt_Z v t = true.
Proof.
  destruct v as [n|x]; [|apply float_gt_mono].
  intros Hle. rewrite !num_gt_Z_int. lia.
Qed.

Lemma check_system_health_alerts rt h (thresholds : gmap string Z) tc tm td :
  thresholds !! "cpu" = Some tc ->
  thresholds !! "memory" = Some tm ->
  thresholds !! "disk" = Some td ->
  exists d c m k,
    check_system_health rt h thresholds = Ok d /\
    get_cpu_usage rt h = Ok c /\ get_memory_usage rt h = Ok m /\
    get_disk_usage rt h = Ok k /\
    alerts d = metric_alerts rt "CPU" c tc ++ metric_alerts rt "Memory" m tm
                 ++ metric_alerts rt "Disk" k td.
Proof.
  intros Hc Hm Hd.
  destruct (get_cpu_usage_total rt h) as [c Ec].
  destruct (get_memory_usage_total rt h) as [m Em].
  destruct (get_disk_usage_total rt h) as [k Ek].
  destruct (get_top_processes_total h 5) as [ps Eps].
  eexists _, c, m, k. split.
  { unfold check_system_health. rewrite Ec, Em, Ek, Eps. simpl.
    rewrite (check_metric_spec _ _ _ _ _ _ _ Hc). simpl.
    rewrite (check_metric_spec _ _ _ _ _ _ _ Hm). simpl.
    rewrite (check_metric_spec _ _ _ _ _ _ _ Hd). simpl.
    rewrite <- app_assoc. reflexivity. }
  done.
Qed.

Lemma metric_alerts_mono rt label v t t' :
  t <= t' ->
  (length (metric_alerts rt label v t') <= length (metric_alerts rt label v t))%nat.
Proof.
  intros Hle. unfold metric_alerts.
  destruct (num_gt_Z v t') eqn:E'; [|simpl; lia].
  by rewrite (num_gt_mono v t t' Hle E').
Qed.

(** X21. Raising limits never adds an alert: on the same host, a policy
    whose three limits are at least those of another gives at most as many
    alerts, and there are never more than three. *)
Theorem higher_limits_fewer_alerts
    (rt : builtins) (h : host) (low high : gmap string Z)
    (tc tm td tc' tm' td' : Z) :
  low !! "cpu" = Some tc -> low !! "memory" = Some tm ->
  low !! "disk" = Some td ->
  high !! "cpu" = Some tc' -> high !! "memory" = Some tm' ->
  high !! "disk" = Some td' ->
  tc <= tc' -> tm <= tm' -> td <= td' ->
  exists d d',
    check_system_health rt h low = Ok d /\
    check_system_health rt h high = Ok d' /\
    (length (alerts d') <= length (alerts d) <= 3)%nat.
Proof.
  intros Hc Hm Hd Hc' Hm' Hd' Lc Lm Ld.
  destruct (check_system_health_alerts rt h low tc tm td Hc Hm Hd)
    as (d & c & m & k & Hrun & Ec & Em & Ek & Hal).
  destruct (check_system_health_alerts rt h high tc' tm' td' Hc' Hm' Hd')
    as (d' & c' & m' & k' & Hrun' & Ec' & Em' & Ek' & Hal').
  rewrite Ec in Ec'. rewrite Em in Em'. rewrite Ek in Ek'.
  injection Ec' as <-. injection Em' as <-. injection Ek' as <-.
  exists d, d'. split; [done|]. split; [done|].
  rewrite Hal, Hal', !length_app.
  pose proof (metric_alerts_mono rt "CPU" c tc tc' Lc).
  pose proof (metric_alerts_mono rt "Memory" m tm tm' Lm).
  pose proof (metric_alerts_mono rt "Disk" k td td' Ld).
  split; [lia|]. unfold metric_alerts.
  destruct (num_gt_Z c tc), (num_gt_Z m tm), (num_gt_Z k td); simpl; lia.
Qed.

Lemma higher_limits_fewer_alerts_witness :
  exists d d',
    check_system_health Reference.runtime Reference.linux_host
      (<["cpu" := 50]> DEFAULT_THRESHOLDS) = Ok d /\
    check_system_health Reference.runtime Reference.linux_host
      DEFAULT_THRESHOLDS = Ok d' /\
    (length (alerts d') <= length (alerts d) <= 3)%nat.
Proof.
  apply (higher_limits_fewer_alerts Reference.runtime Reference.linux_host
           (<["cpu" := 50]> DEFAULT_THRESHOLDS) DEFAULT_THRESHOLDS
           50 80 80 80 80 80);
    first [vm_compute; reflexivity | lia].
Defined.

(** X22. A thresholds string is read as a set of limits when its keys are
    distinct: two strings that name the same pairs in a different order give
    the same policy. *)
Theorem parse_thresholds_order
    (s1 s2 : string) (ps1 ps2 : list (string * Z)) :
  named_pairs (split "," s1) = Ok ps1 ->
  named_pairs (split "," s2) = Ok ps2 ->
  ps1 ≡ₚ ps2 -> NoDup ps1.*1 ->
  exists policy,
    parse_thresholds (Some s1) = Ok policy /\
    parse_thresholds (Some s2) = Ok policy.
Proof.
  intros H1 H2 Hperm Hnd.
  assert (forall s ps, named_pairs (split "," s) = Ok ps -> truthy s = true)
    as Htruthy.
  { intros [|a s] ps; [by vm_compute|done]. }
  unfold parse_thresholds.
  rewrite (Htruthy _ _ H1), (Htruthy _ _ H2), !parse_pairs_spec, H1, H2.
  simpl. eexists. split; [reflexivity|]. f_equal.
  apply map_eq. intros key. rewrite !foldl_insert_lookup.
  assert (NoDup ps2.*1) as Hnd2 by (by rewrite <- Hperm).
  destruct (last_binding key ps1) as [v|] eqn:E1.
  - apply last_binding_in in E1. rewrite Hperm in E1.
    by rewrite (last_binding_nodup _ _ _ Hnd2 E1).
  - apply last_binding_none in E1. rewrite Hperm in E1.
    apply last_binding_none in E1. by rewrite E1.
Qed.

Lemma parse_thresholds_order_witness :
  exists policy,
    parse_thresholds (Some "cpu=90,memory=85") = Ok policy /\
    parse_thresholds (Some " memory = 85 , cpu=90") = Ok policy.
Proof.
  apply (parse_thresholds_order "cpu=90,memory=85" " memory = 85 , cpu=90"
           [("cpu", 90); ("memory", 85)] [("memory", 85); ("cpu", 90)]).
  - vm_compute. reflexivity.
  - vm_compute. reflexivity.
  - apply Permutation_swap.
  - cbn. apply NoDup_cons. split; [|apply NoDup_singleton].
    rewrite list_elem_of_singleton. discriminate.
Defined.

(** ** Answers [int] refuses *)

(** X25. An answer of more than 4300 digits is not read as a status code:
    [int] refuses it after the [isdigit] test has let it through, and the
    verdict is DOWN with the code "ERROR" and the text of the ValueError as
    its message. *)
Theorem long_answer_is_error
    (spawn : list string -> child) (now u : string) (timeout : Z)
    (stdout : string) :
  subprocess_run (spawn (curl_cmd u timeout)) (timeout + 2) = Ok stdout ->
  isdigit (strip stdout) = true ->
  max_str_digits < digit_count (strip stdout) ->
  let r := check_application_health spawn now u timeout in
  status r = "DOWN" /\ status_code r = CodeStr "ERROR" /\
  exists e,
    int (strip stdout) = Raise e /\ exn_class e = ValueError /\
    message r = "Error: " +:+ exn_text e.
Proof.
  intros Hrun Hd Hlong r. subst r.
  unfold check_application_health. rewrite Hrun.
  unfold mbind, res_bind, bind, interpret. rewrite Hd.
  assert (truthy (strip stdout) = true) as ->.
  { unfold isdigit in Hd. by apply andb_true_iff in Hd as [? _]. }
  destruct (isdigit_int _ Hd) as (c & Hc & _).
  cbn [negb orb]. unfold int. rewrite Hc.
  apply Z.leb_gt in Hlong. rewrite Hlong.
  split; [done|]. split; [done|]. eexists. split; [reflexivity|]. by split.
Qed.

Lemma long_answer_is_error_witness :
  status_code
    (check_application_health (fun _ => Exits 1 (str_mul "7" 4301))
       "2024-05-01 12:00:00" "https://site.example" 5)
    = CodeStr "ERROR".
Proof.
  refine (proj1 (proj2
    (long_answer_is_error (fun _ => Exits 1 (str_mul "7" 4301))
       "2024-05-01 12:00:00" "https://site.example" 5 (str_mul "7" 4301)
       eq_refl _ _))).
  - vm_compute. reflexivity.
  - by vm_compute.
Defined.
